(** * next-error-logger: storage adapters, logger facade, auth adapters and
      route handlers

    A shallow embedding of the TypeScript sources

      - [src/adapters/sql.ts], [src/adapters/prisma.ts],
        [src/adapters/drizzle.ts]   (storage adapters),
      - [src/logger.ts]             (logger facade),
      - [src/api/index.ts]          (route handlers),
      - [src/auth/next-auth.ts], [src/auth/clerk.ts]   (auth adapters),

    followed by the properties of the specification that concern them, and
    by further properties of the code.  Of the storage adapters the
    operations [findMany], [findById], [delete] and [deleteMany] are
    embedded, and [create] of the raw-SQL adapter.

    Asynchronous functions are embedded as programs of a small free monad:
    a program either returns, throws, writes to the console, or performs a
    call on an external collaborator (database client, executor, auth
    provider, request) and continues with the collaborator's answer, which
    is a value or a rejection.  Running a program against a handler for
    the calls yields the outcome together with the list of calls made. *)

From Stdlib Require Import String Ascii ZArith List Bool DecimalString Lia.
From Stdlib Require Import Floats.SpecFloat.
From ExtLib Require Import Structures.Monad Structures.MonadExc.
Import ListNotations.
Import MonadNotation.

Local Open Scope string_scope.
Local Open Scope Z_scope.
Local Open Scope monad_scope.

(* ===================================================================== *)
(** * JavaScript preliminaries *)
(* ===================================================================== *)

(** The line feed of a template literal that spans several lines. *)
Definition nl : string := String (ascii_of_nat 10) EmptyString.

(** [`${n}`] for an integral number [n]. *)
Definition string_of_Z (z : Z) : string := NilZero.string_of_int (Z.to_int z).

(** A JavaScript number: a value of the binary64 format of IEEE 754, with
    one [NaN].  A finite number [S754_finite s m e] is [m * 2^e], negated
    when [s]; a significand or an exponent outside the format is read as
    the number of the format nearest to it. *)
Definition Double : Type := spec_float.

Module Double.

Definition prec : Z := 53.
Definition emax : Z := 1024.

(** [a - b] and [a * b], rounded to the nearest number, ties to even. *)
Definition sub (a b : Double) : Double := SFsub prec emax a b.
Definition mul (a b : Double) : Double := SFmul prec emax a b.

(** The number an integer literal denotes. *)
Definition of_Z (z : Z) : Double := binary_normalize prec emax z 0 false.

(** [ceil (a / b)] for a positive [b]. *)
Definition ceil_div (a b : Z) : Z := - ((- a) / b).

(** An estimate of the decimal exponent of [m * 2^e]: with
    [10^(n-1) <= m * 2^e < 10^n] it is [n] or [n - 1], computed from the
    binary exponent and a bound of [log10 2] taken on the side that keeps
    the estimate from being too large. *)
Definition estimate (m e : Z) : Z :=
  let bits := Z.log2 m + e in
  if 0 <=? bits then ceil_div (bits * 30102999) 100000000
  else ceil_div (bits * 30103) 100000.

(** [r / s] and [r mod s] for [0 <= r < 10 * s]. *)
Fixpoint digit_from (fuel : nat) (r s d : Z) : Z * Z :=
  match fuel with
  | O => (d, r)
  | S fuel' => if r <? s then (d, r) else digit_from fuel' (r - s) s (d + 1)
  end.

(** The digits of [r / s], a number below 1, up to the first place where
    what is left lies within the bounds [mm / s] below and [mp / s]
    above; the bounds count as reached when [even].  [acc] holds the
    digits so far and [count] their number. *)
Fixpoint generate (fuel : nat) (r s mp mm : Z) (even : bool) (acc count : Z)
  : Z * Z :=
  match fuel with
  | O => (acc, count)
  | S fuel' =>
      let '(d, r) := digit_from 10 r s 0 in
      let low := if even then r <=? mm else r <? mm in
      let high := if even then s <=? r + mp else s <? r + mp in
      let acc := acc * 10 + d in
      let count := count + 1 in
      match low, high with
      | false, false =>
          generate fuel' (r * 10) s (mp * 10) (mm * 10) even acc count
      | true, false => (acc, count)
      | false, true => (acc + 1, count)
      | true, true =>
          match 2 * r ?= s with
          | Lt => (acc, count)
          | Gt => (acc + 1, count)
          | Eq => (if Z.even acc then acc else acc + 1, count)
          end
      end
  end.

(** The shortest decimal that denotes [m * 2^e], for a significand and an
    exponent of the format: the digits [s], their number [k] and the
    exponent [n], with [m * 2^e] the number nearest to [s * 10^(n-k)] and
    [k] as small as possible; of two such decimals the nearer one, and the
    even one when they are as near.  The number is [r / s], and the
    numbers that round to it lie between [(r - mm) / s] and
    [(r + mp) / s]: half way to its neighbours, of which the lower one is
    half as far when [m] is the least significand of its binade. *)
Definition shortest (m e : Z) : Z * Z * Z :=
  let even := Z.even m in
  let boundary := (m =? 2 ^ 52) && (-1074 <? e) in
  let '(r, s, mp, mm) :=
    if 0 <=? e
    then let be := Z.shiftl 1 e in
         if boundary then (m * be * 4, 4, be * 2, be)
         else (m * be * 2, 2, be, be)
    else if boundary then (m * 4, Z.shiftl 1 (- e) * 4, 2, 1)
         else (m * 2, Z.shiftl 1 (- e) * 2, 1, 1) in
  let est := estimate m e in
  let '(r, s, mp, mm) :=
    if 0 <=? est then (r, s * 10 ^ est, mp, mm)
    else let scale := 10 ^ (- est) in (r * scale, s, mp * scale, mm * scale) in
  let high := if even then s <=? r + mp else s <? r + mp in
  let '(digits, k) :=
    if high then generate 20 r s mp mm even 0 0
    else generate 20 (r * 10) s (mp * 10) (mm * 10) even 0 0 in
  (digits, k, if high then est + 1 else est).

Fixpoint zeros (n : nat) : string :=
  match n with
  | O => EmptyString
  | S n' => String "0" (zeros n')
  end.

(** [Number::toString] on the digits [s], [k] of them, with exponent [n]. *)
Definition layout (s k n : Z) : string :=
  let digits := string_of_Z s in
  if (-5 <=? n) && (n <=? 21)
  then
    if k <=? n then digits ++ zeros (Z.to_nat (n - k))
    else if 0 <? n
    then substring 0 (Z.to_nat n) digits ++ "."
         ++ substring (Z.to_nat n) (Z.to_nat (k - n)) digits
    else "0." ++ zeros (Z.to_nat (- n)) ++ digits
  else
    let exponent := (if n <? 0 then "-" else "+") ++ string_of_Z (Z.abs (n - 1)) in
    if k =? 1 then digits ++ "e" ++ exponent
    else substring 0 1 digits ++ "." ++ substring 1 (Z.to_nat (k - 1)) digits
         ++ "e" ++ exponent.

(** [`${x}`]: the text of a number in a template literal. *)
Definition text (x : Double) : string :=
  match x with
  | S754_nan => "NaN"
  | S754_zero _ => "0"
  | S754_infinity false => "Infinity"
  | S754_infinity true => "-Infinity"
  | S754_finite sign m0 e0 =>
      match binary_normalize prec emax (Zpos m0) e0 false with
      | S754_finite _ m e =>
          let '(s, k, n) := shortest (Zpos m) e in
          (if sign then "-" else EmptyString) ++ layout s k n
      | S754_infinity _ => if sign then "-Infinity" else "Infinity"
      | _ => "0"
      end
  end.

End Double.

(** Truthiness of a string: only the empty string is falsy. *)
Definition truthy (s : string) : bool := negb (String.eqb s EmptyString).

(** Truthiness of [string | undefined] (and of [string | null]). *)
Definition truthy_opt (o : option string) : bool :=
  match o with
  | Some s => truthy s
  | None => false
  end.

(** [x || null] for [x : string | null | undefined]. *)
Definition or_null (o : option string) : option string :=
  if truthy_opt o then o else None.

(** [arr.join(sep)] *)
Fixpoint join (sep : string) (l : list string) : string :=
  match l with
  | [] => EmptyString
  | [x] => x
  | x :: rest => x ++ sep ++ join sep rest
  end.

(** A number as the adapters return it: integral, or [NaN]. *)
Inductive JsNumber : Type :=
| JsNum (z : Z)
| JsNaN.

(** What a [throw] carries: an instance of [Error] with its message, or
    any other value. *)
Inductive Thrown : Type :=
| ThrowError (message : string)
| ThrowOther (description : string).

(** [err instanceof Error ? err.message : 'Unknown error'] *)
Definition error_message (err : Thrown) : string :=
  match err with
  | ThrowError m => m
  | ThrowOther _ => "Unknown error"
  end.

(** A [Date] object; [new Date(x)] yields an invalid date when [x] does not
    parse. *)
Inductive Date : Type :=
| ValidDate (ms : Z)
| InvalidDate.

(** Parsed JSON. *)
#[warnings="-register-all"] Inductive Json : Type :=
| JNull
| JBool (b : bool)
| JNumber (z : Z)
| JString (s : string)
| JArray (items : list Json)
| JObject (fields : list (string * Json)).

(* ===================================================================== *)
(** * Data model ([src/types.ts]) *)
(* ===================================================================== *)

Inductive LogLevel : Type := LvError | LvWarn | LvInfo | LvDebug.

Definition level_eqb (a b : LogLevel) : bool :=
  match a, b with
  | LvError, LvError | LvWarn, LvWarn | LvInfo, LvInfo | LvDebug, LvDebug => true
  | _, _ => false
  end.

(** The string a level is at run time. *)
Definition level_string (l : LogLevel) : string :=
  match l with
  | LvError => "error"
  | LvWarn => "warn"
  | LvInfo => "info"
  | LvDebug => "debug"
  end.

(** [ErrorLogEntry]; [None] is [null]. *)
Record ErrorLogEntry : Type := {
  id : string;
  level : LogLevel;
  message : string;
  stack : option string;
  userId : option string;
  userEmail : option string;
  userName : option string;
  path : option string;
  method : option string;
  userAgent : option string;
  ip : option string;
  metadata : option Json;
  createdAt : Date
}.

(** [Omit<ErrorLogEntry, 'id' | 'createdAt'>], the argument of [create]. *)
Record NewEntry : Type := {
  new_level : LogLevel;
  new_message : string;
  new_stack : option string;
  new_userId : option string;
  new_userEmail : option string;
  new_userName : option string;
  new_path : option string;
  new_method : option string;
  new_userAgent : option string;
  new_ip : option string;
  new_metadata : option Json
}.

Inductive OrderBy : Type := ByCreatedAt | ByLevel.
Inductive Order : Type := Asc | Desc.

(** [QueryOptions]; [None] is an absent ([undefined]) property. *)
Record QueryOptions : Type := {
  q_page : option Double;
  q_limit : option Double;
  q_level : option LogLevel;
  q_userId : option string;
  q_search : option string;
  q_startDate : option Date;
  q_endDate : option Date;
  q_orderBy : option OrderBy;
  q_order : option Order
}.

(** The argument of [deleteMany]: [{ before?: Date; level?: LogLevel }]. *)
Record DeleteManyOptions : Type := {
  d_before : option Date;
  d_level : option LogLevel
}.

(** The result of [findMany]. *)
Record FindManyResult : Type := {
  logs : list ErrorLogEntry;
  total : JsNumber
}.

(** Destructuring defaults: [const { page = 1, limit = 50, ... } = options]. *)
Definition page_of (o : QueryOptions) : Double :=
  match q_page o with Some p => p | None => Double.of_Z 1 end.
Definition limit_of (o : QueryOptions) : Double :=
  match q_limit o with Some l => l | None => Double.of_Z 50 end.
Definition orderBy_of (o : QueryOptions) : OrderBy :=
  match q_orderBy o with Some b => b | None => ByCreatedAt end.
Definition order_of (o : QueryOptions) : Order :=
  match q_order o with Some d => d | None => Desc end.

(** [RequestContext]; [None] is an absent property. *)
Record RequestContext : Type := {
  ctx_path : option string;
  ctx_method : option string;
  ctx_userAgent : option string;
  ctx_ip : option string;
  ctx_metadata : option Json
}.

(** An [Error] object handed to the logger: its message and its [stack]
    property, which may be absent. *)
Record ErrorObject : Type := {
  err_message : string;
  err_stack : option string
}.

(** [LogResult] *)
Record LogResult : Type := {
  success : bool;
  entry : option ErrorLogEntry;
  error : option string
}.

(* ===================================================================== *)
(** * Programs over external calls *)
(* ===================================================================== *)

(** One argument of a [console.error / warn / log] call. *)
Inductive ConsoleArg : Type :=
| CText (s : string)
| CThrown (e : Thrown)
| CError (e : ErrorObject)
| CContext (c : RequestContext).

Inductive ConsoleMethod : Type := ConsoleError | ConsoleWarn | ConsoleLog.

Record ConsoleLine : Type := {
  console_method : ConsoleMethod;
  console_args : list ConsoleArg
}.

Inductive Prog (action : Type) (result : action -> Type) (A : Type) : Type :=
| Ret (a : A)
| Throw (e : Thrown)
| Emit (line : ConsoleLine) (k : Prog action result A)
| Act (c : action) (k : Thrown + result c -> Prog action result A).

Arguments Ret {action result A} a.
Arguments Throw {action result A} e.
Arguments Emit {action result A} line k.
Arguments Act {action result A} c k.

Section ProgOps.
Context {action : Type} {result : action -> Type}.

Fixpoint pbind {A B : Type} (p : Prog action result A)
         (f : A -> Prog action result B) : Prog action result B :=
  match p with
  | Ret a => f a
  | Throw e => Throw e
  | Emit l k => Emit l (pbind k f)
  | Act c k => Act c (fun r => pbind (k r) f)
  end.

(** [try { p } catch (e) { h e }] *)
Fixpoint try_catch {A : Type} (p : Prog action result A)
         (h : Thrown -> Prog action result A) : Prog action result A :=
  match p with
  | Ret a => Ret a
  | Throw e => h e
  | Emit l k => Emit l (try_catch k h)
  | Act c k => Act c (fun r => try_catch (k r) h)
  end.

(** Starting a call yields a promise; [settle] hands its answer on
    unawaited, as [Promise.all] and [.catch] need it. *)
Definition settle (c : action) : Prog action result (Thrown + result c) :=
  Act c (fun r => Ret r).

(** [await p] on a settled promise. *)
Definition await {A : Type} (r : Thrown + A) : Prog action result A :=
  match r with
  | inl e => Throw e
  | inr a => Ret a
  end.

(** [await collaborator.call(...)] *)
Definition call (c : action) : Prog action result (result c) :=
  Act c await.

Definition print (m : ConsoleMethod) (args : list ConsoleArg)
  : Prog action result unit :=
  Emit {| console_method := m; console_args := args |} (Ret tt).
End ProgOps.

#[export] Instance Monad_Prog {action : Type} {result : action -> Type}
  : Monad (Prog action result) :=
  {| ret := fun _ a => Ret a;
     bind := fun _ _ p f => pbind p f |}.

#[export] Instance MonadExc_Prog {action : Type} {result : action -> Type}
  : MonadExc Thrown (Prog action result) :=
  {| raise := fun _ e => Throw e;
     catch := fun _ p h => try_catch p h |}.

(** How a program ends for its caller. *)
Inductive Outcome (A : Type) : Type :=
| Returned (a : A)
| Threw (e : Thrown).

Arguments Returned {A} a.
Arguments Threw {A} e.

Record Run (action W A : Type) : Type := {
  outcome : Outcome A;
  final : W;
  calls : list action;
  console : list ConsoleLine
}.

Arguments outcome {action W A} r.
Arguments final {action W A} r.
Arguments calls {action W A} r.
Arguments console {action W A} r.

Section Running.
Context {action : Type} {result : action -> Type} {W : Type}.

(** The collaborator: it answers every call, possibly with a rejection,
    and may change its state. *)
Variable handler : forall c : action, W -> (Thrown + result c) * W.

Fixpoint run {A : Type} (p : Prog action result A) (w : W)
  : Run action W A :=
  match p with
  | Ret a =>
      {| outcome := Returned a; final := w; calls := []; console := [] |}
  | Throw e =>
      {| outcome := Threw e; final := w; calls := []; console := [] |}
  | Emit l k =>
      let r := run k w in
      {| outcome := outcome r; final := final r; calls := calls r;
         console := l :: console r |}
  | Act c k =>
      let (reply, w') := handler c w in
      let r := run (k reply) w' in
      {| outcome := outcome r; final := final r; calls := c :: calls r;
         console := console r |}
  end.
End Running.

(* ===================================================================== *)
(** * The raw-SQL adapter ([src/adapters/sql.ts]) *)
(* ===================================================================== *)

Module Sql.

Inductive Dialect : Type := Postgres | Mysql | Sqlite.

(** A parameter value handed to the executor.  [SqlIsoDate ms] stands for
    the string [new Date(ms).toISOString()]. *)
Inductive SqlValue : Type :=
| SqlText (s : string)
| SqlNull
| SqlIsoDate (ms : Z).

(** A row of the table, in the storage (snake_case) shape. *)
Record DbRow : Type := {
  col_id : string;
  col_level : LogLevel;
  col_message : string;
  col_stack : option string;
  col_user_id : option string;
  col_user_email : option string;
  col_user_name : option string;
  col_path : option string;
  col_method : option string;
  col_user_agent : option string;
  col_ip : option string;
  col_metadata : option Json;
  col_created_at : Date
}.

(** [{ count: string | number }] *)
Inductive CountVal : Type :=
| CountNumber (n : Z)
| CountString (s : string).

Record CountRow : Type := { count : CountVal }.

(** The calls on [SQLExecutor]: [query<T>] at the two row types it is used
    at, and [execute]. *)
Inductive Call : Type :=
| QueryRows (sql : string) (params : list SqlValue)
| QueryCount (sql : string) (params : list SqlValue)
| Execute (sql : string) (params : list SqlValue).

Definition result (c : Call) : Type :=
  match c with
  | QueryRows _ _ => list DbRow
  | QueryCount _ _ => list CountRow
  | Execute _ _ => Z
  end.

Definition M : Type -> Type := Prog Call result.

(** [SQLAdapterConfig] without the executor, which is the handler the
    programs run against. *)
Record SQLAdapterConfig : Type := {
  tableName : option string;
  dialect : Dialect
}.

(** [date.toISOString()], a [RangeError] on an invalid date. *)
Definition toISOString (d : Date) : M SqlValue :=
  match d with
  | ValidDate ms => Ret (SqlIsoDate ms)
  | InvalidDate => Throw (ThrowError "Invalid time value")
  end.

(** [Promise.all([p1, p2])] on two settled promises.  When both are
    rejected the model reports the first. *)
Definition promise_all2 {A B : Type} (r1 : Thrown + A) (r2 : Thrown + B)
  : M (A * B) :=
  match r1, r2 with
  | inr a, inr b => Ret (a, b)
  | inl e, _ => Throw e
  | inr _, inl e => Throw e
  end.

(** The three accumulators of the query builders. *)
Record Builder : Type := {
  conditions : list string;
  params : list SqlValue;
  paramIndex : Z
}.

Definition new_builder : Builder :=
  {| conditions := []; params := []; paramIndex := 1 |}.

Section Adapter.
(** [Number(s)] on a string. *)
Variable Number : string -> JsNumber.
Variable config : SQLAdapterConfig.

(** [const { executor, tableName = 'error_logs', dialect } = config] *)
Definition table : string :=
  match tableName config with
  | Some t => t
  | None => "error_logs"
  end.

Definition ph (index : Z) : string :=
  match dialect config with
  | Postgres => "$" ++ string_of_Z index
  | Mysql | Sqlite => "?"
  end.

Definition toCamelCase (row : DbRow) : ErrorLogEntry :=
  {| id := col_id row;
     level := col_level row;
     message := col_message row;
     stack := col_stack row;
     userId := col_user_id row;
     userEmail := col_user_email row;
     userName := col_user_name row;
     path := col_path row;
     method := col_method row;
     userAgent := col_user_agent row;
     ip := col_ip row;
     metadata := col_metadata row;
     createdAt := col_created_at row |}.

(** [conditions.push(`<lhs>${ph(paramIndex++)}`); params.push(v)] *)
Definition push_condition (lhs : string) (v : SqlValue) (b : Builder)
  : Builder :=
  {| conditions := conditions b ++ [lhs ++ ph (paramIndex b)];
     params := params b ++ [v];
     paramIndex := paramIndex b + 1 |}.

(** The [if (search)] block: one parenthesised condition with four
    placeholders, and the pattern pushed four times. *)
Definition push_search (search : string) (b : Builder) : Builder :=
  let searchPattern := ("%" ++ search ++ "%")%string in
  let i := paramIndex b in
  {| conditions :=
       conditions b ++
       ["(" ++ nl ++
        "          message ILIKE " ++ ph i ++ " OR" ++ nl ++
        "          stack ILIKE " ++ ph (i + 1) ++ " OR" ++ nl ++
        "          path ILIKE " ++ ph (i + 2) ++ " OR" ++ nl ++
        "          user_email ILIKE " ++ ph (i + 3) ++ nl ++
        "        )"];
     params :=
       params b ++
       [SqlText searchPattern; SqlText searchPattern;
        SqlText searchPattern; SqlText searchPattern];
     paramIndex := i + 4 |}.

(** The five [if] blocks of [findMany], in source order. *)
Definition findMany_builder (options : QueryOptions) : M Builder :=
  let b := new_builder in
  let b :=
    match q_level options with
    | Some level => push_condition "level = " (SqlText (level_string level)) b
    | None => b
    end in
  let b :=
    match q_userId options with
    | Some userId =>
        if truthy userId
        then push_condition "user_id = " (SqlText userId) b
        else b
    | None => b
    end in
  let b :=
    match q_search options with
    | Some search => if truthy search then push_search search b else b
    | None => b
    end in
  b <- match q_startDate options with
       | Some startDate =>
           iso <- toISOString startDate ;;
           ret (push_condition "created_at >= " iso b)
       | None => ret b
       end ;;
  match q_endDate options with
  | Some endDate =>
      iso <- toISOString endDate ;;
      ret (push_condition "created_at <= " iso b)
  | None => ret b
  end.

Definition whereClause (b : Builder) : string :=
  match conditions b with
  | [] => EmptyString
  | _ :: _ => "WHERE " ++ join " AND " (conditions b)
  end.

Definition orderColumn (orderBy : OrderBy) : string :=
  match orderBy with
  | ByLevel => "level"
  | ByCreatedAt => "created_at"
  end.

(** [order.toUpperCase()] *)
Definition orderDirection (order : Order) : string :=
  match order with
  | Asc => "ASC"
  | Desc => "DESC"
  end.

Definition select_sql (options : QueryOptions) (b : Builder) : string :=
  let limit := limit_of options in
  let offset := Double.mul (Double.sub (page_of options) (Double.of_Z 1)) limit in
  nl ++ "        SELECT * FROM " ++ table ++ nl ++
  "        " ++ whereClause b ++ nl ++
  "        ORDER BY " ++ orderColumn (orderBy_of options) ++ " " ++
    orderDirection (order_of options) ++ nl ++
  "        LIMIT " ++ Double.text limit ++ " OFFSET " ++
    Double.text offset ++ nl ++
  "      ".

(** The text [COUNT( * )], written in pieces. *)
Definition count_star : string := "COUNT(" ++ "*" ++ ")".

Definition count_sql (b : Builder) : string :=
  "SELECT " ++ count_star ++ " as count FROM " ++ table ++ " " ++ whereClause b.

(** [Number(countResult[0]?.count || 0)] *)
Definition count_total (countResult : list CountRow) : JsNumber :=
  match countResult with
  | [] => JsNum 0
  | r :: _ =>
      match count r with
      | CountNumber n => JsNum n
      | CountString s => if truthy s then Number s else JsNum 0
      end
  end.

Definition findMany (options : QueryOptions) : M FindManyResult :=
  b <- findMany_builder options ;;
  let sql := select_sql options b in
  let countSql := count_sql b in
  p1 <- settle (QueryRows sql (params b)) ;;
  p2 <- settle (QueryCount countSql (params b)) ;;
  '(rows, countResult) <- promise_all2 p1 p2 ;;
  ret {| logs := map toCamelCase rows; total := count_total countResult |}.

Definition findById (id : string) : M (option ErrorLogEntry) :=
  let sql := "SELECT * FROM " ++ table ++ " WHERE id = " ++ ph 1 in
  rows <- call (QueryRows sql [SqlText id]) ;;
  match rows with
  | [] => ret None
  | row :: _ => ret (Some (toCamelCase row))
  end.

Definition delete (id : string) : M unit :=
  let sql := "DELETE FROM " ++ table ++ " WHERE id = " ++ ph 1 in
  _ <- call (Execute sql [SqlText id]) ;;
  ret tt.

Definition deleteMany_builder (options : DeleteManyOptions) : M Builder :=
  let b := new_builder in
  b <- match d_before options with
       | Some before =>
           iso <- toISOString before ;;
           ret (push_condition "created_at < " iso b)
       | None => ret b
       end ;;
  match d_level options with
  | Some level =>
      ret (push_condition "level = " (SqlText (level_string level)) b)
  | None => ret b
  end.

Definition deleteMany (options : DeleteManyOptions) : M Z :=
  b <- deleteMany_builder options ;;
  match conditions b with
  | [] => ret 0
  | _ :: _ =>
      let sql := "DELETE FROM " ++ table ++ " WHERE " ++
                 join " AND " (conditions b) in
      call (Execute sql (params b))
  end.
End Adapter.

End Sql.

(* ===================================================================== *)
(** * The Prisma adapter ([src/adapters/prisma.ts]) *)
(* ===================================================================== *)

Module Prisma.

Inductive TextField : Type := FMessage | FStack | FPath | FUserEmail.

(** [{ <field>: { contains: <s>, mode: 'insensitive' } }] *)
Record ContainsClause : Type := {
  on_field : TextField;
  contains : string
}.

(** The object stored under [where.createdAt]. *)
Record DateFilter : Type := {
  gte : option Date;
  lte : option Date;
  lt : option Date
}.

(** The [where] object; [None] is a property that was never assigned. *)
Record Where : Type := {
  w_level : option LogLevel;
  w_userId : option string;
  w_OR : option (list ContainsClause);
  w_createdAt : option DateFilter
}.

(** [const where = {}] *)
Definition empty_where : Where :=
  {| w_level := None; w_userId := None; w_OR := None; w_createdAt := None |}.

Definition empty_date_filter : DateFilter :=
  {| gte := None; lte := None; lt := None |}.

Definition set_level (l : LogLevel) (w : Where) : Where :=
  {| w_level := Some l; w_userId := w_userId w; w_OR := w_OR w;
     w_createdAt := w_createdAt w |}.

Definition set_userId (u : string) (w : Where) : Where :=
  {| w_level := w_level w; w_userId := Some u; w_OR := w_OR w;
     w_createdAt := w_createdAt w |}.

Definition set_OR (l : list ContainsClause) (w : Where) : Where :=
  {| w_level := w_level w; w_userId := w_userId w; w_OR := Some l;
     w_createdAt := w_createdAt w |}.

Definition set_createdAt (f : DateFilter) (w : Where) : Where :=
  {| w_level := w_level w; w_userId := w_userId w; w_OR := w_OR w;
     w_createdAt := Some f |}.

(** The calls on [prisma.errorLog]. *)
Inductive Call : Type :=
| FindMany (where_ : Where) (orderBy : OrderBy * Order) (skip take : Double)
| Count (where_ : Where)
| FindUnique (id : string)
| Delete (id : string)
| DeleteMany (where_ : Where).

Definition result (c : Call) : Type :=
  match c with
  | FindMany _ _ _ _ => list ErrorLogEntry
  | Count _ => Z
  | FindUnique _ => option ErrorLogEntry
  | Delete _ => ErrorLogEntry
  | DeleteMany _ => Z
  end.

Definition M : Type -> Type := Prog Call result.

Definition promise_all2 {A B : Type} (r1 : Thrown + A) (r2 : Thrown + B)
  : M (A * B) :=
  match r1, r2 with
  | inr a, inr b => Ret (a, b)
  | inl e, _ => Throw e
  | inr _, inl e => Throw e
  end.

(** The [where] object [findMany] builds. *)
Definition findMany_where (options : QueryOptions) : Where :=
  let where_ := empty_where in
  let where_ :=
    match q_level options with
    | Some level => set_level level where_
    | None => where_
    end in
  let where_ :=
    match q_userId options with
    | Some userId => if truthy userId then set_userId userId where_ else where_
    | None => where_
    end in
  let where_ :=
    match q_search options with
    | Some search =>
        if truthy search
        then set_OR [ {| on_field := FMessage; contains := search |};
                      {| on_field := FStack; contains := search |};
                      {| on_field := FPath; contains := search |};
                      {| on_field := FUserEmail; contains := search |} ]
                    where_
        else where_
    | None => where_
    end in
  match q_startDate options, q_endDate options with
  | None, None => where_
  | startDate, endDate =>
      set_createdAt {| gte := startDate; lte := endDate; lt := None |} where_
  end.

Definition findMany (options : QueryOptions) : M FindManyResult :=
  let page := page_of options in
  let limit := limit_of options in
  let where_ := findMany_where options in
  p1 <- settle (FindMany where_ (orderBy_of options, order_of options)
                         (Double.mul (Double.sub page (Double.of_Z 1)) limit)
                         limit) ;;
  p2 <- settle (Count where_) ;;
  '(logs, total) <- promise_all2 p1 p2 ;;
  ret {| logs := logs; total := JsNum total |}.

Definition findById (id : string) : M (option ErrorLogEntry) :=
  call (FindUnique id).

Definition delete (id : string) : M unit :=
  _ <- call (Delete id) ;;
  ret tt.

Definition deleteMany_where (options : DeleteManyOptions) : Where :=
  let where_ := empty_where in
  let where_ :=
    match d_before options with
    | Some before =>
        set_createdAt {| gte := None; lte := None; lt := Some before |} where_
    | None => where_
    end in
  match d_level options with
  | Some level => set_level level where_
  | None => where_
  end.

Definition deleteMany (options : DeleteManyOptions) : M Z :=
  let where_ := deleteMany_where options in
  call (DeleteMany where_).

End Prisma.

(* ===================================================================== *)
(** * The Drizzle adapter ([src/adapters/drizzle.ts]) *)
(* ===================================================================== *)

Module Drizzle.

Local Open Scope list_scope.

(** The columns of the table definition the adapter refers to. *)
Inductive Column : Type :=
| ColId | ColLevel | ColUserId | ColMessage | ColStack | ColPath
| ColUserEmail | ColCreatedAt.

Inductive Operand : Type :=
| OText (s : string)
| OLevel (l : LogLevel)
| ODate (d : Date).

(** What the operators [eq], [and], [or], [like], [lt], [gte], [lte] of
    the configuration build. *)
#[warnings="-register-all"] Inductive Cond : Type :=
| eq (c : Column) (v : Operand)
| like (c : Column) (pattern : string)
| lt (c : Column) (v : Operand)
| gte (c : Column) (v : Operand)
| lte (c : Column) (v : Operand)
| and (conds : list Cond)
| or (conds : list Cond).

(** [desc(column)] and [asc(column)] *)
Inductive OrderExpr : Type :=
| desc (c : Column)
| asc (c : Column).

(** The result of [db.delete(...)]: [rowCount] may be missing. *)
Record DeleteResult : Type := { rowCount : option Z }.

(** The query chains the adapter awaits. *)
Inductive Call : Type :=
| Select (where_ : option Cond) (orderBy : option OrderExpr)
         (limit offset : Double)
| CountRows (where_ : option Cond)
| DeleteWhere (where_ : Cond).

Definition result (c : Call) : Type :=
  match c with
  | Select _ _ _ _ => list ErrorLogEntry
  | CountRows _ => Z
  | DeleteWhere _ => DeleteResult
  end.

Definition M : Type -> Type := Prog Call result.

(** The [conditions] array of [findMany]. *)
Definition findMany_conditions (options : QueryOptions) : list Cond :=
  let conditions := [] in
  let conditions :=
    match q_level options with
    | Some level => conditions ++ [eq ColLevel (OLevel level)]
    | None => conditions
    end in
  let conditions :=
    match q_userId options with
    | Some userId =>
        if truthy userId
        then conditions ++ [eq ColUserId (OText userId)]
        else conditions
    | None => conditions
    end in
  let conditions :=
    match q_search options with
    | Some search =>
        if truthy search
        then conditions ++
             [or [like ColMessage ("%" ++ search ++ "%")%string;
                  like ColStack ("%" ++ search ++ "%")%string;
                  like ColPath ("%" ++ search ++ "%")%string;
                  like ColUserEmail ("%" ++ search ++ "%")%string]]
        else conditions
    | None => conditions
    end in
  let conditions :=
    match q_startDate options with
    | Some startDate => conditions ++ [gte ColCreatedAt (ODate startDate)]
    | None => conditions
    end in
  match q_endDate options with
  | Some endDate => conditions ++ [lte ColCreatedAt (ODate endDate)]
  | None => conditions
  end.

(** [conditions.length > 0 ? and(...conditions) : undefined] *)
Definition whereCondition (conditions : list Cond) : option Cond :=
  match conditions with
  | [] => None
  | _ :: _ => Some (and conditions)
  end.

Definition findMany (options : QueryOptions) : M FindManyResult :=
  let page := page_of options in
  let limit := limit_of options in
  let where_ := whereCondition (findMany_conditions options) in
  let orderFn := match order_of options with Desc => desc | Asc => asc end in
  let orderColumn :=
    match orderBy_of options with
    | ByLevel => ColLevel
    | ByCreatedAt => ColCreatedAt
    end in
  logs <- call (Select where_ (Some (orderFn orderColumn)) limit
                       (Double.mul (Double.sub page (Double.of_Z 1)) limit)) ;;
  total <- call (CountRows where_) ;;
  ret {| logs := logs; total := JsNum total |}.

Definition findById (id : string) : M (option ErrorLogEntry) :=
  results <- call (Select (Some (eq ColId (OText id))) None
                          (Double.of_Z 1) (Double.of_Z 0)) ;;
  match results with
  | [] => ret None
  | r :: _ => ret (Some r)
  end.

Definition delete (id : string) : M unit :=
  _ <- call (DeleteWhere (eq ColId (OText id))) ;;
  ret tt.

Definition deleteMany_conditions (options : DeleteManyOptions) : list Cond :=
  let conditions := [] in
  let conditions :=
    match d_before options with
    | Some before => conditions ++ [lt ColCreatedAt (ODate before)]
    | None => conditions
    end in
  match d_level options with
  | Some level => conditions ++ [eq ColLevel (OLevel level)]
  | None => conditions
  end.

Definition deleteMany (options : DeleteManyOptions) : M Z :=
  match whereCondition (deleteMany_conditions options) with
  | None => ret 0
  | Some where_ =>
      result <- call (DeleteWhere where_) ;;
      match rowCount result with
      | Some n => ret n
      | None => ret 0
      end
  end.

End Drizzle.

(* ===================================================================== *)
(** * The adapter contract ([DatabaseAdapter] of [src/types.ts]) *)
(* ===================================================================== *)

(** The operations every storage adapter offers, over the calls of its
    backend ([create] left out). *)
Record DatabaseAdapter (action : Type) (result : action -> Type) : Type := {
  findMany : QueryOptions -> Prog action result FindManyResult;
  findById : string -> Prog action result (option ErrorLogEntry);
  delete : string -> Prog action result unit;
  deleteMany : DeleteManyOptions -> Prog action result Z
}.

Arguments findMany {action result} d options.
Arguments findById {action result} d id.
Arguments delete {action result} d id.
Arguments deleteMany {action result} d options.

(** [createSQLAdapter(config)]; [Number] is the conversion [Number(s)] of a
    string, which the adapter applies to a count reported as a string. *)
Definition createSQLAdapter (Number : string -> JsNumber)
           (config : Sql.SQLAdapterConfig) : DatabaseAdapter Sql.Call Sql.result :=
  {| findMany := Sql.findMany Number config;
     findById := Sql.findById config;
     delete := Sql.delete config;
     deleteMany := Sql.deleteMany config |}.

(** [createPrismaAdapter(prisma)] *)
Definition createPrismaAdapter : DatabaseAdapter Prisma.Call Prisma.result :=
  {| findMany := Prisma.findMany;
     findById := Prisma.findById;
     delete := Prisma.delete;
     deleteMany := Prisma.deleteMany |}.

(** [createDrizzleAdapter(config)] *)
Definition createDrizzleAdapter : DatabaseAdapter Drizzle.Call Drizzle.result :=
  {| findMany := Drizzle.findMany;
     findById := Drizzle.findById;
     delete := Drizzle.delete;
     deleteMany := Drizzle.deleteMany |}.

(* ===================================================================== *)
(** * The logger facade ([src/logger.ts]) *)
(* ===================================================================== *)

Module Logger.

(** What an auth adapter's [getUser] resolves to, when not [null]. *)
Record AuthUser : Type := {
  user_id : string;
  user_email : option string;
  user_name : option string
}.

(** [ErrorLoggerConfig].  The storage adapter and the auth adapter are
    the collaborators the programs call; of the auth adapter the
    configuration records only whether one is present. *)
Record ErrorLoggerConfig : Type := {
  authAdapter : bool;
  retentionDays : option Z;
  levels : option (list LogLevel);
  consoleInDev : option bool
}.

(** [let config: ErrorLoggerConfig | null = null] *)
Definition State : Type := option ErrorLoggerConfig.

Definition uninitialized : State := None.

(** [config = { consoleInDev: true, retentionDays: 30, ...cfg }] *)
Definition initErrorLogger (cfg : ErrorLoggerConfig) (_ : State) : State :=
  Some {| authAdapter := authAdapter cfg;
          retentionDays :=
            match retentionDays cfg with
            | Some d => Some d
            | None => Some 30
            end;
          levels := levels cfg;
          consoleInDev :=
            match consoleInDev cfg with
            | Some b => Some b
            | None => Some true
            end |}.

Definition isInitialized (config : State) : bool :=
  match config with
  | Some _ => true
  | None => false
  end.

(** The calls on the configured adapters. *)
Inductive Call : Type :=
| GetUser
| Create (entry : NewEntry).

Definition result (c : Call) : Type :=
  match c with
  | GetUser => option AuthUser
  | Create _ => ErrorLogEntry
  end.

Definition M : Type -> Type := Prog Call result.

Definition not_initialized : string :=
  "[@vinetechke/next-error-logger] Logger not initialized. Call initErrorLogger() first.".

Definition getConfig (config : State) : M ErrorLoggerConfig :=
  match config with
  | None => Throw (ThrowError not_initialized)
  | Some cfg => Ret cfg
  end.

(** [level.toUpperCase()] *)
Definition level_upper (l : LogLevel) : string :=
  match l with
  | LvError => "ERROR"
  | LvWarn => "WARN"
  | LvInfo => "INFO"
  | LvDebug => "DEBUG"
  end.

(** [cfg.levels.includes(level)] *)
Definition includes (ls : list LogLevel) (l : LogLevel) : bool :=
  existsb (level_eqb l) ls.

(** [cfg.levels && !cfg.levels.includes(level)] *)
Definition filtered_out (cfg : ErrorLoggerConfig) (l : LogLevel) : bool :=
  match levels cfg with
  | Some ls => negb (includes ls l)
  | None => false
  end.

Definition is_development (node_env : option string) : bool :=
  match node_env with
  | Some e => String.eqb e "development"
  | None => false
  end.

Definition ctx_field (context : option RequestContext)
           (f : RequestContext -> option string) : option string :=
  match context with
  | Some c => or_null (f c)
  | None => None
  end.

Definition ctx_meta (context : option RequestContext) : option Json :=
  match context with
  | Some c => ctx_metadata c
  | None => None
  end.

Section Process.
(** [process.env.NODE_ENV] *)
Variable node_env : option string.
(** The module variable [config] at the time of the call. *)
Variable config : State.

(** The internal logging function. *)
Definition log (level : LogLevel) (message : string)
           (error : option ErrorObject) (context : option RequestContext)
  : M LogResult :=
  catch
    (cfg <- getConfig config ;;
     if filtered_out cfg level
     then ret {| success := true; entry := None; error := None |}
     else
       (if match consoleInDev cfg with Some b => b | None => false end
           && is_development node_env
        then
          print
            (match level with
             | LvError => ConsoleError
             | LvWarn => ConsoleWarn
             | _ => ConsoleLog
             end)
            [CText ("[" ++ level_upper level ++ "]"); CText message;
             match error with Some e => CError e | None => CText EmptyString end;
             match context with Some c => CContext c | None => CText EmptyString end]
        else ret tt) ;;
       user <- (if authAdapter cfg
                then catch (call GetUser) (fun _ => ret None)
                else ret None) ;;
       entry <- call (Create
         {| new_level := level;
            new_message := message;
            new_stack :=
              match error with
              | Some e => or_null (err_stack e)
              | None => None
              end;
            new_userId :=
              match user with
              | Some u => or_null (Some (user_id u))
              | None => None
              end;
            new_userEmail :=
              match user with
              | Some u => or_null (user_email u)
              | None => None
              end;
            new_userName :=
              match user with
              | Some u => or_null (user_name u)
              | None => None
              end;
            new_path := ctx_field context ctx_path;
            new_method := ctx_field context ctx_method;
            new_userAgent := ctx_field context ctx_userAgent;
            new_ip := ctx_field context ctx_ip;
            new_metadata := ctx_meta context |}) ;;
       ret {| success := true; entry := Some entry; error := None |})
    (fun err =>
       print ConsoleError
         [CText "[@vinetechke/next-error-logger] Failed to log:";
          CThrown err] ;;
       ret {| success := false; entry := None;
              error := Some (error_message err) |}).

(** The request as [extractRequestContext] reads it: the path name of
    its URL, its method, and its headers, each name in lower case with the
    value [headers.get] gives for it. *)
Record Request : Type := {
  url_pathname : string;
  request_method : string;
  headers : list (string * string)
}.

(** [request.headers.get(name)] *)
Fixpoint headers_get (hs : list (string * string)) (name : string)
  : option string :=
  match hs with
  | [] => None
  | (k, v) :: rest => if String.eqb k name then Some v else headers_get rest name
  end.

(** The white space and the line terminators [trim] removes.  A header
    value is a byte string: its characters are the code units 0 to 255, of
    which these are the tab, the line feed, the vertical tab, the form
    feed, the carriage return (9 to 13), the space (32) and the no-break
    space (160). *)
Definition is_space (c : ascii) : bool :=
  let n := nat_of_ascii c in
  ((9 <=? n) && (n <=? 13))%nat || (n =? 32)%nat || (n =? 160)%nat.

(** [s.split(',')[0]] *)
Fixpoint first_segment (s : string) : string :=
  match s with
  | EmptyString => EmptyString
  | String c rest =>
      if Ascii.eqb c "," then EmptyString else String c (first_segment rest)
  end.

Fixpoint trim_start (s : string) : string :=
  match s with
  | EmptyString => EmptyString
  | String c rest => if is_space c then trim_start rest else s
  end.

Fixpoint trim_end (s : string) : string :=
  match s with
  | EmptyString => EmptyString
  | String c rest =>
      match trim_end rest with
      | EmptyString => if is_space c then EmptyString else String c EmptyString
      | rest' => String c rest'
      end
  end.

(** [s.trim()] on a header value. *)
Definition trim (s : string) : string := trim_end (trim_start s).

Definition extractRequestContext (request : Request) : RequestContext :=
  {| ctx_path := Some (url_pathname request);
     ctx_method := Some (request_method request);
     ctx_userAgent := or_null (headers_get (headers request) "user-agent");
     ctx_ip :=
       match or_null (option_map (fun v => trim (first_segment v))
                        (headers_get (headers request) "x-forwarded-for")) with
       | Some ip => Some ip
       | None => or_null (headers_get (headers request) "x-real-ip")
       end;
     ctx_metadata := None |}.

(** [{ ...baseContext, metadata }] *)
Definition with_metadata (baseContext : RequestContext)
           (metadata : option Json) : RequestContext :=
  {| ctx_path := ctx_path baseContext;
     ctx_method := ctx_method baseContext;
     ctx_userAgent := ctx_userAgent baseContext;
     ctx_ip := ctx_ip baseContext;
     ctx_metadata := metadata |}.

(** ** The [errorLogger] object *)

Definition errorLogger_error (message : string) (err : option ErrorObject)
           (context : option RequestContext) : M LogResult :=
  log LvError message err context.

Definition errorLogger_warn (message : string) (err : option ErrorObject)
           (context : option RequestContext) : M LogResult :=
  log LvWarn message err context.

Definition errorLogger_info (message : string) (context : option RequestContext)
  : M LogResult :=
  log LvInfo message None context.

Definition errorLogger_debug (message : string) (context : option RequestContext)
  : M LogResult :=
  log LvDebug message None context.

(** [errorLogger.fromRequest(request).error] and its siblings. *)
Definition errorLogger_fromRequest_error (request : Request) (message : string)
           (err : option ErrorObject) (metadata : option Json)
  : M LogResult :=
  let baseContext := extractRequestContext request in
  log LvError message err (Some (with_metadata baseContext metadata)).

Definition errorLogger_fromRequest_warn (request : Request) (message : string)
           (metadata : option Json) : M LogResult :=
  let baseContext := extractRequestContext request in
  log LvWarn message None (Some (with_metadata baseContext metadata)).

Definition errorLogger_fromRequest_info (request : Request) (message : string)
           (metadata : option Json) : M LogResult :=
  let baseContext := extractRequestContext request in
  log LvInfo message None (Some (with_metadata baseContext metadata)).

Definition errorLogger_fromRequest_debug (request : Request) (message : string)
           (metadata : option Json) : M LogResult :=
  let baseContext := extractRequestContext request in
  log LvDebug message None (Some (with_metadata baseContext metadata)).

(** The body shared, up to the level and the stack, by the three
    methods of [errorLogger.withUser(user)]: [getConfig()] is called
    before the [try]. *)
Definition errorLogger_withUser_method (user : AuthUser) (level : LogLevel)
           (message : string) (stack_ : option string)
           (context : option RequestContext) : M LogResult :=
  cfg <- getConfig config ;;
  catch
    (entry <- call (Create
       {| new_level := level;
          new_message := message;
          new_stack := stack_;
          new_userId := Some (user_id user);
          new_userEmail := or_null (user_email user);
          new_userName := or_null (user_name user);
          new_path := ctx_field context ctx_path;
          new_method := ctx_field context ctx_method;
          new_userAgent := ctx_field context ctx_userAgent;
          new_ip := ctx_field context ctx_ip;
          new_metadata := ctx_meta context |}) ;;
     ret {| success := true; entry := Some entry; error := None |})
    (fun err =>
       ret {| success := false; entry := None;
              error := Some (error_message err) |}).

Definition errorLogger_withUser_error (user : AuthUser) (message : string)
           (err : option ErrorObject) (context : option RequestContext)
  : M LogResult :=
  errorLogger_withUser_method user LvError message
    (match err with Some e => or_null (err_stack e) | None => None end)
    context.

Definition errorLogger_withUser_warn (user : AuthUser) (message : string)
           (context : option RequestContext) : M LogResult :=
  errorLogger_withUser_method user LvWarn message None context.

Definition errorLogger_withUser_info (user : AuthUser) (message : string)
           (context : option RequestContext) : M LogResult :=
  errorLogger_withUser_method user LvInfo message None context.

(** Every logging call the facade offers. *)
Inductive LoggingCall : Type :=
| CallError (message : string) (err : option ErrorObject)
            (context : option RequestContext)
| CallWarn (message : string) (err : option ErrorObject)
           (context : option RequestContext)
| CallInfo (message : string) (context : option RequestContext)
| CallDebug (message : string) (context : option RequestContext)
| CallRequestError (request : Request) (message : string)
                   (err : option ErrorObject) (metadata : option Json)
| CallRequestWarn (request : Request) (message : string)
                  (metadata : option Json)
| CallRequestInfo (request : Request) (message : string)
                  (metadata : option Json)
| CallRequestDebug (request : Request) (message : string)
                   (metadata : option Json)
| CallUserError (user : AuthUser) (message : string)
                (err : option ErrorObject) (context : option RequestContext)
| CallUserWarn (user : AuthUser) (message : string)
               (context : option RequestContext)
| CallUserInfo (user : AuthUser) (message : string)
               (context : option RequestContext).

Definition perform (c : LoggingCall) : M LogResult :=
  match c with
  | CallError m e x => errorLogger_error m e x
  | CallWarn m e x => errorLogger_warn m e x
  | CallInfo m x => errorLogger_info m x
  | CallDebug m x => errorLogger_debug m x
  | CallRequestError r m e md => errorLogger_fromRequest_error r m e md
  | CallRequestWarn r m md => errorLogger_fromRequest_warn r m md
  | CallRequestInfo r m md => errorLogger_fromRequest_info r m md
  | CallRequestDebug r m md => errorLogger_fromRequest_debug r m md
  | CallUserError u m e x => errorLogger_withUser_error u m e x
  | CallUserWarn u m x => errorLogger_withUser_warn u m x
  | CallUserInfo u m x => errorLogger_withUser_info u m x
  end.
End Process.

(** The level a logging call logs at. *)
Definition level_of (c : LoggingCall) : LogLevel :=
  match c with
  | CallError _ _ _ | CallRequestError _ _ _ _ | CallUserError _ _ _ _ => LvError
  | CallWarn _ _ _ | CallRequestWarn _ _ _ | CallUserWarn _ _ _ => LvWarn
  | CallInfo _ _ | CallRequestInfo _ _ _ | CallUserInfo _ _ _ => LvInfo
  | CallDebug _ _ | CallRequestDebug _ _ _ => LvDebug
  end.

(** Whether a logging call is one of the [withUser] methods. *)
Definition explicit_user (c : LoggingCall) : bool :=
  match c with
  | CallUserError _ _ _ _ | CallUserWarn _ _ _ | CallUserInfo _ _ _ => true
  | _ => false
  end.

End Logger.

(* ===================================================================== *)
(** * The delete-many handler ([src/api/index.ts]) *)
(* ===================================================================== *)

Module Api.

(** [NextResponse.json(body, { status })]; the status is 200 when none is
    given. *)
Record Response : Type := {
  status : Z;
  body : Json
}.

Definition json (data : Json) : Response := {| status := 200; body := data |}.

Definition json_error (msg : string) (code : Z) : Response :=
  {| status := code; body := JObject [("error", JString msg)] |}.

(** The argument [DELETE] hands to [deleteMany].  The cast
    [body.level as LogLevel | undefined] checks nothing, so the level is
    whatever JSON value the body holds under ["level"]; [None] is
    [undefined]. *)
Record DeleteManyArgs : Type := {
  before : option Date;
  level : option Json
}.

(** The collaborators of the handler: the authorization predicate of its
    configuration, the body of the request, and the configured storage
    adapter. *)
Inductive Call : Type :=
| IsAuthorized
| RequestJson
| AdapterDeleteMany (options : DeleteManyArgs).

Definition result (c : Call) : Type :=
  match c with
  | IsAuthorized => bool
  | RequestJson => Json
  | AdapterDeleteMany _ => Z
  end.

Definition M : Type -> Type := Prog Call result.

(** The last binding of a key, as [JSON.parse] keeps it. *)
Fixpoint lookup (fields : list (string * Json)) (key : string) : option Json :=
  match fields with
  | [] => None
  | (k, v) :: rest =>
      match lookup rest key with
      | Some later => Some later
      | None => if String.eqb k key then Some v else None
      end
  end.

(** [body.<key>] for [key] one of ["before"] and ["level"]: a [TypeError]
    on [null], [undefined] on the other values that are not objects. *)
Definition property (body : Json) (key : string) : M (option Json) :=
  match body with
  | JNull =>
      Throw (ThrowError ("Cannot read properties of null (reading '" ++ key ++ "')"))
  | JObject fields => Ret (lookup fields key)
  | _ => Ret None
  end.

(** Truthiness of a JSON value or [undefined]. *)
Definition truthy_json (v : option Json) : bool :=
  match v with
  | None | Some JNull | Some (JBool false) | Some (JNumber 0) => false
  | Some (JString s) => truthy s
  | Some _ => true
  end.

(** Whether a value [JSON.parse] made can be converted to a primitive
    value, as [new Date(v)] and the [join] of an array do it.  An object
    made by [JSON.parse] inherits [valueOf], which returns the object, and
    [toString], which returns a string; a property of its own hides the one
    it inherits and is never a function, so the conversion fails exactly
    when the object has a property [toString] of its own.  An array is
    converted by joining the texts of its elements, of which those that are
    objects or arrays are converted in the same way. *)
Fixpoint converts (v : Json) : bool :=
  match v with
  | JObject fields =>
      negb (existsb (fun kv => String.eqb (fst kv) "toString") fields)
  | JArray items => forallb converts items
  | _ => true
  end.

(** The [TypeError] of a conversion that fails. *)
Definition cannot_convert : Thrown :=
  ThrowError "Cannot convert object to primitive value".

Section Handler.
(** The date [new Date(v)] makes of a value that can be converted to a
    primitive value: the time a number or a boolean stands for, and what
    [Date.parse] makes of a string. *)
Variable newDate : Json -> Date.
(** The logger's module variable [config]. *)
Variable config : Logger.State.

(** [new Date(v)] *)
Definition new_Date (v : Json) : M Date :=
  if converts v then Ret (newDate v) else Throw cannot_convert.

(** The [DELETE] handler of [createLogAPIHandlers]. *)
Definition DELETE : M Response :=
  authorized <- call IsAuthorized ;;
  if negb authorized
  then ret (json_error "Unauthorized" 401)
  else if negb (Logger.isInitialized config)
  then ret (json_error "Logger not initialized" 500)
  else
    catch
      (parsed <- settle RequestJson ;;
       let body := match parsed with
                   | inr v => v
                   | inl _ => JObject []
                   end in
       b <- property body "before" ;;
       before_ <- match b with
                  | Some v =>
                      if truthy_json b
                      then date <- new_Date v ;; ret (Some date)
                      else ret None
                  | None => ret None
                  end ;;
       l <- property body "level" ;;
       count <- call (AdapterDeleteMany {| before := before_; level := l |}) ;;
       ret (json (JObject [("deleted", JNumber count)])))
      (fun err =>
         print ConsoleError
           [CText "[@vinetechke/next-error-logger] API error:"; CThrown err] ;;
         ret (json_error "Failed to delete logs" 500)).
End Handler.

End Api.

(* ===================================================================== *)
(** * The NextAuth adapter ([src/auth/next-auth.ts]) *)
(* ===================================================================== *)

Module NextAuth.

(** [session.user] *)
Record SessionUser : Type := {
  su_id : option string;
  su_email : option string;
  su_name : option string
}.

(** [NextAuthSession] *)
Record NextAuthSession : Type := { user : option SessionUser }.

Inductive Call : Type := AuthFn.

Definition result (c : Call) : Type := option NextAuthSession.

Definition M : Type -> Type := Prog Call result.

Definition getUser : M (option Logger.AuthUser) :=
  catch
    (session <- call AuthFn ;;
     match session with
     | Some {| user := Some u |} =>
         match su_id u with
         | Some i =>
             if truthy i
             then ret (Some {| Logger.user_id := i;
                               Logger.user_email := or_null (su_email u);
                               Logger.user_name := or_null (su_name u) |})
             else ret None
         | None => ret None
         end
     | _ => ret None
     end)
    (fun _ => ret None).

End NextAuth.

(* ===================================================================== *)
(** * The Clerk adapter ([src/auth/clerk.ts]) *)
(* ===================================================================== *)

Module Clerk.

(** [ClerkUser]; each element of [emailAddresses] is the [emailAddress]
    of the object at that place. *)
Record ClerkUser : Type := {
  cu_id : string;
  emailAddresses : option (list string);
  firstName : option string;
  lastName : option string
}.

(** [ClerkAdapterConfig]: [auth] is a collaborator; of [fetchUser] the
    configuration records whether one was given. *)
Record ClerkAdapterConfig : Type := { fetchUser : bool }.

(** The calls on the configuration: [auth()], whose answer is the
    [userId] of the object it resolves to, and [fetchUser(userId)]. *)
Inductive Call : Type :=
| Auth
| FetchUser (userId : string).

Definition result (c : Call) : Type :=
  match c with
  | Auth => option string
  | FetchUser _ => option ClerkUser
  end.

Definition M : Type -> Type := Prog Call result.

(** [parts.filter(Boolean)] on strings that may be null or undefined. *)
Fixpoint filter_Boolean (parts : list (option string)) : list string :=
  match parts with
  | [] => []
  | Some s :: rest =>
      if truthy s then s :: filter_Boolean rest else filter_Boolean rest
  | None :: rest => filter_Boolean rest
  end.

Definition getUser (config : ClerkAdapterConfig) : M (option Logger.AuthUser) :=
  catch
    (userId <- call Auth ;;
     if negb (truthy_opt userId)
     then ret None
     else
       match userId with
       | None => ret None
       | Some userId =>
           if negb (fetchUser config)
           then ret (Some {| Logger.user_id := userId;
                             Logger.user_email := None;
                             Logger.user_name := None |})
           else
             user <- call (FetchUser userId) ;;
             match user with
             | None => ret (Some {| Logger.user_id := userId;
                                    Logger.user_email := None;
                                    Logger.user_name := None |})
             | Some user =>
                 let email :=
                   match emailAddresses user with
                   | Some (first :: _) => Some first
                   | _ => None
                   end in
                 let name :=
                   let joined :=
                     join " " (filter_Boolean [firstName user; lastName user]) in
                   if truthy joined then Some joined else None in
                 ret (Some {| Logger.user_id := cu_id user;
                              Logger.user_email := email;
                              Logger.user_name := name |})
             end
       end)
    (fun _ => ret None).

End Clerk.

(* ===================================================================== *)
(** * The route handlers ([src/api/index.ts])

    The handlers of [createLogAPIHandlers] (list), of
    [createLogDetailAPIHandlers] (one entry) and of [createLogStatsHandler],
    the [DELETE] of the list route excepted, which is [Api.DELETE]. *)
(* ===================================================================== *)

Module ApiRoutes.

(** The options the handlers hand to [findMany].  Nothing is checked on
    the way: [page] and [limit] are what [parseInt] made of the query
    string, and [level] is the text of the query string. *)
Record FindManyArgs : Type := {
  page : option JsNumber;
  limit : option JsNumber;
  level : option string;
  userId : option string;
  search : option string;
  startDate : option Date;
  endDate : option Date
}.

(** [byLevel] of the statistics. *)
Record ByLevel : Type := {
  error : JsNumber;
  warn : JsNumber;
  info : JsNumber;
  debug : JsNumber
}.

(** The value handed to [NextResponse.json]. *)
Inductive Body : Type :=
| ErrorBody (message : string)
| ListBody (result : FindManyResult)
| LogBody (log : ErrorLogEntry)
| SuccessBody
| StatsBody (total : JsNumber) (byLevel : ByLevel) (last24Hours : JsNumber).

(** [NextResponse.json(body, { status })]; the status is 200 when none is
    given. *)
Record Response : Type := {
  status : Z;
  body : Body
}.

Definition json (data : Body) : Response := {| status := 200; body := data |}.

Definition json_error (msg : string) (code : Z) : Response :=
  {| status := code; body := ErrorBody msg |}.

(** The collaborators of the handlers: the authorization predicate, the
    promise [params] of the route, and the configured storage adapter. *)
Inductive Call : Type :=
| IsAuthorized
| Params
| AdapterFindMany (options : FindManyArgs)
| AdapterFindById (id : string)
| AdapterDelete (id : string).

Definition result (c : Call) : Type :=
  match c with
  | IsAuthorized => bool
  | Params => string
  | AdapterFindMany _ => FindManyResult
  | AdapterFindById _ => option ErrorLogEntry
  | AdapterDelete _ => unit
  end.

Definition M : Type -> Type := Prog Call result.

(** [searchParams.get(name)]: the first value of the name. *)
Fixpoint searchParams_get (searchParams : list (string * string)) (name : string)
  : option string :=
  match searchParams with
  | [] => None
  | (k, v) :: rest =>
      if String.eqb k name then Some v else searchParams_get rest name
  end.

(** [x || fallback] for [x : string | null]. *)
Definition or_default (o : option string) (fallback : string) : string :=
  match o with
  | Some s => if truthy s then s else fallback
  | None => fallback
  end.

(** [Math.min(a, b)] for an integral [b]. *)
Definition Math_min (a : JsNumber) (b : Z) : JsNumber :=
  match a with
  | JsNum z => JsNum (Z.min z b)
  | JsNaN => JsNaN
  end.

(** [Promise.all] on five settled promises.  When several are rejected
    the model reports the first of them. *)
Definition promise_all5 {A : Type} (r1 r2 r3 r4 r5 : Thrown + A)
  : M (A * A * A * A * A) :=
  match r1, r2, r3, r4, r5 with
  | inr a, inr b, inr c, inr d, inr e => Ret (a, b, c, d, e)
  | inl x, _, _, _, _ => Throw x
  | _, inl x, _, _, _ => Throw x
  | _, _, inl x, _, _ => Throw x
  | _, _, _, inl x, _ => Throw x
  | _, _, _, _, inl x => Throw x
  end.

(** [r.total] *)
Definition total_of (r : FindManyResult) : JsNumber := total r.

(** [promise.then(r => r.total)] *)
Definition then_total (r : Thrown + FindManyResult) : Thrown + JsNumber :=
  match r with
  | inl e => inl e
  | inr res => inr (total_of res)
  end.

(** [{ level, limit: 0 }] and [{ limit: 0 }] *)
Definition count_only (level_ : option string) (startDate_ : option Date)
  : FindManyArgs :=
  {| page := None; limit := Some (JsNum 0); level := level_; userId := None;
     search := None; startDate := startDate_; endDate := None |}.

Section Handlers.
(** [parseInt(s, 10)] *)
Variable parseInt : string -> JsNumber.
(** [new Date(s)] *)
Variable newDate : string -> Date.
(** [Date.now()] *)
Variable now : Z.
(** The logger's module variable [config]. *)
Variable config : Logger.State.

(** The preamble of every handler: the authorization check and the check
    that the logger is initialized; [getConfig()] follows and cannot throw
    then. *)
Definition guarded (handler : M Response) : M Response :=
  authorized <- call IsAuthorized ;;
  if negb authorized
  then ret (json_error "Unauthorized" 401)
  else if negb (Logger.isInitialized config)
  then ret (json_error "Logger not initialized" 500)
  else handler.

(** The [catch] block of every handler. *)
Definition api_error (msg : string) (err : Thrown) : M Response :=
  print ConsoleError
    [CText "[@vinetechke/next-error-logger] API error:"; CThrown err] ;;
  ret (json_error msg 500).

(** The options [GET] of the list route reads off the query string. *)
Definition list_options (searchParams : list (string * string)) : FindManyArgs :=
  let get := searchParams_get searchParams in
  {| page := Some (parseInt (or_default (get "page") "1"));
     limit := Some (Math_min (parseInt (or_default (get "limit") "50")) 100);
     level := get "level";
     userId := or_null (get "userId");
     search := or_null (get "search");
     startDate :=
       match get "startDate" with
       | Some s => if truthy s then Some (newDate s) else None
       | None => None
       end;
     endDate :=
       match get "endDate" with
       | Some s => if truthy s then Some (newDate s) else None
       | None => None
       end |}.

(** [GET] of [createLogAPIHandlers]. *)
Definition createLogAPIHandlers_GET (searchParams : list (string * string))
  : M Response :=
  guarded
    (catch
       (let options := list_options searchParams in
        result <- call (AdapterFindMany options) ;;
        ret (json (ListBody result)))
       (api_error "Failed to fetch logs")).

(** [GET] of [createLogDetailAPIHandlers]. *)
Definition createLogDetailAPIHandlers_GET : M Response :=
  guarded
    (id <- call Params ;;
     catch
       (log <- call (AdapterFindById id) ;;
        match log with
        | None => ret (json_error "Not found" 404)
        | Some log => ret (json (LogBody log))
        end)
       (api_error "Failed to fetch log")).

(** [DELETE] of [createLogDetailAPIHandlers]. *)
Definition createLogDetailAPIHandlers_DELETE : M Response :=
  guarded
    (id <- call Params ;;
     catch
       (_ <- call (AdapterDelete id) ;;
        ret (json SuccessBody))
       (api_error "Failed to delete log")).

(** The handler [createLogStatsHandler] returns. *)
Definition createLogStatsHandler : M Response :=
  guarded
    (catch
       (p1 <- settle (AdapterFindMany (count_only (Some "error") None)) ;;
        p2 <- settle (AdapterFindMany (count_only (Some "warn") None)) ;;
        p3 <- settle (AdapterFindMany (count_only (Some "info") None)) ;;
        p4 <- settle (AdapterFindMany (count_only (Some "debug") None)) ;;
        p5 <- settle (AdapterFindMany (count_only None None)) ;;
        '(errors, warnings, infos, debugs, total) <-
          promise_all5 (then_total p1) (then_total p2) (then_total p3)
                       (then_total p4) (then_total p5) ;;
        let oneDayAgo := ValidDate (now - 24 * 60 * 60 * 1000) in
        recentResult <-
          call (AdapterFindMany (count_only None (Some oneDayAgo))) ;;
        ret (json (StatsBody total
                     {| error := errors; warn := warnings; info := infos;
                        debug := debugs |}
                     (total_of recentResult))))
       (api_error "Failed to fetch stats")).
End Handlers.

End ApiRoutes.

(* ===================================================================== *)
(** * [create] of the raw-SQL adapter ([src/adapters/sql.ts]) *)
(* ===================================================================== *)

Module SqlCreate.
Import Sql.

(** What [toCamelCase(rows[0])] throws when [rows] is empty: a
    [TypeError] on reading [row.id] of [undefined]. *)
Definition undefined_row : Thrown :=
  ThrowError "Cannot read properties of undefined (reading 'id')".

(** A value of type [string | null] as a parameter. *)
Definition nullable (o : option string) : SqlValue :=
  match o with
  | Some s => SqlText s
  | None => SqlNull
  end.

Section Adapter.
(** [JSON.stringify(v)] *)
Variable stringify : Json -> string.
Variable config : SQLAdapterConfig.

(** [toCamelCase(rows[0])] *)
Definition first_row (rows : list DbRow) : M ErrorLogEntry :=
  match rows with
  | [] => Throw undefined_row
  | row :: _ => Ret (toCamelCase row)
  end.

(** The array [params] of [create]; [id] is the value of
    [crypto.randomUUID()] and [now] the time [new Date()] reads. *)
Definition create_params (id : string) (now : Z) (entry : NewEntry)
  : list SqlValue :=
  [SqlText id;
   SqlText (level_string (new_level entry));
   SqlText (new_message entry);
   nullable (new_stack entry);
   nullable (new_userId entry);
   nullable (new_userEmail entry);
   nullable (new_userName entry);
   nullable (new_path entry);
   nullable (new_method entry);
   nullable (new_userAgent entry);
   nullable (new_ip entry);
   match new_metadata entry with
   | Some m => if Api.truthy_json (Some m) then SqlText (stringify m) else SqlNull
   | None => SqlNull
   end;
   SqlIsoDate now].

(** The statement [sql] of [create], with [RETURNING]. *)
Definition returning_sql : string :=
  nl ++ "        INSERT INTO " ++ table config ++ " (" ++ nl ++
  "          id, level, message, stack, user_id, user_email, user_name," ++ nl ++
  "          path, method, user_agent, ip, metadata, created_at" ++ nl ++
  "        ) VALUES (" ++ nl ++
  "          " ++ ph config 1 ++ ", " ++ ph config 2 ++ ", " ++ ph config 3 ++ ", "
    ++ ph config 4 ++ ", " ++ ph config 5 ++ ", " ++ ph config 6 ++ ", "
    ++ ph config 7 ++ "," ++ nl ++
  "          " ++ ph config 8 ++ ", " ++ ph config 9 ++ ", " ++ ph config 10 ++ ", "
    ++ ph config 11 ++ ", " ++ ph config 12 ++ ", " ++ ph config 13 ++ nl ++
  "        ) RETURNING *" ++ nl ++
  "      ".

(** The statement [insertSql] of [create], for MySQL and SQLite. *)
Definition insert_sql : string :=
  nl ++ "          INSERT INTO " ++ table config ++ " (" ++ nl ++
  "            id, level, message, stack, user_id, user_email, user_name," ++ nl ++
  "            path, method, user_agent, ip, metadata, created_at" ++ nl ++
  "          ) VALUES (?, ?, ?, ?, ?, ?, ?, ?, ?, ?, ?, ?, ?)" ++ nl ++
  "        ".

Definition select_sql : string :=
  "SELECT * FROM " ++ table config ++ " WHERE id = ?".

Definition create (id : string) (now : Z) (entry : NewEntry) : M ErrorLogEntry :=
  let sql := returning_sql in
  let params := create_params id now entry in
  match dialect config with
  | Postgres =>
      rows <- call (QueryRows sql params) ;;
      first_row rows
  | Mysql | Sqlite =>
      let insertSql := insert_sql in
      _ <- call (Execute insertSql params) ;;
      let selectSql := select_sql in
      rows <- call (QueryRows selectSql [SqlText id]) ;;
      first_row rows
  end.
End Adapter.

End SqlCreate.

(* ===================================================================== *)
(** * Reference collaborators

    The adapters only translate requests; what a request does is decided
    by the database client behind them.  The definitions below give the
    clients a reference meaning over a table held in memory, so that
    properties about rows (how many match, which are deleted, whether a
    missing row is an error) can be stated.  Row queries are answered by an
    arbitrary function of the request and the table. *)
(* ===================================================================== *)

(** [a <= b] on dates; a comparison with an invalid date is false. *)
Definition date_leb (a b : Date) : bool :=
  match a, b with
  | ValidDate x, ValidDate y => x <=? y
  | _, _ => false
  end.

Definition date_ltb (a b : Date) : bool :=
  match a, b with
  | ValidDate x, ValidDate y => x <? y
  | _, _ => false
  end.

Definition opt_holds {A : Type} (o : option A) (p : A -> bool) : bool :=
  match o with
  | Some a => p a
  | None => true
  end.

Definition count_where {A : Type} (p : A -> bool) (t : list A) : Z :=
  Z.of_nat (length (filter p t)).

(** ** The Prisma client *)

Module PrismaClient.
Import Prisma.

Definition Table : Type := list ErrorLogEntry.

Definition text_of (f : TextField) (e : ErrorLogEntry) : option string :=
  match f with
  | FMessage => Some (message e)
  | FStack => stack e
  | FPath => path e
  | FUserEmail => userEmail e
  end.

(** The rejection of [delete] when no record matches (code P2025). *)
Definition record_not_found : Thrown :=
  ThrowError "An operation failed because it depends on one or more records that were required but not found. Record to delete does not exist.".

(** The rejection of a filter [{ contains, mode: 'insensitive' }] by a
    client whose datasource has no such mode. *)
Definition unknown_mode : Thrown := ThrowError "Unknown argument `mode`.".

Section Client.
(** [{ contains: needle, mode: 'insensitive' }] on a field value, for a
    datasource that has the mode (PostgreSQL, MongoDB); [None] for one that
    has not (SQLite, MySQL), where the client rejects the argument. *)
Variable contains_insensitive : option (string -> string -> bool).
(** The answer to [findMany]. *)
Variable findMany_reply :
  Where -> OrderBy * Order -> Double -> Double -> Table ->
  Thrown + list ErrorLogEntry.

Definition clause_holds (e : ErrorLogEntry) (c : ContainsClause) : bool :=
  match text_of (on_field c) e, contains_insensitive with
  | Some v, Some matches => matches v (contains c)
  | _, _ => false
  end.

(** Whether the client accepts the [where] object. *)
Definition accepts (w : Where) : bool :=
  match w_OR w, contains_insensitive with
  | Some (_ :: _), None => false
  | _, _ => true
  end.

Definition date_filter_holds (d : Date) (f : DateFilter) : bool :=
  opt_holds (gte f) (fun g => date_leb g d)
  && opt_holds (lte f) (fun l => date_leb d l)
  && opt_holds (lt f) (fun l => date_ltb d l).

(** The properties of a [where] object are conjoined; [OR] holds when
    one of its clauses does. *)
Definition where_holds (w : Where) (e : ErrorLogEntry) : bool :=
  opt_holds (w_level w) (fun l => level_eqb (level e) l)
  && opt_holds (w_userId w)
       (fun u => match userId e with Some v => String.eqb v u | None => false end)
  && opt_holds (w_OR w) (existsb (clause_holds e))
  && opt_holds (w_createdAt w) (date_filter_holds (createdAt e)).

Definition has_id (i : string) (e : ErrorLogEntry) : bool := String.eqb (id e) i.

Definition client (c : Call) (t : Table) : (Thrown + result c) * Table :=
  match c as c' return (Thrown + result c') * Table with
  | FindMany w ob s tk =>
      (if accepts w then findMany_reply w ob s tk t else inl unknown_mode, t)
  | Count w =>
      (if accepts w then inr (count_where (where_holds w) t)
       else inl unknown_mode, t)
  | FindUnique i => (inr (find (has_id i) t), t)
  | Delete i =>
      match find (has_id i) t with
      | Some e => (inr e, filter (fun x => negb (has_id i x)) t)
      | None => (inl record_not_found, t)
      end
  | DeleteMany w =>
      if accepts w
      then (inr (count_where (where_holds w) t),
            filter (fun x => negb (where_holds w x)) t)
      else (inl unknown_mode, t)
  end.
End Client.
End PrismaClient.

(** ** The Drizzle database *)

Module DrizzleDb.
Import Drizzle.

Definition Table : Type := list ErrorLogEntry.

Inductive Cell : Type :=
| TextCell (v : option string)
| DateCell (d : Date).

Definition column_value (c : Column) (e : ErrorLogEntry) : Cell :=
  match c with
  | ColId => TextCell (Some (id e))
  | ColLevel => TextCell (Some (level_string (level e)))
  | ColUserId => TextCell (userId e)
  | ColMessage => TextCell (Some (message e))
  | ColStack => TextCell (stack e)
  | ColPath => TextCell (path e)
  | ColUserEmail => TextCell (userEmail e)
  | ColCreatedAt => DateCell (createdAt e)
  end.

Definition operand_text (v : Operand) : option string :=
  match v with
  | OText s => Some s
  | OLevel l => Some (level_string l)
  | ODate _ => None
  end.

Section Db.
(** The [LIKE] of the database: value, then pattern. *)
Variable like_match : string -> string -> bool.
(** The answer to a row query. *)
Variable select_reply :
  option Cond -> option OrderExpr -> Double -> Double -> Table ->
  Thrown + list ErrorLogEntry.

Definition eq_holds (cell : Cell) (v : Operand) : bool :=
  match cell, v with
  | TextCell (Some a), (OText _ | OLevel _) =>
      match operand_text v with
      | Some b => String.eqb a b
      | None => false
      end
  | _, _ => false
  end.

(** A comparison with a null value holds for no row. *)
Fixpoint holds (c : Cond) (e : ErrorLogEntry) : bool :=
  match c with
  | eq col v => eq_holds (column_value col e) v
  | like col pattern =>
      match column_value col e with
      | TextCell (Some a) => like_match a pattern
      | _ => false
      end
  | lt col v =>
      match column_value col e, v with
      | DateCell d, ODate x => date_ltb d x
      | _, _ => false
      end
  | gte col v =>
      match column_value col e, v with
      | DateCell d, ODate x => date_leb x d
      | _, _ => false
      end
  | lte col v =>
      match column_value col e, v with
      | DateCell d, ODate x => date_leb d x
      | _, _ => false
      end
  | and conds => forallb (fun c' => holds c' e) conds
  | or conds => existsb (fun c' => holds c' e) conds
  end.

Definition where_holds (w : option Cond) (e : ErrorLogEntry) : bool :=
  opt_holds w (fun c => holds c e).

Definition db (c : Call) (t : Table) : (Thrown + result c) * Table :=
  match c as c' return (Thrown + result c') * Table with
  | Select w ob l o => (select_reply w ob l o t, t)
  | CountRows w => (inr (count_where (where_holds w) t), t)
  | DeleteWhere w =>
      (inr {| rowCount := Some (count_where (holds w) t) |},
       filter (fun x => negb (holds w x)) t)
  end.
End Db.
End DrizzleDb.

(** ** The SQL engine behind an executor

    The engine reads the statements in the shapes the adapter writes them:
    a [SELECT COUNT( * )] or a [DELETE] on its table, followed by an
    optional [WHERE] clause that is a conjunction of comparisons and of
    parenthesised disjunctions of comparisons, each comparing a column with
    a placeholder.  Numbered placeholders are those of PostgreSQL, the
    question mark those of MySQL and SQLite.  The operator [ILIKE] is
    PostgreSQL's: MySQL and SQLite have no such operator and refuse a
    statement that uses it.  A count is reported as the drivers report it:
    as text by PostgreSQL's (the count is a [bigint]), as a number by those
    of MySQL and SQLite. *)

Module SqlEngine.
Import Sql.

Local Open Scope list_scope.

Definition Table : Type := list DbRow.

Definition syntax_error : Thrown := ThrowError "syntax error".

Definition is_blank (c : ascii) : bool :=
  let n := nat_of_ascii c in
  ((9 <=? n) && (n <=? 13))%nat || (n =? 32)%nat.

(** The words of a statement, separated by white space; [acc] is the
    word being read. *)
Fixpoint words_from (acc : string) (s : string) : list string :=
  match s with
  | EmptyString =>
      match acc with
      | EmptyString => []
      | _ => [acc]
      end
  | String c rest =>
      if is_blank c
      then match acc with
           | EmptyString => words_from EmptyString rest
           | _ => acc :: words_from EmptyString rest
           end
      else words_from (acc ++ String c EmptyString)%string rest
  end.

Definition words (s : string) : list string := words_from EmptyString s.

(** [strip p s] is the rest of [s] after its prefix [p]. *)
Fixpoint strip (p s : string) : option string :=
  match p, s with
  | EmptyString, _ => Some s
  | String a p', String b s' => if Ascii.eqb a b then strip p' s' else None
  | String _ _, EmptyString => None
  end.

Inductive Token : Type :=
| Word (w : string)
| Param (v : SqlValue).

(** The number of a placeholder [$n]. *)
Definition placeholder_number (digits : string) : option nat :=
  match NilEmpty.uint_of_string digits with
  | Some u => Some (Nat.of_uint u)
  | None => None
  end.

(** Placeholders are replaced by the parameters they denote: [$n] by the
    n-th, the k-th question mark by the k-th. *)
Fixpoint bind_params (d : Dialect) (ps : list SqlValue) (next : nat)
         (ws : list string) : option (list Token) :=
  match ws with
  | [] => Some []
  | w :: rest =>
      match w with
      | String "?" EmptyString =>
          match d with
          | Postgres => None
          | Mysql | Sqlite =>
              match nth_error ps next, bind_params d ps (S next) rest with
              | Some v, Some ts => Some (Param v :: ts)
              | _, _ => None
              end
          end
      | String "$" digits =>
          match d with
          | Postgres =>
              match placeholder_number digits with
              | Some (S n) =>
                  match nth_error ps n, bind_params d ps next rest with
                  | Some v, Some ts => Some (Param v :: ts)
                  | _, _ => None
                  end
              | _ => None
              end
          | Mysql | Sqlite => None
          end
      | _ =>
          match bind_params d ps next rest with
          | Some ts => Some (Word w :: ts)
          | None => None
          end
      end
  end.

Definition is_word (w : string) (t : Token) : bool :=
  match t with
  | Word x => String.eqb x w
  | Param _ => false
  end.

(** The runs of tokens between occurrences of the word [sep]. *)
Fixpoint split_on (sep : string) (ts : list Token) : list (list Token) :=
  match ts with
  | [] => [[]]
  | t :: rest =>
      if is_word sep t
      then [] :: split_on sep rest
      else match split_on sep rest with
           | [] => [[t]]
           | g :: gs => (t :: g) :: gs
           end
  end.

(** A comparison [column operator placeholder]. *)
Record Atom : Type := {
  a_column : string;
  a_operator : string;
  a_value : SqlValue
}.

Definition parse_atom (ts : list Token) : option Atom :=
  match ts with
  | [Word c; Word o; Param v] =>
      Some {| a_column := c; a_operator := o; a_value := v |}
  | _ => None
  end.

Fixpoint parse_all {A B : Type} (f : A -> option B) (l : list A)
  : option (list B) :=
  match l with
  | [] => Some []
  | a :: rest =>
      match f a, parse_all f rest with
      | Some b, Some bs => Some (b :: bs)
      | _, _ => None
      end
  end.

(** A conjunct: one comparison, or a parenthesised disjunction. *)
Definition parse_term (ts : list Token) : option (list Atom) :=
  match ts with
  | Word "(" :: inner =>
      match rev inner with
      | Word ")" :: rinner => parse_all parse_atom (split_on "OR" (rev rinner))
      | _ => None
      end
  | _ =>
      match parse_atom ts with
      | Some a => Some [a]
      | None => None
      end
  end.

(** The clause after the table name: nothing, or [WHERE] and conjuncts. *)
Definition parse_where (ts : list Token) : option (list (list Atom)) :=
  match ts with
  | [] => Some []
  | Word "WHERE" :: rest => parse_all parse_term (split_on "AND" rest)
  | _ => None
  end.

Inductive Cell : Type :=
| TextCell (v : option string)
| DateCell (d : Date).

Definition cell (column : string) (r : DbRow) : option Cell :=
  if String.eqb column "id" then Some (TextCell (Some (col_id r)))
  else if String.eqb column "level" then Some (TextCell (Some (level_string (col_level r))))
  else if String.eqb column "message" then Some (TextCell (Some (col_message r)))
  else if String.eqb column "stack" then Some (TextCell (col_stack r))
  else if String.eqb column "user_id" then Some (TextCell (col_user_id r))
  else if String.eqb column "user_email" then Some (TextCell (col_user_email r))
  else if String.eqb column "user_name" then Some (TextCell (col_user_name r))
  else if String.eqb column "path" then Some (TextCell (col_path r))
  else if String.eqb column "method" then Some (TextCell (col_method r))
  else if String.eqb column "user_agent" then Some (TextCell (col_user_agent r))
  else if String.eqb column "ip" then Some (TextCell (col_ip r))
  else if String.eqb column "created_at" then Some (DateCell (col_created_at r))
  else None.

Definition known_operator (d : Dialect) (o : string) : bool :=
  String.eqb o "=" || String.eqb o "<" || String.eqb o ">=" || String.eqb o "<="
  || match d with
     | Postgres => String.eqb o "ILIKE"
     | Mysql | Sqlite => false
     end.

(** The count as the driver of the dialect reports it. *)
Definition reported_count (d : Dialect) (n : Z) : CountVal :=
  match d with
  | Postgres => CountString (string_of_Z n)
  | Mysql | Sqlite => CountNumber n
  end.

Section Engine.
Variable engine_dialect : Dialect.
Variable engine_table : string.
(** [value ILIKE pattern] of PostgreSQL. *)
Variable ilike : string -> string -> bool.
(** The answer to a row query. *)
Variable select_reply : string -> list SqlValue -> Table -> Thrown + list DbRow.

(** A comparison involving a null value, or values of different kinds,
    holds for no row. *)
Definition compare (o : string) (c : Cell) (v : SqlValue) : bool :=
  match c, v with
  | TextCell (Some a), SqlText b =>
      if String.eqb o "=" then String.eqb a b
      else if String.eqb o "ILIKE" then ilike a b
      else false
  | DateCell d, SqlIsoDate ms =>
      if String.eqb o "=" then date_leb d (ValidDate ms) && date_leb (ValidDate ms) d
      else if String.eqb o "<" then date_ltb d (ValidDate ms)
      else if String.eqb o ">=" then date_leb (ValidDate ms) d
      else if String.eqb o "<=" then date_leb d (ValidDate ms)
      else false
  | _, _ => false
  end.

Definition atom_holds (r : DbRow) (a : Atom) : bool :=
  match cell (a_column a) r with
  | Some c => compare (a_operator a) c (a_value a)
  | None => false
  end.

(** Whether the engine accepts the comparison: a column of the table
    and an operator it knows. *)
Definition atom_ok (a : Atom) : bool :=
  known_operator engine_dialect (a_operator a)
  && (String.eqb (a_column a) "id" || String.eqb (a_column a) "level"
      || String.eqb (a_column a) "message" || String.eqb (a_column a) "stack"
      || String.eqb (a_column a) "user_id" || String.eqb (a_column a) "user_email"
      || String.eqb (a_column a) "user_name" || String.eqb (a_column a) "path"
      || String.eqb (a_column a) "method" || String.eqb (a_column a) "user_agent"
      || String.eqb (a_column a) "ip" || String.eqb (a_column a) "created_at").

Definition clause_holds (cnf : list (list Atom)) (r : DbRow) : bool :=
  forallb (existsb (atom_holds r)) cnf.

(** The rows a clause selects, when the engine accepts it. *)
Definition compile_where (clause : string) (ps : list SqlValue)
  : option (DbRow -> bool) :=
  match bind_params engine_dialect ps 0 (words clause) with
  | Some ts =>
      match parse_where ts with
      | Some cnf =>
          if forallb (forallb atom_ok) cnf
          then Some (clause_holds cnf)
          else None
      | None => None
      end
  | None => None
  end.

Definition engine (c : Call) (t : Table) : (Thrown + result c) * Table :=
  match c as c' return (Thrown + result c') * Table with
  | QueryRows sql ps => (select_reply sql ps t, t)
  | QueryCount sql ps =>
      match strip ("SELECT " ++ count_star ++ " as count FROM " ++ engine_table ++ " ") sql with
      | Some clause =>
          match compile_where clause ps with
          | Some p =>
              (inr [ {| count := reported_count engine_dialect (count_where p t) |} ],
               t)
          | None => (inl syntax_error, t)
          end
      | None => (inl syntax_error, t)
      end
  | Execute sql ps =>
      match strip ("DELETE FROM " ++ engine_table ++ " ") sql with
      | Some clause =>
          match compile_where clause ps with
          | Some p => (inr (count_where p t), filter (fun r => negb (p r)) t)
          | None => (inl syntax_error, t)
          end
      | None => (inl syntax_error, t)
      end
  end.
End Engine.
End SqlEngine.

(** ** The SQL engine with [INSERT] and [SELECT]

    The engine above, extended by the two statements [create] and
    [findById] need: an [INSERT] that lists its columns and gives one
    placeholder for each, with [RETURNING *] under PostgreSQL only, and a
    [SELECT * FROM <table>] followed by a [WHERE] clause the engine above
    reads.  The table has the schema the adapter documents: [id] is the
    primary key, [level] and [message] are not null, [metadata] holds JSON,
    [created_at] a time, and the other columns text or null. *)

Module SqlStore.
Import Sql.

Local Open Scope list_scope.

Definition Table : Type := list DbRow.

Definition duplicate_key : Thrown :=
  ThrowError "duplicate key value violates unique constraint".

Definition constraint_violation : Thrown :=
  ThrowError "value violates a constraint of its column".

Definition is_punctuation (c : ascii) : bool :=
  Ascii.eqb c "(" || Ascii.eqb c ")" || Ascii.eqb c ",".

Definition flush (acc : string) : list string :=
  match acc with
  | EmptyString => []
  | _ => [acc]
  end.

(** The tokens of a statement: words separated by white space, and the
    parentheses and the comma each on their own. *)
Fixpoint lex_from (acc : string) (s : string) : list string :=
  match s with
  | EmptyString => flush acc
  | String c rest =>
      if SqlEngine.is_blank c
      then flush acc ++ lex_from EmptyString rest
      else if is_punctuation c
      then flush acc ++ String c EmptyString :: lex_from EmptyString rest
      else lex_from (acc ++ String c EmptyString)%string rest
  end.

Definition lex (s : string) : list string := lex_from EmptyString s.

Fixpoint skip_blanks (s : string) : string :=
  match s with
  | EmptyString => EmptyString
  | String c rest => if SqlEngine.is_blank c then skip_blanks rest else s
  end.

Definition is_name (w : string) : bool :=
  negb (String.eqb w "(" || String.eqb w ")" || String.eqb w ",").

(** The items of a list [a , b , c )] whose opening parenthesis has been
    read, and the tokens after it. *)
Fixpoint items (ts : list string) : option (list string * list string) :=
  match ts with
  | x :: sep :: rest =>
      if negb (is_name x) then None
      else if String.eqb sep ")" then Some ([x], rest)
      else if String.eqb sep ","
      then match items rest with
           | Some (xs, tail) => Some (x :: xs, tail)
           | None => None
           end
      else None
  | _ => None
  end.

Fixpoint all_params (ts : list SqlEngine.Token) : option (list SqlValue) :=
  match ts with
  | [] => Some []
  | SqlEngine.Param v :: rest =>
      match all_params rest with
      | Some vs => Some (v :: vs)
      | None => None
      end
  | SqlEngine.Word _ :: _ => None
  end.

(** An [INSERT] read: the value given to each column, and whether the
    statement ends in [RETURNING *]. *)
Record Insert : Type := {
  assignments : list (string * SqlValue);
  returning : bool
}.

(** The rest of an [INSERT] after the table name:
    [( columns ) VALUES ( placeholders )], then [RETURNING *] or nothing. *)
Definition parse_insert (d : Dialect) (rest : string) (ps : list SqlValue)
  : option Insert :=
  match lex rest with
  | open :: ts =>
      if negb (String.eqb open "(") then None
      else
        match items ts with
        | Some (columns, values_ :: open' :: vs) =>
            if negb (String.eqb values_ "VALUES" && String.eqb open' "(") then None
            else
              match items vs with
              | Some (placeholders, tail) =>
                  match SqlEngine.bind_params d ps 0 placeholders with
                  | Some bound =>
                      match all_params bound with
                      | Some vals =>
                          if negb (length columns =? length vals)%nat then None
                          else
                            match tail with
                            | [] =>
                                Some {| assignments := combine columns vals;
                                        returning := false |}
                            | [r; star] =>
                                if String.eqb r "RETURNING" && String.eqb star "*"
                                then match d with
                                     | Postgres =>
                                         Some {| assignments := combine columns vals;
                                                 returning := true |}
                                     | Mysql | Sqlite => None
                                     end
                                else None
                            | _ => None
                            end
                      | None => None
                      end
                  | None => None
                  end
              | None => None
              end
        | _ => None
        end
  | [] => None
  end.

(** The value given to a column, if any. *)
Fixpoint assigned (column : string) (a : list (string * SqlValue))
  : option SqlValue :=
  match a with
  | [] => None
  | (c, v) :: rest => if String.eqb c column then Some v else assigned column rest
  end.

(** A column of text that may be null: absent is null. *)
Definition text_column (v : option SqlValue) : option (option string) :=
  match v with
  | None | Some SqlNull => Some None
  | Some (SqlText s) => Some (Some s)
  | Some (SqlIsoDate _) => None
  end.

(** A column of text that is not null. *)
Definition required_text (v : option SqlValue) : option string :=
  match v with
  | Some (SqlText s) => Some s
  | _ => None
  end.

Definition level_of_string (s : string) : option LogLevel :=
  if String.eqb s "error" then Some LvError
  else if String.eqb s "warn" then Some LvWarn
  else if String.eqb s "info" then Some LvInfo
  else if String.eqb s "debug" then Some LvDebug
  else None.

Definition level_column (v : option SqlValue) : option LogLevel :=
  match required_text v with
  | Some s => level_of_string s
  | None => None
  end.

Definition time_column (v : option SqlValue) : option Date :=
  match v with
  | Some (SqlIsoDate ms) => Some (ValidDate ms)
  | _ => None
  end.

Definition known_column (c : string) : bool :=
  existsb (String.eqb c)
    ["id"; "level"; "message"; "stack"; "user_id"; "user_email"; "user_name";
     "path"; "method"; "user_agent"; "ip"; "metadata"; "created_at"]%string.

Section Engine.
Variable engine_dialect : Dialect.
Variable engine_table : string.
(** [value ILIKE pattern] *)
Variable ilike : string -> string -> bool.
(** What the database hands back for a JSON text it stored. *)
Variable read_json : string -> option Json.
(** The answer to a row query the engine does not read. *)
Variable select_reply : string -> list SqlValue -> Table -> Thrown + list DbRow.

Definition json_column (v : option SqlValue) : option (option Json) :=
  match v with
  | None | Some SqlNull => Some None
  | Some (SqlText s) => Some (read_json s)
  | Some (SqlIsoDate _) => None
  end.

(** The row an [INSERT] stores, when its values fit the columns. *)
Definition row_of (a : list (string * SqlValue)) : option DbRow :=
  if negb (forallb (fun cv => known_column (fst cv)) a) then None
  else
    match required_text (assigned "id" a), level_column (assigned "level" a),
          required_text (assigned "message" a),
          text_column (assigned "stack" a), text_column (assigned "user_id" a),
          text_column (assigned "user_email" a),
          text_column (assigned "user_name" a), text_column (assigned "path" a),
          text_column (assigned "method" a),
          text_column (assigned "user_agent" a), text_column (assigned "ip" a),
          json_column (assigned "metadata" a),
          time_column (assigned "created_at" a) with
    | Some i, Some l, Some m, Some st, Some ui, Some ue, Some un, Some pa,
      Some me, Some ua, Some ip_, Some md, Some ca =>
        Some {| col_id := i; col_level := l; col_message := m; col_stack := st;
                col_user_id := ui; col_user_email := ue; col_user_name := un;
                col_path := pa; col_method := me; col_user_agent := ua;
                col_ip := ip_; col_metadata := md; col_created_at := ca |}
    | _, _, _, _, _, _, _, _, _, _, _, _, _ => None
    end.

(** The statement after [INSERT INTO <table> ], if it is an [INSERT] on
    the table of the engine. *)
Definition as_insert (sql : string) : option string :=
  SqlEngine.strip ("INSERT INTO " ++ engine_table ++ " ") (skip_blanks sql).

(** What an [INSERT] does to the table: the row it adds and whether the
    row is returned, or the error. *)
Definition insert (rest : string) (ps : list SqlValue) (t : Table)
  : Thrown + DbRow * bool :=
  match parse_insert engine_dialect rest ps with
  | Some i =>
      match row_of (assignments i) with
      | Some row =>
          if existsb (fun r => String.eqb (col_id r) (col_id row)) t
          then inl duplicate_key
          else inr (row, returning i)
      | None => inl constraint_violation
      end
  | None => inl SqlEngine.syntax_error
  end.

Definition engine (c : Call) (t : Table) : (Thrown + result c) * Table :=
  match c as c' return (Thrown + result c') * Table with
  | QueryRows sql ps =>
      match as_insert sql with
      | Some rest =>
          match insert rest ps t with
          | inr (row, returned) =>
              (inr (if returned then [row] else []), t ++ [row])
          | inl e => (inl e, t)
          end
      | None =>
          match SqlEngine.strip ("SELECT * FROM " ++ engine_table ++ " ") sql with
          | Some clause =>
              match SqlEngine.compile_where engine_dialect ilike clause ps with
              | Some p => (inr (filter p t), t)
              | None => (select_reply sql ps t, t)
              end
          | None => (select_reply sql ps t, t)
          end
      end
  | QueryCount sql ps =>
      SqlEngine.engine engine_dialect engine_table ilike select_reply
        (QueryCount sql ps) t
  | Execute sql ps =>
      match as_insert sql with
      | Some rest =>
          match insert rest ps t with
          | inr (row, _) => (inr 1, t ++ [row])
          | inl e => (inl e, t)
          end
      | None =>
          SqlEngine.engine engine_dialect engine_table ilike select_reply
            (Execute sql ps) t
      end
  end.
End Engine.
End SqlStore.

(* ===================================================================== *)
(** * Notions used in the statements *)
(* ===================================================================== *)

(** [hay.includes(needle)] *)
Fixpoint contains (needle hay : string) : bool :=
  if String.prefix needle hay then true
  else match hay with
       | EmptyString => false
       | String _ rest => contains needle rest
       end.

(** The filters of a query, pagination and ordering left out. *)
Record Filters : Type := {
  f_level : option LogLevel;
  f_userId : option string;
  f_search : option string;
  f_startDate : option Date;
  f_endDate : option Date
}.

Definition filters_of (o : QueryOptions) : Filters :=
  {| f_level := q_level o;
     f_userId := q_userId o;
     f_search := q_search o;
     f_startDate := q_startDate o;
     f_endDate := q_endDate o |}.

(** The options [o] with another page and limit. *)
Definition with_page_limit (page limit : option Double) (o : QueryOptions)
  : QueryOptions :=
  {| q_page := page;
     q_limit := limit;
     q_level := q_level o;
     q_userId := q_userId o;
     q_search := q_search o;
     q_startDate := q_startDate o;
     q_endDate := q_endDate o;
     q_orderBy := q_orderBy o;
     q_order := q_order o |}.

(** A string filter is supplied when it is a non-empty string. *)
Definition supplied (o : option string) : option string := or_null o.

(** A text search that may be missing: without one nothing matches. *)
Definition or_no_match (m : option (string -> string -> bool))
  : string -> string -> bool :=
  match m with
  | Some matches => matches
  | None => fun _ _ => false
  end.

(** The rows a set of filters selects, following the specification: the
    level, the user and the two ends of the date range are conjoined, and
    the search term must match one of message, stack, path and user email.
    [text_match value term] is the text search of the storage backend. *)
Definition row_matches (text_match : string -> string -> bool) (f : Filters)
           (e : ErrorLogEntry) : bool :=
  let field_matches (term : string) (value : option string) : bool :=
    match value with
    | Some v => text_match v term
    | None => false
    end in
  opt_holds (f_level f) (fun l => level_eqb (level e) l)
  && opt_holds (supplied (f_userId f))
       (fun u => match userId e with Some v => String.eqb v u | None => false end)
  && opt_holds (supplied (f_search f))
       (fun s => field_matches s (Some (message e)) || field_matches s (stack e)
                 || field_matches s (path e) || field_matches s (userEmail e))
  && opt_holds (f_startDate f) (fun d => date_leb d (createdAt e))
  && opt_holds (f_endDate f) (fun d => date_leb (createdAt e) d).

Definition date_valid (d : option Date) : bool :=
  match d with
  | Some InvalidDate => false
  | _ => true
  end.

(** Both ends of the date range, when given, are valid dates. *)
Definition dates_valid (o : QueryOptions) : bool :=
  date_valid (q_startDate o) && date_valid (q_endDate o).

Definition present {A : Type} (o : option A) : bool :=
  match o with
  | Some _ => true
  | None => false
  end.

Definition order_eqb (a b : Order) : bool :=
  match a, b with
  | Asc, Asc | Desc, Desc => true
  | _, _ => false
  end.

Definition orderBy_eqb (a b : OrderBy) : bool :=
  match a, b with
  | ByCreatedAt, ByCreatedAt | ByLevel, ByLevel => true
  | _, _ => false
  end.

(** Two queries that differ at most in the values of their filters: the
    same filters are supplied, and page, limit and ordering agree. *)
Definition same_shape (o1 o2 : QueryOptions) : Prop :=
  page_of o1 = page_of o2 /\ limit_of o1 = limit_of o2
  /\ orderBy_of o1 = orderBy_of o2
  /\ order_of o1 = order_of o2
  /\ present (q_level o1) = present (q_level o2)
  /\ truthy_opt (q_userId o1) = truthy_opt (q_userId o2)
  /\ truthy_opt (q_search o1) = truthy_opt (q_search o2)
  /\ present (q_startDate o1) = present (q_startDate o2)
  /\ present (q_endDate o1) = present (q_endDate o2).

(** The query [o] with the values of its filters replaced by fixed ones:
    [canonical o] keeps which filters are supplied, the page, the limit
    and the ordering, and nothing else. *)
Definition canonical (o : QueryOptions) : QueryOptions :=
  {| q_page := Some (page_of o);
     q_limit := Some (limit_of o);
     q_level := option_map (fun _ => LvError) (q_level o);
     q_userId := if truthy_opt (q_userId o) then Some "x" else None;
     q_search := if truthy_opt (q_search o) then Some "x" else None;
     q_startDate := option_map (fun _ => ValidDate 0) (q_startDate o);
     q_endDate := option_map (fun _ => ValidDate 0) (q_endDate o);
     q_orderBy := Some (orderBy_of o);
     q_order := Some (order_of o) |}.

(** The values of the supplied filters, in the order of the source. *)
Definition filter_values (o : QueryOptions) : list Sql.SqlValue :=
  (match q_level o with
   | Some l => [Sql.SqlText (level_string l)]
   | None => []
   end ++
   match supplied (q_userId o) with
   | Some u => [Sql.SqlText u]
   | None => []
   end ++
   match supplied (q_search o) with
   | Some s => let p := Sql.SqlText ("%" ++ s ++ "%")%string in [p; p; p; p]
   | None => []
   end ++
   match q_startDate o with
   | Some (ValidDate ms) => [Sql.SqlIsoDate ms]
   | _ => []
   end ++
   match q_endDate o with
   | Some (ValidDate ms) => [Sql.SqlIsoDate ms]
   | _ => []
   end)%list.

(** The offset of a query: [(page - 1) * limit]. *)
Definition offset_of (o : QueryOptions) : Double :=
  Double.mul (Double.sub (page_of o) (Double.of_Z 1)) (limit_of o).

(** A [WHERE] clause as a reader of SQL sees it: the words of the clause,
    each placeholder standing for the parameter it denotes under the
    dialect, as a conjunction of disjunctions of comparisons; [None] when
    the clause does not read as one, or a placeholder has no parameter. *)
Definition read_where (d : Sql.Dialect) (clause : string)
           (ps : list Sql.SqlValue) : option (list (list SqlEngine.Atom)) :=
  match SqlEngine.bind_params d ps 0 (SqlEngine.words clause) with
  | Some tokens => SqlEngine.parse_where tokens
  | None => None
  end.

(** The comparison [column operator value]. *)
Definition compares (column operator : string) (value : Sql.SqlValue)
  : SqlEngine.Atom :=
  {| SqlEngine.a_column := column; SqlEngine.a_operator := operator;
     SqlEngine.a_value := value |}.

(** The conditions the filters of a query stand for: one comparison for
    the level, the user and either end of the date range, and for the
    search term the disjunction of four comparisons with the pattern
    [%term%]. *)
Definition filter_conditions (o : QueryOptions) : list (list SqlEngine.Atom) :=
  (match q_level o with
   | Some l => [[compares "level" "=" (Sql.SqlText (level_string l))]]
   | None => []
   end ++
   match supplied (q_userId o) with
   | Some u => [[compares "user_id" "=" (Sql.SqlText u)]]
   | None => []
   end ++
   match supplied (q_search o) with
   | Some s =>
       let p := Sql.SqlText ("%" ++ s ++ "%")%string in
       [[compares "message" "ILIKE" p; compares "stack" "ILIKE" p;
         compares "path" "ILIKE" p; compares "user_email" "ILIKE" p]]
   | None => []
   end ++
   match q_startDate o with
   | Some (ValidDate ms) => [[compares "created_at" ">=" (Sql.SqlIsoDate ms)]]
   | _ => []
   end ++
   match q_endDate o with
   | Some (ValidDate ms) => [[compares "created_at" "<=" (Sql.SqlIsoDate ms)]]
   | _ => []
   end)%list.

(** A placeholder: a question mark, or a dollar sign and what follows it. *)
Definition is_placeholder (word : string) : bool :=
  match word with
  | String "?" EmptyString => true
  | String "$" _ => true
  | _ => false
  end.

(** The placeholders of a text, in the order they stand in it. *)
Definition placeholders (text : string) : list string :=
  filter is_placeholder (SqlEngine.words text).

(** The placeholders for [n] parameters: [$1] to [$n] under postgres, [n]
    question marks under mysql and sqlite. *)
Definition numbered (d : Sql.Dialect) (n : nat) : list string :=
  map (fun i => match d with
                | Sql.Postgres => ("$" ++ string_of_Z (Z.of_nat i))%string
                | Sql.Mysql | Sql.Sqlite => "?"
                end)
      (seq 1 n).

(** Whether the databases of a dialect have the operator [ILIKE]. *)
Definition has_ilike (d : Sql.Dialect) : bool :=
  match d with
  | Sql.Postgres => true
  | Sql.Mysql | Sql.Sqlite => false
  end.

(** The first call a program makes, if it makes one. *)
Definition first_call {action : Type} {result : action -> Type} {A : Type}
           (p : Prog action result A) : option action :=
  match p with
  | Act c _ => Some c
  | _ => None
  end.

(** The text and the parameters of the [SELECT] statement of [findMany]. *)
Definition select_statement (Number : string -> JsNumber)
           (config : Sql.SQLAdapterConfig) (o : QueryOptions)
  : option (string * list Sql.SqlValue) :=
  match first_call (findMany (createSQLAdapter Number config) o) with
  | Some (Sql.QueryRows text ps) => Some (text, ps)
  | _ => None
  end.

(** What reaches the caller of a logging call as the description of a
    failure: the [error] of a result that is not a success, or the message
    of the error thrown. *)
Definition surfaced (r : Outcome LogResult) : option string :=
  match r with
  | Returned res => if success res then None else error res
  | Threw e => Some (error_message e)
  end.

Definition threw {A : Type} (r : Outcome A) : bool :=
  match r with
  | Threw _ => true
  | Returned _ => false
  end.

(** The empty argument of [deleteMany]. *)
Definition no_filter : DeleteManyOptions := {| d_before := None; d_level := None |}.

(** The property [key] of an object [JSON.parse] made of [fields]: the
    value of the last member of that name, or nothing ([undefined]). *)
Definition field (key : string) (fields : list (string * Json)) : option Json :=
  option_map snd (find (fun member => String.eqb (fst member) key) (rev fields)).

(** The values of [body.before] that stand for no date: [undefined],
    [null], [false], [0] and the empty string. *)
Definition no_date (v : option Json) : Prop :=
  v = None \/ v = Some JNull \/ v = Some (JBool false)
  \/ v = Some (JNumber 0) \/ v = Some (JString EmptyString).

(** The values [new Date] cannot convert: an object with a member named
    [toString], and an array that holds such a value. *)
Inductive Unconvertible : Json -> Prop :=
| unconvertible_object : forall fields,
    In "toString" (map fst fields) -> Unconvertible (JObject fields)
| unconvertible_array : forall items v,
    In v items -> Unconvertible v -> Unconvertible (JArray items).

(** Whether a settled promise is a rejected one. *)
Definition is_rejected {A : Type} (r : Thrown + A) : bool :=
  match r with
  | inl _ => true
  | inr _ => false
  end.

(** The entry [create] is asked to store for an anonymous user. *)
Definition anonymous_entry (l : LogLevel) (message : string)
           (err : option ErrorObject) (context : option RequestContext)
  : NewEntry :=
  {| new_level := l;
     new_message := message;
     new_stack := match err with Some e => or_null (err_stack e) | None => None end;
     new_userId := None;
     new_userEmail := None;
     new_userName := None;
     new_path := Logger.ctx_field context ctx_path;
     new_method := Logger.ctx_field context ctx_method;
     new_userAgent := Logger.ctx_field context ctx_userAgent;
     new_ip := Logger.ctx_field context ctx_ip;
     new_metadata := Logger.ctx_meta context |}.

(** The message, the error object, the context and the user a logging
    call carries. *)
Definition message_of (c : Logger.LoggingCall) : string :=
  match c with
  | Logger.CallError m _ _ | Logger.CallWarn m _ _ | Logger.CallInfo m _
  | Logger.CallDebug m _ | Logger.CallRequestError _ m _ _
  | Logger.CallRequestWarn _ m _ | Logger.CallRequestInfo _ m _
  | Logger.CallRequestDebug _ m _ | Logger.CallUserError _ m _ _
  | Logger.CallUserWarn _ m _ | Logger.CallUserInfo _ m _ => m
  end.

Definition error_of (c : Logger.LoggingCall) : option ErrorObject :=
  match c with
  | Logger.CallError _ e _ | Logger.CallWarn _ e _
  | Logger.CallRequestError _ _ e _ | Logger.CallUserError _ _ e _ => e
  | _ => None
  end.


Definition context_of (c : Logger.LoggingCall) : option RequestContext :=
  match c with
  | Logger.CallError _ _ x | Logger.CallWarn _ _ x | Logger.CallInfo _ x
  | Logger.CallDebug _ x | Logger.CallUserError _ _ _ x
  | Logger.CallUserWarn _ _ x | Logger.CallUserInfo _ _ x => x
  | Logger.CallRequestError r _ _ md | Logger.CallRequestWarn r _ md
  | Logger.CallRequestInfo r _ md | Logger.CallRequestDebug r _ md =>
      Some (Logger.with_metadata (Logger.extractRequestContext r) md)
  end.

Definition user_of (c : Logger.LoggingCall) : option Logger.AuthUser :=
  match c with
  | Logger.CallUserError u _ _ _ | Logger.CallUserWarn u _ _
  | Logger.CallUserInfo u _ _ => Some u
  | _ => None
  end.

(** [error?.stack || null] *)
Definition stack_of (c : Logger.LoggingCall) : option string :=
  match error_of c with
  | Some e => or_null (err_stack e)
  | None => None
  end.

(** The line [log] writes to the console when logging failed. *)
Definition failed_to_log (e : Thrown) : ConsoleLine :=
  {| console_method := ConsoleError;
     console_args := [CText "[@vinetechke/next-error-logger] Failed to log:";
                      CThrown e] |}.

(** The line [log] writes to the console in development. *)
Definition echo (c : Logger.LoggingCall) : ConsoleLine :=
  {| console_method :=
       match Logger.level_of c with
       | LvError => ConsoleError
       | LvWarn => ConsoleWarn
       | LvInfo | LvDebug => ConsoleLog
       end;
     console_args :=
       [CText ("[" ++ Logger.level_upper (Logger.level_of c) ++ "]");
        CText (message_of c);
        match error_of c with Some e => CError e | None => CText EmptyString end;
        match context_of c with Some x => CContext x | None => CText EmptyString end] |}.


(** Every character of [s] satisfies [p]. *)
Fixpoint all_chars (p : ascii -> bool) (s : string) : bool :=
  match s with
  | EmptyString => true
  | String c rest => p c && all_chars p rest
  end.

(** A character of a client address: a printable ASCII character other
    than the comma. *)
Definition address_char (c : ascii) : bool :=
  let n := nat_of_ascii c in
  ((33 <=? n) && (n <=? 126) && negb (n =? 44))%nat.

(** The header [x-forwarded-for] names no client: it is absent, or
    nothing but white space stands before its first comma. *)
Definition names_no_client (forwarded : option string) : bool :=
  match forwarded with
  | None => true
  | Some v => all_chars Logger.is_space (Logger.first_segment v)
  end.

(** The user a NextAuth session stands for: the session must have a
    user with a non-empty id; an empty email or name counts as absent. *)
Definition session_user (session : option NextAuth.NextAuthSession)
  : option Logger.AuthUser :=
  match session with
  | Some {| NextAuth.user := Some u |} =>
      match supplied (NextAuth.su_id u) with
      | Some i => Some {| Logger.user_id := i;
                          Logger.user_email := supplied (NextAuth.su_email u);
                          Logger.user_name := supplied (NextAuth.su_name u) |}
      | None => None
      end
  | _ => None
  end.

(** A user of whom only the id is known. *)
Definition id_only (i : string) : Logger.AuthUser :=
  {| Logger.user_id := i; Logger.user_email := None; Logger.user_name := None |}.

(** The name made of a first and a last name, either of which may be
    missing or empty. *)
Definition full_name (first last : option string) : option string :=
  match supplied first, supplied last with
  | Some f, Some l => Some (f ++ " " ++ l)%string
  | Some f, None => Some f
  | None, Some l => Some l
  | None, None => None
  end.

(** The user a Clerk user record stands for. *)
Definition clerk_user (user : Clerk.ClerkUser) : Logger.AuthUser :=
  {| Logger.user_id := Clerk.cu_id user;
     Logger.user_email :=
       match Clerk.emailAddresses user with
       | Some l => hd_error l
       | None => None
       end;
     Logger.user_name := full_name (Clerk.firstName user) (Clerk.lastName user) |}.

(** The routes served by the handlers of [ApiRoutes]. *)
Inductive Route : Type :=
| ListGet (searchParams : list (string * string))
| DetailGet
| DetailDelete
| Stats.

Definition route_handler (parseInt : string -> JsNumber) (newDate : string -> Date)
           (now : Z) (config : Logger.State) (route : Route)
  : ApiRoutes.M ApiRoutes.Response :=
  match route with
  | ListGet searchParams =>
      ApiRoutes.createLogAPIHandlers_GET parseInt newDate config searchParams
  | DetailGet => ApiRoutes.createLogDetailAPIHandlers_GET config
  | DetailDelete => ApiRoutes.createLogDetailAPIHandlers_DELETE config
  | Stats => ApiRoutes.createLogStatsHandler now config
  end.

(** The message a route answers with when its [try] block fails. *)
Definition failure_message (route : Route) : string :=
  match route with
  | ListGet _ => "Failed to fetch logs"
  | DetailGet => "Failed to fetch log"
  | DetailDelete => "Failed to delete log"
  | Stats => "Failed to fetch stats"
  end.

Definition is_adapter_call (c : ApiRoutes.Call) : bool :=
  match c with
  | ApiRoutes.AdapterFindMany _ | ApiRoutes.AdapterFindById _
  | ApiRoutes.AdapterDelete _ => true
  | ApiRoutes.IsAuthorized | ApiRoutes.Params => false
  end.

(** The line a handler writes to the console when its [try] block
    fails. *)
Definition api_error_line (e : Thrown) : ConsoleLine :=
  {| console_method := ConsoleError;
     console_args := [CText "[@vinetechke/next-error-logger] API error:";
                      CThrown e] |}.

(** Whether a number is at most [bound]; [NaN] is not. *)
Definition at_most (bound : Z) (n : JsNumber) : bool :=
  match n with
  | JsNum z => z <=? bound
  | JsNaN => false
  end.

Definition is_NaN (n : JsNumber) : bool :=
  match n with
  | JsNaN => true
  | JsNum _ => false
  end.

(** The five counts the statistics start together. *)
Definition stats_counts : list ApiRoutes.Call :=
  [ApiRoutes.AdapterFindMany (ApiRoutes.count_only (Some "error") None);
   ApiRoutes.AdapterFindMany (ApiRoutes.count_only (Some "warn") None);
   ApiRoutes.AdapterFindMany (ApiRoutes.count_only (Some "info") None);
   ApiRoutes.AdapterFindMany (ApiRoutes.count_only (Some "debug") None);
   ApiRoutes.AdapterFindMany (ApiRoutes.count_only None None)].

(** A promise settled by running a program against its backend. *)
Definition settle_run {action : Type} {result : action -> Type} {W A : Type}
           (backend : forall c : action, W -> (Thrown + result c) * W)
           (p : Prog action result A) (w : W) : (Thrown + A) * W :=
  let r := run backend p w in
  (match outcome r with
   | Returned a => inr a
   | Threw e => inl e
   end, final r).

(** The collaborators of the handlers of one entry, for a caller that is
    authorized or not, the id [i] in the route, and a storage adapter
    working on its backend. *)
Definition detail_route {action : Type} {result : action -> Type} {W : Type}
           (adapter : DatabaseAdapter action result)
           (backend : forall c : action, W -> (Thrown + result c) * W)
           (authorized : bool) (i : string)
  : forall c : ApiRoutes.Call, W -> (Thrown + ApiRoutes.result c) * W :=
  fun c w =>
    match c as c' return (Thrown + ApiRoutes.result c') * W with
    | ApiRoutes.IsAuthorized => (inr authorized, w)
    | ApiRoutes.Params => (inr i, w)
    | ApiRoutes.AdapterFindById j => settle_run backend (findById adapter j) w
    | ApiRoutes.AdapterDelete j => settle_run backend (delete adapter j) w
    | ApiRoutes.AdapterFindMany _ =>
        (inl (ThrowError "not a call of the routes of one entry"), w)
    end.

(** What the table holds as the metadata of a new entry: what the
    database reads back from the JSON text the adapter wrote, and null
    when the entry has no metadata. *)
Definition stored_metadata (stringify : Json -> string)
           (read_json : string -> option Json) (m : option Json) : option Json :=
  match m with
  | Some j => if Api.truthy_json (Some j) then read_json (stringify j) else None
  | None => None
  end.

(** The row [create] is to add for an entry: the id and the time it drew,
    and the fields of the entry, each in the column of its name. *)
Definition inserted_row (stringify : Json -> string)
           (read_json : string -> option Json) (i : string) (now : Z)
           (e : NewEntry) : Sql.DbRow :=
  {| Sql.col_id := i;
     Sql.col_level := new_level e;
     Sql.col_message := new_message e;
     Sql.col_stack := new_stack e;
     Sql.col_user_id := new_userId e;
     Sql.col_user_email := new_userEmail e;
     Sql.col_user_name := new_userName e;
     Sql.col_path := new_path e;
     Sql.col_method := new_method e;
     Sql.col_user_agent := new_userAgent e;
     Sql.col_ip := new_ip e;
     Sql.col_metadata := stored_metadata stringify read_json (new_metadata e);
     Sql.col_created_at := ValidDate now |}.

(** The rows the filters of [deleteMany] select: those created before
    [before], of the level [level]; a filter that is absent selects every
    row. *)
Definition delete_matches (o : DeleteManyOptions) (e : ErrorLogEntry) : bool :=
  opt_holds (d_before o) (fun b => date_ltb (createdAt e) b)
  && opt_holds (d_level o) (fun l => level_eqb (level e) l).

Definition has_filter (o : DeleteManyOptions) : bool :=
  present (d_before o) || present (d_level o).

(** The argument [{ level }] of [deleteMany]. *)
Definition of_level (l : LogLevel) : DeleteManyOptions :=
  {| d_before := None; d_level := Some l |}.

(** ** Sample collaborators and inputs *)

(** The row a storage adapter keeps for a new entry. *)
Definition stored (i : string) (d : Date) (e : NewEntry) : ErrorLogEntry :=
  {| id := i;
     level := new_level e;
     message := new_message e;
     stack := new_stack e;
     userId := new_userId e;
     userEmail := new_userEmail e;
     userName := new_userName e;
     path := new_path e;
     method := new_method e;
     userAgent := new_userAgent e;
     ip := new_ip e;
     metadata := new_metadata e;
     createdAt := d |}.

(** Adapters for the facade: the auth provider rejects, the storage
    stores; the state counts the entries created. *)
Definition auth_down : forall c : Logger.Call, nat -> (Thrown + Logger.result c) * nat :=
  fun c n =>
    match c as c' return (Thrown + Logger.result c') * nat with
    | Logger.GetUser => (inl (ThrowError "Auth failed"), n)
    | Logger.Create e =>
        (inr (stored (string_of_Z (Z.of_nat n)) (ValidDate 0) e), S n)
    end.

(** Adapters for the facade: there is no session, and the storage
    rejects. *)
Definition storage_down : forall c : Logger.Call, nat -> (Thrown + Logger.result c) * nat :=
  fun c n =>
    match c as c' return (Thrown + Logger.result c') * nat with
    | Logger.GetUser => (inr None, n)
    | Logger.Create _ => (inl (ThrowError "connection refused"), n)
    end.

Definition sample_config : Logger.ErrorLoggerConfig :=
  {| Logger.authAdapter := true;
     Logger.retentionDays := None;
     Logger.levels := Some [LvError; LvWarn];
     Logger.consoleInDev := None |}.

Definition sample_user : Logger.AuthUser :=
  {| Logger.user_id := "user-123";
     Logger.user_email := Some "user@example.com";
     Logger.user_name := None |}.

Definition sample_entry (i : string) (u : option string) (ms : Z) : ErrorLogEntry :=
  {| id := i; level := LvError; message := "boom"; stack := None;
     userId := u; userEmail := None; userName := None;
     path := Some "/api/orders"; method := Some "POST"; userAgent := None;
     ip := None; metadata := None; createdAt := ValidDate ms |}.

Definition sample_row (i : string) (u : option string) (ms : Z) : Sql.DbRow :=
  {| Sql.col_id := i; Sql.col_level := LvError; Sql.col_message := "boom";
     Sql.col_stack := None; Sql.col_user_id := u; Sql.col_user_email := None;
     Sql.col_user_name := None; Sql.col_path := Some "/api/orders";
     Sql.col_method := Some "POST"; Sql.col_user_agent := None;
     Sql.col_ip := None; Sql.col_metadata := None;
     Sql.col_created_at := ValidDate ms |}.

(** A request whose body does not parse, with an authorized caller and an
    adapter that reports [n] rows deleted. *)
Definition malformed_request (n : Z)
  : forall c : Api.Call, unit -> (Thrown + Api.result c) * unit :=
  fun c w =>
    match c as c' return (Thrown + Api.result c') * unit with
    | Api.IsAuthorized => (inr true, w)
    | Api.RequestJson => (inl (ThrowError "Unexpected end of JSON input"), w)
    | Api.AdapterDeleteMany _ => (inr n, w)
    end.

(** A request with the body [body], an authorized caller and an adapter
    that reports [n] rows deleted. *)
Definition request_with (body : Json) (n : Z)
  : forall c : Api.Call, unit -> (Thrown + Api.result c) * unit :=
  fun c w =>
    match c as c' return (Thrown + Api.result c') * unit with
    | Api.IsAuthorized => (inr true, w)
    | Api.RequestJson => (inr body, w)
    | Api.AdapterDeleteMany _ => (inr n, w)
    end.

(** The body [{"before": "2024-01-01T00:00:00.000Z", "level": "error"}],
    and a [new Date] that reads that date. *)
Definition dated_body : Json :=
  JObject [("before", JString "2024-01-01T00:00:00.000Z");
           ("level", JString "error")].

Definition sample_newDate (v : Json) : Date :=
  match v with
  | JString "2024-01-01T00:00:00.000Z" => ValidDate 1704067200000
  | JNumber ms => ValidDate ms
  | _ => InvalidDate
  end.

(** A text search for the samples: [pattern] is [%term%], and a value
    matches when it contains [term]. *)
Fixpoint drop_last (s : string) : string :=
  match s with
  | EmptyString => EmptyString
  | String c EmptyString => EmptyString
  | String c rest => String c (drop_last rest)
  end.

Definition sample_like (value pattern : string) : bool :=
  match pattern with
  | EmptyString => false
  | String _ rest => contains (drop_last rest) value
  end.

Definition sample_contains (value term : string) : bool := contains term value.

Definition sample_entries : list ErrorLogEntry :=
  [sample_entry "a" (Some "u1") 10; sample_entry "b" (Some "u2") 20;
   sample_entry "c" (Some "u1") 30].

Definition sample_rows : list Sql.DbRow :=
  [sample_row "a" (Some "u1") 10; sample_row "b" (Some "u2") 20;
   sample_row "c" (Some "u1") 30].

(** The rows of user [u1] that mention "boo", from time 5 on. *)
Definition sample_query : QueryOptions :=
  {| q_page := None; q_limit := None;
     q_level := Some LvError; q_userId := Some "u1"; q_search := Some "boo";
     q_startDate := Some (ValidDate 5); q_endDate := None;
     q_orderBy := None; q_order := Some Asc |}.

Definition sample_sql_config : Sql.SQLAdapterConfig :=
  {| Sql.tableName := None; Sql.dialect := Sql.Postgres |}.

Definition sample_sqlite_config : Sql.SQLAdapterConfig :=
  {| Sql.tableName := None; Sql.dialect := Sql.Sqlite |}.

(** Adapters for the facade: a user is signed in, and the storage
    stores. *)
Definition signed_in : forall c : Logger.Call, nat -> (Thrown + Logger.result c) * nat :=
  fun c n =>
    match c as c' return (Thrown + Logger.result c') * nat with
    | Logger.GetUser => (inr (Some sample_user), n)
    | Logger.Create e =>
        (inr (stored (string_of_Z (Z.of_nat n)) (ValidDate 0) e), S n)
    end.

Definition sample_request : Logger.Request :=
  {| Logger.url_pathname := "/api/orders";
     Logger.request_method := "POST";
     Logger.headers := [("user-agent", "curl/8.0");
                        ("x-forwarded-for", " 1.2.3.4 , 5.6.7.8");
                        ("x-real-ip", "9.9.9.9")] |}.

(** A request that came through no proxy. *)
Definition direct_request : Logger.Request :=
  {| Logger.url_pathname := "/api/orders";
     Logger.request_method := "POST";
     Logger.headers := [("x-forwarded-for", " , 5.6.7.8");
                        ("x-real-ip", "9.9.9.9")] |}.

(** A Clerk session of the user [user_1], with a [fetchUser] that
    rejects. *)
Definition clerk_fetch_down
  : forall c : Clerk.Call, unit -> (Thrown + Clerk.result c) * unit :=
  fun c w =>
    match c as c' return (Thrown + Clerk.result c') * unit with
    | Clerk.Auth => (inr (Some "user_1"), w)
    | Clerk.FetchUser _ => (inl (ThrowError "rate limited"), w)
    end.

(** The collaborators of a route handler: the caller is authorized or
    not, the id in the route is [abc], and the adapter either rejects or
    knows of seven entries, none of them with that id. *)
Definition sample_route (authorized adapter_up : bool)
  : forall c : ApiRoutes.Call, unit -> (Thrown + ApiRoutes.result c) * unit :=
  fun c w =>
    match c as c' return (Thrown + ApiRoutes.result c') * unit with
    | ApiRoutes.IsAuthorized => (inr authorized, w)
    | ApiRoutes.Params => (inr "abc", w)
    | ApiRoutes.AdapterFindMany _ =>
        (if adapter_up then inr {| logs := []; total := JsNum 7 |}
         else inl (ThrowError "connection refused"), w)
    | ApiRoutes.AdapterFindById _ =>
        (if adapter_up then inr None else inl (ThrowError "connection refused"), w)
    | ApiRoutes.AdapterDelete _ =>
        (if adapter_up then inr tt else inl (ThrowError "connection refused"), w)
    end.

(** Collaborators whose adapter rejects its third query and answers the
    others; the state counts the queries. *)
Definition flaky_route
  : forall c : ApiRoutes.Call, nat -> (Thrown + ApiRoutes.result c) * nat :=
  fun c n =>
    match c as c' return (Thrown + ApiRoutes.result c') * nat with
    | ApiRoutes.IsAuthorized => (inr true, n)
    | ApiRoutes.Params => (inr "abc", n)
    | ApiRoutes.AdapterFindMany _ =>
        (if (n =? 2)%nat then inl (ThrowError "connection refused")
         else inr {| logs := []; total := JsNum 7 |}, S n)
    | ApiRoutes.AdapterFindById _ => (inr None, n)
    | ApiRoutes.AdapterDelete _ => (inr tt, n)
    end.

(** The collaborators of [DELETE] of the list route, for a caller that is
    authorized or not and a body that parses to [null]. *)
Definition null_body (authorized : bool)
  : forall c : Api.Call, unit -> (Thrown + Api.result c) * unit :=
  fun c w =>
    match c as c' return (Thrown + Api.result c') * unit with
    | Api.IsAuthorized => (inr authorized, w)
    | Api.RequestJson => (inr JNull, w)
    | Api.AdapterDeleteMany _ => (inr 0, w)
    end.

(** [Number] on the decimal numerals. *)
Definition sample_Number (s : string) : JsNumber :=
  match NilZero.int_of_string s with
  | Some i => JsNum (Z.of_int i)
  | None => JsNaN
  end.

(** [parseInt] on the decimal numerals. *)
Definition sample_parseInt (s : string) : JsNumber :=
  match NilZero.int_of_string s with
  | Some i => JsNum (Z.of_int i)
  | None => JsNaN
  end.

Definition sample_new_entry : NewEntry :=
  {| new_level := LvWarn; new_message := "slow query"; new_stack := None;
     new_userId := Some "u1"; new_userEmail := None; new_userName := None;
     new_path := Some "/api/orders"; new_method := Some "GET";
     new_userAgent := None; new_ip := None; new_metadata := None |}.

(* ===================================================================== *)
(** * Properties *)
(* ===================================================================== *)

(** ** Strings *)

Lemma prefix_app : forall p s, String.prefix p (p ++ s) = true.
Proof.
  induction p as [|c p IH]; intros s; simpl.
  - destruct s; reflexivity.
  - destruct (ascii_dec c c) as [_|N]; [apply IH | congruence].
Qed.

Lemma contains_unfold : forall needle hay,
    contains needle hay =
    if String.prefix needle hay then true
    else match hay with
         | EmptyString => false
         | String _ rest => contains needle rest
         end.
Proof. intros needle [|c hay]; reflexivity. Qed.

Lemma contains_here : forall needle s, contains needle (needle ++ s) = true.
Proof.
  intros needle s. rewrite contains_unfold, prefix_app. reflexivity.
Qed.

Lemma contains_app : forall needle pre s,
    contains needle (pre ++ needle ++ s) = true.
Proof.
  induction pre as [|c pre IH]; intros s.
  - change (EmptyString ++ needle ++ s) with (needle ++ s). apply contains_here.
  - change (String c pre ++ needle ++ s) with (String c (pre ++ needle ++ s)).
    rewrite contains_unfold, IH.
    destruct (String.prefix needle _); reflexivity.
Qed.

Lemma contains_suffix : forall needle pre, contains needle (pre ++ needle) = true.
Proof.
  intros needle pre.
  replace (pre ++ needle) with (pre ++ needle ++ EmptyString).
  - apply contains_app.
  - f_equal. induction needle as [|c n IH]; simpl; [reflexivity | now rewrite IH].
Qed.

Lemma strip_app : forall p s, SqlEngine.strip p (p ++ s) = Some s.
Proof.
  induction p as [|c p IH]; intros s; simpl.
  - reflexivity.
  - rewrite Ascii.eqb_refl. apply IH.
Qed.

Lemma level_string_eqb : forall a b,
    String.eqb (level_string a) (level_string b) = level_eqb a b.
Proof. intros [] []; reflexivity. Qed.

Lemma append_assoc : forall a b c : string, ((a ++ b) ++ c = a ++ (b ++ c))%string.
Proof.
  induction a as [|x a IH]; intros b c; simpl.
  - reflexivity.
  - rewrite IH. reflexivity.
Qed.

Lemma append_empty : forall s : string, (s ++ EmptyString)%string = s.
Proof. induction s as [|c s IH]; simpl; [reflexivity | now rewrite IH]. Qed.

(** ** The raw-SQL adapter: the placeholder of [findById] *)

(** C8. The query [findById] hands to the executor is
    [SELECT * FROM <table> WHERE id = <placeholder>], with the single
    parameter [id]; the placeholder is [$1] under the dialect postgres and
    [?] under mysql and sqlite, so the text contains the token [$1],
    respectively [?]. *)
Theorem sql_findById_placeholder_follows_dialect :
  forall (Number : string -> JsNumber) (config : Sql.SQLAdapterConfig)
         (i : string) (W : Type)
         (executor : forall c : Sql.Call, W -> (Thrown + Sql.result c) * W)
         (w : W),
  exists text : string,
    calls (run executor (findById (createSQLAdapter Number config) i) w)
    = [Sql.QueryRows text [Sql.SqlText i]]
    /\ text = ("SELECT * FROM " ++ Sql.table config ++ " WHERE id = "
               ++ match Sql.dialect config with
                  | Sql.Postgres => "$1"
                  | Sql.Mysql | Sql.Sqlite => "?"
                  end)%string
    /\ match Sql.dialect config with
       | Sql.Postgres => contains "$1" text = true
       | Sql.Mysql | Sql.Sqlite => contains "?" text = true
       end.
Proof.
  intros Number config i W executor w.
  exists ("SELECT * FROM " ++ Sql.table config ++ " WHERE id = " ++ Sql.ph config 1)%string.
  split; [|split].
  - cbn [findById createSQLAdapter]. unfold Sql.findById. simpl.
    destruct (executor _ w) as [[e|rows] w']; simpl; [reflexivity|].
    destruct rows; reflexivity.
  - unfold Sql.ph. destruct (Sql.dialect config); reflexivity.
  - unfold Sql.ph.
    destruct (Sql.dialect config);
      change ("$" ++ string_of_Z 1)%string with "$1";
      rewrite <- !append_assoc; apply contains_suffix.
Qed.

(** ** Lists *)

Lemma filter_negb_none : forall (A : Type) (p : A -> bool) (l : list A),
    existsb p l = false -> filter (fun x => negb (p x)) l = l.
Proof.
  induction l as [|a l IH]; simpl; intros H.
  - reflexivity.
  - apply orb_false_iff in H. destruct H as [Ha Hl].
    rewrite Ha. simpl. rewrite IH by assumption. reflexivity.
Qed.

Lemma find_none : forall (A : Type) (p : A -> bool) (l : list A),
    existsb p l = false -> find p l = None.
Proof.
  induction l as [|a l IH]; simpl; intros H.
  - reflexivity.
  - apply orb_false_iff in H. destruct H as [Ha Hl].
    rewrite Ha. apply IH. assumption.
Qed.

Lemma filter_negb_all : forall (A : Type) (l : list A),
    filter (fun _ : A => negb true) l = [].
Proof. induction l; simpl; auto. Qed.

(** ** The SQL engine on the statements of the adapter *)

Lemma strip_table : forall a t rest,
    SqlEngine.strip (a ++ t ++ " ") (a ++ t ++ " " ++ rest) = Some rest.
Proof.
  intros a t rest.
  replace (a ++ t ++ " " ++ rest) with ((a ++ t ++ " ") ++ rest).
  - apply strip_app.
  - rewrite !append_assoc. reflexivity.
Qed.

(** The clause [WHERE id = <placeholder>] selects the rows with that id. *)
Lemma compile_where_id :
  forall (config : Sql.SQLAdapterConfig) ilike (i : string),
    SqlEngine.compile_where (Sql.dialect config) ilike
      ("WHERE id = " ++ Sql.ph config 1) [Sql.SqlText i]
    = Some (SqlEngine.clause_holds ilike
              [[ {| SqlEngine.a_column := "id";
                    SqlEngine.a_operator := "=";
                    SqlEngine.a_value := Sql.SqlText i |} ]]).
Proof.
  intros [tn d] ilike i. unfold Sql.ph. simpl Sql.dialect.
  destruct d; reflexivity.
Qed.

Lemma clause_holds_id : forall ilike (i : string) (r : Sql.DbRow),
    SqlEngine.clause_holds ilike
      [[ {| SqlEngine.a_column := "id";
            SqlEngine.a_operator := "=";
            SqlEngine.a_value := Sql.SqlText i |} ]] r
    = String.eqb (Sql.col_id r) i.
Proof.
  intros ilike i r. cbn. rewrite orb_false_r, andb_true_r. reflexivity.
Qed.

Lemma count_where_ext : forall (A : Type) (p q : A -> bool) (t : list A),
    (forall a, p a = q a) -> count_where p t = count_where q t.
Proof.
  intros A p q t H. unfold count_where. rewrite (filter_ext p q H). reflexivity.
Qed.

Lemma filter_negb_ext : forall (A : Type) (p q : A -> bool) (t : list A),
    (forall a, p a = q a) ->
    filter (fun a => negb (p a)) t = filter (fun a => negb (q a)) t.
Proof.
  intros A p q t H. apply filter_ext. intros a. rewrite H. reflexivity.
Qed.

(** The engine on the statement of [delete]: the rows with the id are
    removed, and the statement never fails. *)
Lemma engine_delete_by_id :
  forall (config : Sql.SQLAdapterConfig) ilike select_reply (i : string)
         (t : SqlEngine.Table),
    SqlEngine.engine (Sql.dialect config) (Sql.table config) ilike select_reply
      (Sql.Execute ("DELETE FROM " ++ Sql.table config ++ " WHERE id = "
                    ++ Sql.ph config 1) [Sql.SqlText i]) t
    = (inr (count_where (fun r => String.eqb (Sql.col_id r) i) t),
       filter (fun r => negb (String.eqb (Sql.col_id r) i)) t).
Proof.
  intros config ilike select_reply i t. unfold SqlEngine.engine.
  change ("DELETE FROM " ++ Sql.table config ++ " WHERE id = " ++ Sql.ph config 1)
    with ("DELETE FROM " ++ Sql.table config ++ " " ++ "WHERE id = " ++ Sql.ph config 1).
  rewrite strip_table, compile_where_id.
  rewrite (count_where_ext _ _ _ t (clause_holds_id ilike i)).
  rewrite (filter_negb_ext _ _ _ t (clause_holds_id ilike i)).
  reflexivity.
Qed.

Lemma run_act :
  forall (action : Type) (result : action -> Type) (W A : Type)
         (handler : forall c : action, W -> (Thrown + result c) * W)
         (c : action) (k : Thrown + result c -> Prog action result A) (w : W),
    run handler (Act c k) w
    = let r := run handler (k (fst (handler c w))) (snd (handler c w)) in
      {| outcome := outcome r; final := final r; calls := c :: calls r;
         console := console r |}.
Proof.
  intros. simpl. destruct (handler c w). reflexivity.
Qed.

Lemma outcome_act :
  forall (action : Type) (result : action -> Type) (W A : Type)
         (handler : forall c : action, W -> (Thrown + result c) * W)
         (c : action) (k : Thrown + result c -> Prog action result A) (w : W),
    outcome (run handler (Act c k) w)
    = outcome (run handler (k (fst (handler c w))) (snd (handler c w))).
Proof. intros. rewrite run_act. reflexivity. Qed.

Lemma calls_act :
  forall (action : Type) (result : action -> Type) (W A : Type)
         (handler : forall c : action, W -> (Thrown + result c) * W)
         (c : action) (k : Thrown + result c -> Prog action result A) (w : W),
    calls (run handler (Act c k) w)
    = c :: calls (run handler (k (fst (handler c w))) (snd (handler c w))).
Proof. intros. rewrite run_act. reflexivity. Qed.

(** ** [deleteMany] without a filter *)

(** The [where] object of an unfiltered [deleteMany] holds of every row. *)
Lemma prisma_empty_where_holds :
  forall contains_insensitive (e : ErrorLogEntry),
    PrismaClient.where_holds contains_insensitive Prisma.empty_where e = true.
Proof. reflexivity. Qed.

(** C1. Without [before] and [level], the raw-SQL and the Drizzle adapter
    return 0 without calling their backend.  The Prisma adapter has no such
    guard: it calls [deleteMany] of the client with the empty [where]
    object, whatever the client, and on the reference client this deletes
    every row of the table and returns their number. *)
Theorem deleteMany_unfiltered_by_adapter :
  (forall (Number : string -> JsNumber) (config : Sql.SQLAdapterConfig) (W : Type)
          (executor : forall c : Sql.Call, W -> (Thrown + Sql.result c) * W)
          (w : W),
      let r := run executor
                   (deleteMany (createSQLAdapter Number config) no_filter) w in
      outcome r = Returned 0 /\ calls r = [])
  /\ (forall (W : Type)
             (db : forall c : Drizzle.Call, W -> (Thrown + Drizzle.result c) * W)
             (w : W),
         let r := run db (deleteMany createDrizzleAdapter no_filter) w in
         outcome r = Returned 0 /\ calls r = [])
  /\ (forall (W : Type)
             (client : forall c : Prisma.Call, W -> (Thrown + Prisma.result c) * W)
             (w : W),
         calls (run client (deleteMany createPrismaAdapter no_filter) w)
         = [Prisma.DeleteMany Prisma.empty_where])
  /\ (forall contains_insensitive findMany_reply (t : PrismaClient.Table),
         let r := run (PrismaClient.client contains_insensitive findMany_reply)
                      (deleteMany createPrismaAdapter no_filter) t in
         outcome r = Returned (Z.of_nat (length t)) /\ final r = []).
Proof.
  split; [|split; [|split]].
  - intros. split; reflexivity.
  - intros. split; reflexivity.
  - intros W client w. cbn [deleteMany createPrismaAdapter].
    unfold Prisma.deleteMany, call. cbn.
    destruct (client (Prisma.DeleteMany Prisma.empty_where) w) as [[e|n] w'];
      reflexivity.
  - intros ci fr t. cbn [deleteMany createPrismaAdapter].
    unfold Prisma.deleteMany, call. rewrite run_act.
    cbn -[PrismaClient.where_holds]. unfold count_where.
    rewrite (filter_ext _ (fun _ => true) (prisma_empty_where_holds ci)).
    rewrite (filter_ext (fun x => negb (PrismaClient.where_holds ci Prisma.empty_where x))
                        (fun _ => negb true)) by reflexivity.
    rewrite filter_true, filter_negb_all. split; reflexivity.
Qed.

(** ** [delete] of an id that no row has *)

(** C2. When no row has the id, [delete] of the raw-SQL adapter (on the
    engine of its dialect and table) and of the Drizzle adapter complete
    and leave the table as it is.  The Prisma adapter calls [delete] of the
    client, which rejects when no record matches; the adapter does not
    catch the rejection, so its [delete] throws. *)
Theorem delete_missing_id_by_adapter :
  (forall (Number : string -> JsNumber) (config : Sql.SQLAdapterConfig)
          ilike select_reply (i : string) (t : SqlEngine.Table),
      existsb (fun r => String.eqb (Sql.col_id r) i) t = false ->
      let r := run (SqlEngine.engine (Sql.dialect config) (Sql.table config)
                      ilike select_reply)
                   (delete (createSQLAdapter Number config) i) t in
      outcome r = Returned tt /\ final r = t)
  /\ (forall like_match select_reply (i : string) (t : DrizzleDb.Table),
         existsb (fun e => String.eqb (id e) i) t = false ->
         let r := run (DrizzleDb.db like_match select_reply)
                      (delete createDrizzleAdapter i) t in
         outcome r = Returned tt /\ final r = t)
  /\ (forall contains_insensitive findMany_reply (i : string)
             (t : PrismaClient.Table),
         existsb (PrismaClient.has_id i) t = false ->
         let r := run (PrismaClient.client contains_insensitive findMany_reply)
                      (delete createPrismaAdapter i) t in
         outcome r = Threw PrismaClient.record_not_found
         /\ final r = t
         /\ calls r = [Prisma.Delete i]).
Proof.
  split; [|split].
  - intros Number config ilike select_reply i t H r. subst r.
    cbn [delete createSQLAdapter]. unfold Sql.delete, call.
    cbn [bind Monad_Prog pbind].
    rewrite run_act, engine_delete_by_id. cbn.
    split; [reflexivity|]. apply filter_negb_none. exact H.
  - intros like_match select_reply i t H r. subst r.
    cbn [delete createDrizzleAdapter]. unfold Drizzle.delete, call.
    cbn [bind Monad_Prog pbind].
    rewrite run_act. cbn.
    split; [reflexivity|].
    rewrite <- (filter_negb_none _ (fun e => String.eqb (id e) i) t H) at 2.
    apply filter_ext. intros e. reflexivity.
  - intros ci fr i t H r. subst r.
    cbn [delete createPrismaAdapter]. unfold Prisma.delete, call.
    cbn [bind Monad_Prog pbind].
    rewrite run_act. cbn. rewrite (find_none _ _ _ H). cbn.
    repeat split.
Qed.

(** ** The logger facade *)

(** Splits on the answers of the collaborator [h] until the run is done. *)
Ltac answers h :=
  repeat match goal with
         | |- context [h ?c ?w] => destruct (h c w) as [[?|?] ?]; cbn
         end.

Section FacadeFacts.
Context {W : Type}.
Variable adapters : forall c : Logger.Call, W -> (Thrown + Logger.result c) * W.
Variable node_env : option string.

(** Before initialization [log] makes no call and returns a failure that
    carries the message of [getConfig]. *)
Lemma log_uninitialized :
  forall level message err context (w : W),
    let r := run adapters
                 (Logger.log node_env Logger.uninitialized level message err context) w in
    outcome r = Returned {| success := false; entry := None;
                            error := Some Logger.not_initialized |}
    /\ calls r = [] /\ final r = w.
Proof. intros. repeat split. Qed.

(** [log] never throws, whatever the configuration and the adapters. *)
Lemma log_never_throws :
  forall config level message err context (w : W),
    threw (outcome (run adapters
                        (Logger.log node_env config level message err context) w))
    = false.
Proof.
  intros [cfg|] level message err context w; [|reflexivity].
  unfold Logger.log. cbn.
  destruct (Logger.filtered_out cfg level); [reflexivity|].
  destruct (match Logger.consoleInDev cfg with Some b => b | None => false end
            && Logger.is_development node_env);
    destruct (Logger.authAdapter cfg); cbn; answers adapters; reflexivity.
Qed.

(** A level outside the allow-list: [log] returns success and calls
    nothing. *)
Lemma log_respects_levels :
  forall cfg level message err context (w : W),
    Logger.filtered_out cfg level = true ->
    let r := run adapters
                 (Logger.log node_env (Some cfg) level message err context) w in
    outcome r = Returned {| success := true; entry := None; error := None |}
    /\ calls r = [] /\ final r = w.
Proof.
  intros cfg level message err context w H. unfold Logger.log. cbn.
  rewrite H. repeat split.
Qed.

(** When [create] rejects, [log] returns the failure with its message. *)
Lemma log_create_failure :
  forall cfg level message err context (w : W) (e : Thrown),
    Logger.filtered_out cfg level = false ->
    (forall entry w', fst (adapters (Logger.Create entry) w') = inl e) ->
    outcome (run adapters
                 (Logger.log node_env (Some cfg) level message err context) w)
    = Returned {| success := false; entry := None;
                  error := Some (error_message e) |}.
Proof.
  intros cfg level message err context w e Hl Hc. unfold Logger.log. cbn.
  rewrite Hl.
  destruct (match Logger.consoleInDev cfg with Some b => b | None => false end
            && Logger.is_development node_env);
    destruct (Logger.authAdapter cfg); cbn;
    repeat match goal with
           | |- context [adapters Logger.GetUser ?w] =>
               destruct (adapters Logger.GetUser w) as [[?|?] ?]; cbn
           | |- context [adapters (Logger.Create ?n) ?w] =>
               let H := fresh in
               pose proof (Hc n w) as H;
               destruct (adapters (Logger.Create n) w) as [[?|?] ?]; cbn in *;
               [injection H as ->|discriminate H]
           end; reflexivity.
Qed.

(** When [create] rejects, the methods of [withUser] return the failure
    with its message, once the logger is initialized. *)
Lemma withUser_create_failure :
  forall cfg user level message stack_ context (w : W) (e : Thrown),
    (forall entry w', fst (adapters (Logger.Create entry) w') = inl e) ->
    outcome (run adapters
                 (Logger.errorLogger_withUser_method (Some cfg) user level
                    message stack_ context) w)
    = Returned {| success := false; entry := None;
                  error := Some (error_message e) |}.
Proof.
  intros cfg user level message stack_ context w e Hc.
  unfold Logger.errorLogger_withUser_method. cbn.
  match goal with
  | |- context [adapters (Logger.Create ?n) ?w] =>
      pose proof (Hc n w) as H;
      destruct (adapters (Logger.Create n) w) as [[?|?] ?]; cbn in *;
      [injection H as ->|discriminate H]
  end. reflexivity.
Qed.
End FacadeFacts.

(** C4. The methods of [errorLogger.withUser(user)] call [getConfig()]
    before their [try]: on a logger that was never initialized each of them
    throws the error of [getConfig] to its caller instead of returning a
    [{success: false, error}] result.  (Failures of [create] are returned
    as results by every logging call, and calls through [log] never throw:
    [log_create_failure], [withUser_create_failure], [log_never_throws].) *)
Theorem withUser_uninitialized_throws :
  forall (W : Type)
         (adapters : forall c : Logger.Call, W -> (Thrown + Logger.result c) * W)
         (user : Logger.AuthUser) (message : string) (err : option ErrorObject)
         (context : option RequestContext) (w : W),
    let rejected (r : Run Logger.Call W LogResult) :=
      outcome r = Threw (ThrowError Logger.not_initialized) /\ calls r = [] in
    rejected (run adapters
                (Logger.errorLogger_withUser_error Logger.uninitialized user
                   message err context) w)
    /\ rejected (run adapters
                   (Logger.errorLogger_withUser_warn Logger.uninitialized user
                      message context) w)
    /\ rejected (run adapters
                   (Logger.errorLogger_withUser_info Logger.uninitialized user
                      message context) w).
Proof. intros. repeat split. Qed.

(** The claim C5 read literally (every logging call on an uninitialized
    logger is rejected, the error being fatal) fails for
    [errorLogger.error('boom')]: the call returns a result. *)
Lemma uninitialized_error_call_returns :
  let r := run storage_down
               (Logger.perform None Logger.uninitialized
                  (Logger.CallError "boom" None None)) 0%nat in
  outcome r = Returned {| success := false; entry := None;
                          error := Some Logger.not_initialized |}
  /\ threw (outcome r) = false.
Proof. split; reflexivity. Qed.

(** C5 (amended). On a logger that was never initialized no logging call
    calls an adapter, and every logging call hands the message
    "Logger not initialized" of [getConfig] to its caller; the direct and
    the request-bound calls do so without throwing, as the [error] of a
    [{success: false}] result. *)
Theorem uninitialized_logging_calls :
  forall (W : Type)
         (adapters : forall c : Logger.Call, W -> (Thrown + Logger.result c) * W)
         (node_env : option string) (c : Logger.LoggingCall) (w : W),
    let r := run adapters (Logger.perform node_env Logger.uninitialized c) w in
    calls r = []
    /\ final r = w
    /\ surfaced (outcome r) = Some Logger.not_initialized
    /\ if Logger.explicit_user c then True
       else outcome r = Returned {| success := false; entry := None;
                                    error := Some Logger.not_initialized |}.
Proof. intros W adapters node_env [] w; repeat split. Qed.

(** C6. With an auth adapter configured whose [getUser] rejects, and a
    level that is logged, [log] still calls [create], with [userId],
    [userEmail] and [userName] all null, and returns success with the entry
    the storage adapter stored. *)
Theorem auth_failure_is_swallowed :
  forall (W : Type)
         (adapters : forall c : Logger.Call, W -> (Thrown + Logger.result c) * W)
         (node_env : option string) (cfg : Logger.ErrorLoggerConfig)
         (l : LogLevel) (message : string) (err : option ErrorObject)
         (context : option RequestContext) (w w1 w2 : W) (e : Thrown)
         (kept : ErrorLogEntry),
    Logger.authAdapter cfg = true ->
    Logger.filtered_out cfg l = false ->
    adapters Logger.GetUser w = (inl e, w1) ->
    adapters (Logger.Create (anonymous_entry l message err context)) w1
    = (inr kept, w2) ->
    let r := run adapters (Logger.log node_env (Some cfg) l message err context) w in
    outcome r = Returned {| success := true; entry := Some kept; error := None |}
    /\ calls r = [Logger.GetUser;
                  Logger.Create (anonymous_entry l message err context)]
    /\ new_userId (anonymous_entry l message err context) = None
    /\ new_userEmail (anonymous_entry l message err context) = None
    /\ new_userName (anonymous_entry l message err context) = None
    /\ final r = w2.
Proof.
  intros W adapters node_env cfg l message err context w w1 w2 e kept
         Hauth Hlevel Huser Hcreate.
  unfold Logger.log. cbn. rewrite Hlevel, Hauth.
  destruct (match Logger.consoleInDev cfg with Some b => b | None => false end
            && Logger.is_development node_env); cbn;
    rewrite Huser; cbn;
    change (Logger.Create _) with
      (Logger.Create (anonymous_entry l message err context));
    rewrite Hcreate; cbn; repeat split.
Qed.

(** C7. The methods of [errorLogger.withUser(user)] do not consult the
    [levels] allow-list: also when the level of the call is not in the
    list, the call asks the storage adapter to create an entry at that
    level, and returns what comes of it; it is not the no-op
    [{success: true}].  (Calls through [log] are: [log_respects_levels].) *)
Theorem withUser_bypasses_level_allow_list :
  forall (W : Type)
         (adapters : forall c : Logger.Call, W -> (Thrown + Logger.result c) * W)
         (node_env : option string) (cfg : Logger.ErrorLoggerConfig)
         (c : Logger.LoggingCall) (w : W),
    Logger.explicit_user c = true ->
    Logger.filtered_out cfg (Logger.level_of c) = true ->
    let r := run adapters (Logger.perform node_env (Some cfg) c) w in
    exists entry : NewEntry,
      calls r = [Logger.Create entry]
      /\ new_level entry = Logger.level_of c
      /\ match fst (adapters (Logger.Create entry) w) with
         | inr kept =>
             outcome r = Returned {| success := true; entry := Some kept;
                                     error := None |}
         | inl e =>
             outcome r = Returned {| success := false; entry := None;
                                     error := Some (error_message e) |}
         end.
Proof.
  intros W adapters node_env cfg c w Hu _.
  destruct c; try discriminate Hu;
    unfold Logger.perform, Logger.errorLogger_withUser_error,
      Logger.errorLogger_withUser_warn, Logger.errorLogger_withUser_info,
      Logger.errorLogger_withUser_method;
    cbn;
    match goal with
    | |- context [adapters (Logger.Create ?n) w] =>
        exists n; destruct (adapters (Logger.Create n) w) as [[?|?] ?]
    end; cbn; repeat split.
Qed.

(** ** The NextAuth adapter *)

(** [getUser] of the NextAuth adapter never throws, and resolves to [null]
    when the session function rejects. *)
Lemma nextauth_getUser_never_throws :
  forall (W : Type)
         (provider : forall c : NextAuth.Call, W -> (Thrown + NextAuth.result c) * W)
         (w : W),
  exists u : option Logger.AuthUser,
    outcome (run provider NextAuth.getUser w) = Returned u
    /\ (forall e, fst (provider NextAuth.AuthFn w) = inl e -> u = None).
Proof.
  intros W provider w. unfold NextAuth.getUser. cbn.
  destruct (provider NextAuth.AuthFn w) as [[e|session] w']; cbn.
  - exists None. split; [reflexivity | intros; reflexivity].
  - destruct session as [[[u|]]|]; cbn;
      try (exists None; split; [reflexivity | intros ? H; discriminate H]).
    destruct (NextAuth.su_id u) as [i|]; cbn;
      try (exists None; split; [reflexivity | intros ? H; discriminate H]).
    destruct (truthy i); cbn; eexists;
      (split; [reflexivity | intros ? H; discriminate H]).
Qed.

(** ** The delete-many handler *)

Lemma find_app_last :
  forall (A : Type) (p : A -> bool) (l : list A) (a : A),
    find p (l ++ [a])
    = match find p l with
      | Some x => Some x
      | None => if p a then Some a else None
      end.
Proof.
  intros A p l a. induction l as [|x l IH]; simpl.
  - reflexivity.
  - destruct (p x); [reflexivity | exact IH].
Qed.

(** The property the handler reads off an object is the last member of
    that name. *)
Lemma lookup_field :
  forall (fields : list (string * Json)) (key : string),
    Api.lookup fields key = field key fields.
Proof.
  intros fields key. unfold field.
  induction fields as [|[k v] rest IH]; simpl.
  - reflexivity.
  - rewrite IH, find_app_last.
    destruct (find _ (rev rest)) as [[k' v']|]; simpl; [reflexivity|].
    destruct (String.eqb k key); reflexivity.
Qed.

Lemma truthy_json_no_date :
  forall v : option Json, Api.truthy_json v = false <-> no_date v.
Proof.
  intros v. unfold no_date. split.
  - destruct v as [[ |[|]|[|z|z]|[|c s]|items|fields]|]; simpl; intros H;
      try discriminate H; tauto.
  - intros [->|[->|[->|[->| ->]]]]; reflexivity.
Qed.

(** Induction on a JSON value, with the property known of the elements of
    an array. *)
Fixpoint Json_array_ind (P : Json -> Prop)
         (Hnull : P JNull) (Hbool : forall b, P (JBool b))
         (Hnumber : forall z, P (JNumber z)) (Hstring : forall s, P (JString s))
         (Harray : forall items, Forall P items -> P (JArray items))
         (Hobject : forall fields, P (JObject fields))
         (v : Json) {struct v} : P v :=
  match v with
  | JNull => Hnull
  | JBool b => Hbool b
  | JNumber z => Hnumber z
  | JString s => Hstring s
  | JArray items =>
      Harray items
        ((fix all (l : list Json) : Forall P l :=
            match l with
            | [] => Forall_nil P
            | x :: rest =>
                Forall_cons x
                  (Json_array_ind P Hnull Hbool Hnumber Hstring Harray Hobject x)
                  (all rest)
            end) items)
  | JObject fields => Hobject fields
  end.

Lemma has_member :
  forall (key : string) (fields : list (string * Json)),
    existsb (fun kv => String.eqb (fst kv) key) fields = true
    <-> In key (map fst fields).
Proof.
  intros key fields. induction fields as [|[k v] rest IH]; simpl.
  - split; [discriminate | contradiction].
  - rewrite orb_true_iff, IH, String.eqb_eq. tauto.
Qed.

(** The conversion of the model fails on the values that cannot be
    converted, and on no other. *)
Lemma converts_unconvertible :
  forall v : Json, Api.converts v = false <-> Unconvertible v.
Proof.
  intros v. split.
  - induction v as [ |b|z|s|items IH|fields] using Json_array_ind;
      simpl; intros H; try discriminate H.
    + induction IH as [|x rest Hx _ IHrest]; simpl in H; [discriminate H|].
      destruct (Api.converts x) eqn:E.
      * simpl in H. specialize (IHrest H). inversion IHrest as [|? v Hin Hv]; subst.
        apply (unconvertible_array _ v); [right; exact Hin | exact Hv].
      * apply (unconvertible_array _ x); [left; reflexivity | apply Hx; reflexivity].
    + apply negb_false_iff in H. apply unconvertible_object.
      apply has_member. exact H.
  - intros U. induction U as [fields H|items v Hin _ IH]; simpl.
    + apply negb_false_iff. apply has_member. exact H.
    + induction items as [|x rest IHrest]; [contradiction|]. simpl.
      destruct Hin as [->|Hin].
      * rewrite IH. reflexivity.
      * rewrite (IHrest Hin). apply andb_false_r.
Qed.

(** The run of [DELETE] for an authorized caller and an initialized
    logger, from the two properties of the body on. *)
Lemma run_delete_filters :
  forall (W : Type)
         (collaborators : forall c : Api.Call, W -> (Thrown + Api.result c) * W)
         (newDate : Json -> Date) (cfg : Logger.ErrorLoggerConfig)
         (parsed : Thrown + Json) (before level : option Json) (w w1 w2 : W),
    collaborators Api.IsAuthorized w = (inr true, w1) ->
    collaborators Api.RequestJson w1 = (parsed, w2) ->
    Api.property (match parsed with inr v => v | inl _ => JObject [] end) "before"
    = Ret before ->
    Api.property (match parsed with inr v => v | inl _ => JObject [] end) "level"
    = Ret level ->
    let r := run collaborators (Api.DELETE newDate (Some cfg)) w in
    let failure := Returned (Api.json_error "Failed to delete logs" 500) in
    let deletes (date : option Date) :=
      let filters := {| Api.before := date; Api.level := level |} in
      calls r = [Api.IsAuthorized; Api.RequestJson; Api.AdapterDeleteMany filters]
      /\ outcome r
         = match fst (collaborators (Api.AdapterDeleteMany filters) w2) with
           | inr count => Returned (Api.json (JObject [("deleted", JNumber count)]))
           | inl _ => failure
           end in
    match before with
    | Some v =>
        if Api.truthy_json before
        then if Api.converts v
             then deletes (Some (newDate v))
             else calls r = [Api.IsAuthorized; Api.RequestJson] /\ outcome r = failure
        else deletes None
    | None => deletes None
    end.
Proof.
  intros W collaborators newDate cfg parsed before level w w1 w2 HA HJ Hb Hl.
  unfold Api.DELETE. cbn. rewrite HA. cbn. rewrite HJ. cbn.
  rewrite Hb. cbn. unfold Api.new_Date.
  destruct before as [v|]; [destruct (Api.truthy_json (Some v))|];
    try destruct (Api.converts v); cbn; rewrite ?Hl; cbn;
    try (split; reflexivity);
    destruct (collaborators _ w2) as [[?|?] ?]; cbn; split; reflexivity.
Qed.

(** The claim C9 read literally (whatever the JSON body, the handler calls
    [deleteMany] and answers with the number deleted) fails for the body
    [null], and for the body [{"before": {"toString": 1}}]: the handler
    answers with the failure and status 500, and does not call the
    adapter. *)
Lemma delete_handler_refuses_some_bodies :
  (let r := run (null_body true)
                (Api.DELETE (fun _ => InvalidDate) (Some sample_config)) tt in
   outcome r = Returned (Api.json_error "Failed to delete logs" 500)
   /\ calls r = [Api.IsAuthorized; Api.RequestJson])
  /\ (let r := run (request_with
                      (JObject [("before", JObject [("toString", JNumber 1)])]) 0)
                   (Api.DELETE (fun _ => InvalidDate) (Some sample_config)) tt in
      outcome r = Returned (Api.json_error "Failed to delete logs" 500)
      /\ calls r = [Api.IsAuthorized; Api.RequestJson]).
Proof. repeat split. Qed.

(** C9 (amended). For an authorized caller and an initialized logger,
    [DELETE] reads the body of the request and takes [{}] in its place when
    the body is missing or malformed (the parse is rejected).  For a body
    that is an object it calls [deleteMany] of the configured adapter, once,
    with [level] the member [level] of the body as it stands and with
    [before] the date [new Date] makes of the member [before], or nothing
    when that member is absent, [null], [false], [0] or the empty string;
    it answers [{deleted: count}] with what the adapter returned, and the
    failure with status 500 when the adapter rejects.  A body that is a
    number, a string, a boolean or an array has neither member and is read
    like [{}].  The adapter is not called, and the answer is the failure
    with status 500, for the body [null] (reading a property of it throws)
    and for a member [before] that cannot be converted to a primitive
    value ([new Date] throws). *)
Theorem delete_handler_reads_filters :
  forall (W : Type)
         (collaborators : forall c : Api.Call, W -> (Thrown + Api.result c) * W)
         (newDate : Json -> Date) (cfg : Logger.ErrorLoggerConfig)
         (parsed : Thrown + Json) (w w1 w2 : W),
    collaborators Api.IsAuthorized w = (inr true, w1) ->
    collaborators Api.RequestJson w1 = (parsed, w2) ->
    let r := run collaborators (Api.DELETE newDate (Some cfg)) w in
    let failure := Returned (Api.json_error "Failed to delete logs" 500) in
    let deletes (before : option Date) (level : option Json) :=
      let filters := {| Api.before := before; Api.level := level |} in
      calls r = [Api.IsAuthorized; Api.RequestJson; Api.AdapterDeleteMany filters]
      /\ outcome r
         = match fst (collaborators (Api.AdapterDeleteMany filters) w2) with
           | inr count => Returned (Api.json (JObject [("deleted", JNumber count)]))
           | inl _ => failure
           end in
    let refuses :=
      calls r = [Api.IsAuthorized; Api.RequestJson] /\ outcome r = failure in
    match parsed with
    | inl _ => deletes None None
    | inr JNull => refuses
    | inr (JObject fields) =>
        let before := field "before" fields in
        let level := field "level" fields in
        (no_date before -> deletes None level)
        /\ (forall v, before = Some v -> ~ no_date before ->
                      (Unconvertible v -> refuses)
                      /\ (~ Unconvertible v -> deletes (Some (newDate v)) level))
    | inr _ => deletes None None
    end.
Proof.
  intros W collaborators newDate cfg parsed w w1 w2 HA HJ.
  destruct parsed as [e|[ |b|z|s|items|fields]]; cbv zeta;
    try (apply (run_delete_filters W collaborators newDate cfg _ None None
                  w w1 w2 HA HJ eq_refl eq_refl)).
  - unfold Api.DELETE. cbn. rewrite HA. cbn. rewrite HJ. cbn.
    split; reflexivity.
  - pose proof (run_delete_filters W collaborators newDate cfg
                  (inr (JObject fields)) (field "before" fields)
                  (field "level" fields) w w1 w2 HA HJ) as R.
    cbn [Api.property] in R. rewrite !lookup_field in R.
    specialize (R eq_refl eq_refl). cbv zeta in R.
    split.
    + intros N. apply truthy_json_no_date in N.
      destruct (field "before" fields) as [v|]; [|exact R].
      rewrite N in R. exact R.
    + intros v Hv N. rewrite Hv in R, N.
      assert (T : Api.truthy_json (Some v) = true).
      { destruct (Api.truthy_json (Some v)) eqn:E; [reflexivity|].
        exfalso. apply N. apply truthy_json_no_date. exact E. }
      rewrite T in R. split.
      * intros U. apply converts_unconvertible in U. rewrite U in R. exact R.
      * intros U. destruct (Api.converts v) eqn:E; [exact R|].
        exfalso. apply U. apply converts_unconvertible. exact E.
Qed.

(** A caller that is not authorized is answered 401 before anything else
    is looked at. *)
Lemma delete_handler_unauthorized :
  forall (W : Type)
         (collaborators : forall c : Api.Call, W -> (Thrown + Api.result c) * W)
         (newDate : Json -> Date) (config : Logger.State) (w w1 : W),
    collaborators Api.IsAuthorized w = (inr false, w1) ->
    let r := run collaborators (Api.DELETE newDate config) w in
    outcome r = Returned (Api.json_error "Unauthorized" 401)
    /\ calls r = [Api.IsAuthorized].
Proof.
  intros W collaborators newDate config w w1 Hauth.
  unfold Api.DELETE. cbn. rewrite Hauth. cbn. split; reflexivity.
Qed.

(** ** The statements of [findMany] in the raw-SQL adapter *)

Lemma present_map : forall (A B : Type) (a b : option A) (v : B),
    present a = present b ->
    option_map (fun _ => v) a = option_map (fun _ => v) b.
Proof. intros A B [x|] [y|] v; simpl; congruence. Qed.

Lemma same_shape_canonical : forall o1 o2,
    same_shape o1 o2 -> canonical o1 = canonical o2.
Proof.
  intros o1 o2 (Hp & Hl & Hob & Ho & Hlv & Hu & Hs & Hsd & Hed).
  unfold canonical. rewrite Hp, Hl, Hob, Ho, Hu, Hs.
  rewrite (present_map _ _ _ _ LvError Hlv).
  rewrite (present_map _ _ _ _ (ValidDate 0) Hsd).
  rewrite (present_map _ _ _ _ (ValidDate 0) Hed).
  reflexivity.
Qed.

(** With valid dates the accumulators are built without a throw; the
    parameters are the values of the supplied filters, and the conditions
    are those of the canonical query. *)
Lemma built_valid :
  forall (config : Sql.SQLAdapterConfig) (o : QueryOptions),
    dates_valid o = true ->
    exists b bc,
      Sql.findMany_builder config o = Ret b
      /\ Sql.findMany_builder config (canonical o) = Ret bc
      /\ Sql.params b = filter_values o
      /\ Sql.conditions b = Sql.conditions bc.
Proof.
  intros config [pg lm lv us se sd ed ob od] H.
  unfold dates_valid in H. simpl in H.
  destruct sd as [[ms1|]|]; try discriminate H;
    destruct ed as [[ms2|]|]; try discriminate H;
    destruct lv as [lv|];
    destruct us as [us|]; try destruct (truthy us) eqn:Eu;
    destruct se as [se|]; try destruct (truthy se) eqn:Es;
    unfold Sql.findMany_builder, canonical, filter_values, supplied, or_null;
    simpl; rewrite ?Eu, ?Es; simpl;
    eexists; eexists; repeat split; reflexivity.
Qed.

Lemma select_statement_of_builder :
  forall Number (config : Sql.SQLAdapterConfig) (o : QueryOptions) (b : Sql.Builder),
    Sql.findMany_builder config o = Ret b ->
    select_statement Number config o
    = Some (Sql.select_sql config o b, Sql.params b).
Proof.
  intros Number config o b H. unfold select_statement.
  cbn [findMany createSQLAdapter]. unfold Sql.findMany.
  rewrite H. reflexivity.
Qed.

(** The text of the [SELECT] depends on the accumulators through the
    conditions only, and on the query through page, limit and ordering. *)
Lemma select_sql_canonical :
  forall (config : Sql.SQLAdapterConfig) (o : QueryOptions) (b bc : Sql.Builder),
    Sql.conditions b = Sql.conditions bc ->
    Sql.select_sql config o b = Sql.select_sql config (canonical o) bc.
Proof.
  intros config o b bc H. unfold Sql.select_sql, Sql.whereClause.
  rewrite H. reflexivity.
Qed.

(** The [WHERE] clause [findMany] writes reads as the conditions of the
    filters, each value reached through its placeholder, and its
    placeholders are numbered as the parameters are. *)
Lemma where_clause_reads :
  forall (config : Sql.SQLAdapterConfig) (o : QueryOptions),
    dates_valid o = true ->
    exists b,
      Sql.findMany_builder config o = Ret b
      /\ read_where (Sql.dialect config) (Sql.whereClause b) (filter_values o)
         = Some (filter_conditions o)
      /\ placeholders (Sql.whereClause b)
         = numbered (Sql.dialect config) (length (filter_values o)).
Proof.
  intros [tn d] [pg lm lv us se sd ed ob od] H.
  unfold dates_valid in H. simpl in H.
  destruct sd as [[ms1|]|]; try discriminate H;
    destruct ed as [[ms2|]|]; try discriminate H;
    destruct d;
    destruct lv as [lv|];
    destruct us as [us|]; try destruct (truthy us) eqn:Eu;
    destruct se as [se|]; try destruct (truthy se) eqn:Es;
    unfold Sql.findMany_builder, filter_values, filter_conditions, supplied,
      or_null;
    simpl; rewrite ?Eu, ?Es; simpl;
    (eexists; split; [reflexivity|]; split; vm_compute; reflexivity).
Qed.

(** C10. For a query with valid dates, the [SELECT] statement of
    [findMany] is [SELECT * FROM <table> <clause> ORDER BY <column>
    <direction> LIMIT <limit> OFFSET <offset>], where the limit and the
    offset [(page - 1) * limit] stand in the text as the numbers are
    written in a template literal.  Its parameters are exactly the values
    of the supplied filters (level, user id, the search pattern four times,
    start and end date), in that order.  The clause reads as the conditions
    of the filters with every value reached through a placeholder, and its
    placeholders are [$1] to [$n] under postgres and [n] question marks
    under mysql and sqlite, [n] being the number of parameters.  The text
    is the same for every other query that supplies the same filters with
    other values under the same page, limit and ordering, so that no filter
    value is part of it. *)
Theorem sql_findMany_statement :
  forall (Number : string -> JsNumber) (config : Sql.SQLAdapterConfig)
         (o : QueryOptions),
    dates_valid o = true ->
    exists text clause : string,
      select_statement Number config o = Some (text, filter_values o)
      /\ text = (nl ++ "        SELECT * FROM " ++ Sql.table config ++ nl ++
                 "        " ++ clause ++ nl ++
                 "        ORDER BY " ++ Sql.orderColumn (orderBy_of o) ++ " " ++
                   Sql.orderDirection (order_of o) ++ nl ++
                 "        LIMIT " ++ Double.text (limit_of o) ++ " OFFSET " ++
                   Double.text (offset_of o) ++ nl ++
                 "      ")%string
      /\ read_where (Sql.dialect config) clause (filter_values o)
         = Some (filter_conditions o)
      /\ placeholders clause
         = numbered (Sql.dialect config) (length (filter_values o))
      /\ forall o' : QueryOptions,
          dates_valid o' = true ->
          same_shape o o' ->
          select_statement Number config o' = Some (text, filter_values o').
Proof.
  intros Number config o Hv.
  destruct (built_valid config o Hv) as (b & bc & Hb & Hbc & Hp & Hc).
  destruct (where_clause_reads config o Hv) as (b0 & Hb0 & Hr & Hn).
  rewrite Hb in Hb0. injection Hb0 as <-.
  exists (Sql.select_sql config o b), (Sql.whereClause b).
  split; [|split; [|split; [|split]]].
  - rewrite (select_statement_of_builder Number config o b Hb), Hp. reflexivity.
  - reflexivity.
  - exact Hr.
  - exact Hn.
  - intros o' Hv' Hs.
    destruct (built_valid config o' Hv') as (b' & bc' & Hb' & Hbc' & Hp' & Hc').
    rewrite (select_statement_of_builder Number config o' b' Hb'), Hp'.
    rewrite (select_sql_canonical config o' b' bc' Hc').
    rewrite (select_sql_canonical config o b bc Hc).
    rewrite <- (same_shape_canonical o o' Hs) in *.
    rewrite Hbc in Hbc'. injection Hbc' as ->. reflexivity.
Qed.

(** ** The total of [findMany] *)

Lemma count_where_map : forall (A B : Type) (g : A -> B) (p : B -> bool) (t : list A),
    count_where (fun a => p (g a)) t = count_where p (map g t).
Proof.
  intros A B g p t. unfold count_where.
  rewrite filter_map_swap, length_map. reflexivity.
Qed.

(** Brings a conjunction of disjunctions to the shape of [row_matches]. *)
Ltac flatten_bool :=
  rewrite ?level_string_eqb, ?orb_false_r, ?andb_true_r, ?andb_true_l,
    ?andb_assoc, ?orb_assoc.

(** The [where] object of the Prisma adapter selects the rows the filters
    select. *)
Lemma prisma_where_matches :
  forall contains_insensitive (o : QueryOptions) (e : ErrorLogEntry),
    PrismaClient.where_holds contains_insensitive (Prisma.findMany_where o) e
    = row_matches (or_no_match contains_insensitive) (filters_of o) e.
Proof.
  intros ci [pg lm lv us se sd ed ob od] e.
  unfold Prisma.findMany_where, row_matches, filters_of, supplied, or_null.
  destruct ci as [ci|];
    destruct lv as [lv|];
    destruct us as [us|]; try destruct (truthy us) eqn:Eu;
    destruct se as [se|]; try destruct (truthy se) eqn:Es;
    destruct sd as [sd|]; destruct ed as [ed|];
    simpl; rewrite ?Eu, ?Es; simpl;
    unfold PrismaClient.where_holds, PrismaClient.date_filter_holds,
      PrismaClient.clause_holds; simpl;
    flatten_bool; reflexivity.
Qed.

(** The condition of the Drizzle adapter selects the rows the filters
    select, the search term being matched as the pattern [%term%]. *)
Lemma drizzle_where_matches :
  forall like_match (o : QueryOptions) (e : ErrorLogEntry),
    DrizzleDb.where_holds like_match
      (Drizzle.whereCondition (Drizzle.findMany_conditions o)) e
    = row_matches (fun v s => like_match v ("%" ++ s ++ "%")%string)
        (filters_of o) e.
Proof.
  intros lk [pg lm lv us se sd ed ob od] e.
  unfold Drizzle.findMany_conditions, row_matches, filters_of, supplied, or_null.
  destruct lv as [lv|];
    destruct us as [us|]; try destruct (truthy us) eqn:Eu;
    destruct se as [se|]; try destruct (truthy se) eqn:Es;
    destruct sd as [sd|]; destruct ed as [ed|];
    simpl; rewrite ?Eu, ?Es; simpl;
    flatten_bool; reflexivity.
Qed.

(** The [WHERE] clause of the raw-SQL adapter, read by the engine of the
    configured dialect with the parameters of the adapter, selects the rows
    the filters select, when the dialect has the operator of the search or
    nothing is searched for. *)
Lemma sql_where_matches :
  forall (config : Sql.SQLAdapterConfig) ilike (o : QueryOptions),
    dates_valid o = true ->
    has_ilike (Sql.dialect config) || negb (truthy_opt (q_search o)) = true ->
    exists b p,
      Sql.findMany_builder config o = Ret b
      /\ SqlEngine.compile_where (Sql.dialect config) ilike
           (Sql.whereClause b) (Sql.params b) = Some p
      /\ forall r,
          p r = row_matches (fun v s => ilike v ("%" ++ s ++ "%")%string)
                  (filters_of o) (Sql.toCamelCase r).
Proof.
  intros [tn d] ilike [pg lm lv us se sd ed ob od] H S.
  unfold dates_valid in H. simpl in H, S.
  destruct sd as [[ms1|]|]; try discriminate H;
    destruct ed as [[ms2|]|]; try discriminate H;
    destruct d;
    destruct lv as [lv|];
    destruct us as [us|]; try destruct (truthy us) eqn:Eu;
    destruct se as [se|]; try destruct (truthy se) eqn:Es;
    simpl in S; rewrite ?Es in S; try discriminate S;
    unfold Sql.findMany_builder; simpl; rewrite ?Eu, ?Es; simpl;
    (eexists; eexists; split; [reflexivity|]; split;
     [ cbv -[SqlEngine.clause_holds level_string]; reflexivity
     | intros r;
       unfold row_matches, filters_of, supplied, or_null; simpl;
       rewrite ?Eu, ?Es; simpl;
       unfold SqlEngine.clause_holds, SqlEngine.atom_holds; simpl;
       flatten_bool; reflexivity ]).
Qed.

Lemma strip_count_sql :
  forall (config : Sql.SQLAdapterConfig) (b : Sql.Builder),
    SqlEngine.strip
      ("SELECT " ++ Sql.count_star ++ " as count FROM " ++ Sql.table config ++ " ")
      (Sql.count_sql config b)
    = Some (Sql.whereClause b).
Proof.
  intros config b. unfold Sql.count_sql.
  replace ("SELECT " ++ Sql.count_star ++ " as count FROM " ++ Sql.table config
           ++ " " ++ Sql.whereClause b)%string
    with (("SELECT " ++ Sql.count_star ++ " as count FROM " ++ Sql.table config
           ++ " ") ++ Sql.whereClause b)%string.
  - apply strip_app.
  - rewrite !append_assoc. reflexivity.
Qed.

(** The engine on the count statement of [findMany]. *)
Lemma engine_count :
  forall (config : Sql.SQLAdapterConfig) ilike select_reply (b : Sql.Builder)
         (t : SqlEngine.Table),
    SqlEngine.engine (Sql.dialect config) (Sql.table config) ilike select_reply
      (Sql.QueryCount (Sql.count_sql config b) (Sql.params b)) t
    = (match SqlEngine.compile_where (Sql.dialect config) ilike
               (Sql.whereClause b) (Sql.params b) with
       | Some p =>
           inr [ {| Sql.count :=
                      SqlEngine.reported_count (Sql.dialect config)
                        (count_where p t) |} ]
       | None => inl SqlEngine.syntax_error
       end, t).
Proof.
  intros config ilike select_reply b t. unfold SqlEngine.engine.
  rewrite strip_count_sql.
  destruct (SqlEngine.compile_where _ _ _ _); reflexivity.
Qed.

Lemma prefix_split :
  forall p s, String.prefix p s = true -> exists rest, s = (p ++ rest)%string.
Proof.
  induction p as [|c p IH]; intros s H.
  - exists s. reflexivity.
  - destruct s as [|d s]; simpl in H; [discriminate H|].
    destruct (ascii_dec c d) as [->|]; [|discriminate H].
    destruct (IH s H) as [rest ->]. exists rest. reflexivity.
Qed.

Lemma contains_split :
  forall needle hay,
    contains needle hay = true ->
    exists pre post, hay = (pre ++ needle ++ post)%string.
Proof.
  intros needle hay. induction hay as [|c hay IH]; intros H;
    rewrite contains_unfold in H.
  - destruct (String.prefix needle EmptyString) eqn:P; [|discriminate H].
    destruct (prefix_split _ _ P) as [rest E].
    exists EmptyString, rest. exact E.
  - destruct (String.prefix needle (String c hay)) eqn:P.
    + destruct (prefix_split _ _ P) as [rest E].
      exists EmptyString, rest. exact E.
    + destruct (IH H) as (pre & post & ->).
      exists (String c pre), post. reflexivity.
Qed.

(** A text that contains [needle] still does with text before and after
    it. *)
Lemma contains_within :
  forall needle a s b,
    contains needle s = true -> contains needle (a ++ s ++ b) = true.
Proof.
  intros needle a s b H. destruct (contains_split _ _ H) as (pre & post & ->).
  replace (a ++ (pre ++ needle ++ post) ++ b)%string
    with ((a ++ pre) ++ needle ++ (post ++ b))%string
    by (rewrite !append_assoc; reflexivity).
  apply contains_app.
Qed.

(** With a search term the [WHERE] clause uses the operator [ILIKE],
    whatever the dialect, and the engines of MySQL and SQLite refuse it. *)
(** The text of an integer is never empty. *)
Lemma truthy_string_of_Z :
  forall z, truthy (string_of_Z z) = true.
Proof.
  intros z. unfold string_of_Z.
  destruct (Z.to_int z) as [d|d]; [destruct d|]; reflexivity.
Qed.

Lemma search_clause :
  forall (config : Sql.SQLAdapterConfig) ilike (o : QueryOptions),
    dates_valid o = true ->
    truthy_opt (q_search o) = true ->
    exists b,
      Sql.findMany_builder config o = Ret b
      /\ Sql.params b = filter_values o
      /\ contains "ILIKE" (Sql.whereClause b) = true
      /\ SqlEngine.compile_where (Sql.dialect config) ilike
           (Sql.whereClause b) (Sql.params b)
         = match Sql.dialect config with
           | Sql.Postgres =>
               SqlEngine.compile_where (Sql.dialect config) ilike
                 (Sql.whereClause b) (Sql.params b)
           | Sql.Mysql | Sql.Sqlite => None
           end
      /\ (Sql.dialect config = Sql.Postgres ->
          exists p, SqlEngine.compile_where (Sql.dialect config) ilike
                      (Sql.whereClause b) (Sql.params b) = Some p).
Proof.
  intros [tn d] ilike [pg lm lv us se sd ed ob od] H S.
  unfold dates_valid in H. simpl in H, S.
  destruct se as [se|]; [|discriminate S]. simpl in S.
  destruct sd as [[ms1|]|]; try discriminate H;
    destruct ed as [[ms2|]|]; try discriminate H;
    destruct d;
    destruct lv as [lv|];
    destruct us as [us|]; try destruct (truthy us) eqn:Eu;
    unfold Sql.findMany_builder, filter_values, supplied, or_null;
    simpl; rewrite ?Eu, ?S; simpl;
    (eexists; split; [reflexivity|]; split; [reflexivity|]; split;
     [vm_compute; reflexivity|]; split;
     [ first [reflexivity | vm_compute; reflexivity]
     | intros D; try discriminate D;
       eexists; cbv -[SqlEngine.clause_holds level_string]; reflexivity ]).
Qed.

(** C3. The total of [findMany] is not the number of matching rows for
    every adapter and every query: with a search term the raw-SQL adapter
    writes the operator [ILIKE] into both of its statements whatever the
    dialect it was configured with.  A PostgreSQL database reads the
    statements, and [findMany] returns the rows with, as total, the number
    the count text denotes: the count of the rows of the table that the
    filters select, whatever the page and the limit.  MySQL and SQLite
    have no such operator: the database refuses the count, and [findMany]
    throws instead of returning a total. *)
Theorem findMany_search_throws_outside_postgres :
  forall (Number : string -> JsNumber) (config : Sql.SQLAdapterConfig)
         ilike select_reply (q : QueryOptions) (t : SqlEngine.Table),
    dates_valid q = true ->
    truthy_opt (q_search q) = true ->
    let database :=
      SqlEngine.engine (Sql.dialect config) (Sql.table config) ilike select_reply in
    let r := run database (findMany (createSQLAdapter Number config) q) t in
    exists select count_ : string,
      calls r = [Sql.QueryRows select (filter_values q);
                 Sql.QueryCount count_ (filter_values q)]
      /\ contains "ILIKE" select = true
      /\ contains "ILIKE" count_ = true
      /\ match Sql.dialect config with
         | Sql.Postgres =>
             forall rows,
               select_reply select (filter_values q) t = inr rows ->
               outcome r
               = Returned
                   {| logs := map Sql.toCamelCase rows;
                      total :=
                        Number
                          (string_of_Z
                             (count_where
                                (row_matches
                                   (fun value term =>
                                      ilike value ("%" ++ term ++ "%")%string)
                                   (filters_of q))
                                (map Sql.toCamelCase t))) |}
         | Sql.Mysql | Sql.Sqlite =>
             fst (database (Sql.QueryCount count_ (filter_values q)) t)
             = inl SqlEngine.syntax_error
             /\ threw (outcome r) = true
             /\ (forall rows,
                    select_reply select (filter_values q) t = inr rows ->
                    outcome r = Threw SqlEngine.syntax_error)
         end.
Proof.
  intros Number config ilike sr q t Hv Hs database r.
  destruct (search_clause config ilike q Hv Hs) as (b & Hb & Hp & Hc & He & Hpg).
  exists (Sql.select_sql config q b), (Sql.count_sql config b).
  assert (R : r = run database
                      (p1 <- settle (Sql.QueryRows (Sql.select_sql config q b)
                                       (Sql.params b)) ;;
                       p2 <- settle (Sql.QueryCount (Sql.count_sql config b)
                                       (Sql.params b)) ;;
                       '(rows, countResult) <- Sql.promise_all2 p1 p2 ;;
                       ret {| logs := map (Sql.toCamelCase) rows;
                              total := Sql.count_total Number countResult |}) t).
  { subst r. cbn [findMany createSQLAdapter]. unfold Sql.findMany.
    rewrite Hb. reflexivity. }
  assert (C : database (Sql.QueryCount (Sql.count_sql config b) (Sql.params b)) t
              = (match SqlEngine.compile_where (Sql.dialect config) ilike
                         (Sql.whereClause b) (Sql.params b) with
                 | Some p =>
                     inr [ {| Sql.count :=
                                SqlEngine.reported_count (Sql.dialect config)
                                  (count_where p t) |} ]
                 | None => inl SqlEngine.syntax_error
                 end, t))
    by apply engine_count.
  assert (Q : database (Sql.QueryRows (Sql.select_sql config q b) (Sql.params b)) t
              = (sr (Sql.select_sql config q b) (Sql.params b) t, t))
    by reflexivity.
  rewrite <- Hp.
  split; [|split; [|split]].
  - rewrite R. unfold settle. cbn [bind Monad_Prog pbind].
    rewrite calls_act, Q. cbn [fst snd pbind]. rewrite calls_act, C.
    cbn [fst snd].
    destruct (sr _ _ t) as [e|rows];
      destruct (SqlEngine.compile_where _ _ _ _); reflexivity.
  - unfold Sql.select_sql. cbv zeta.
    pose proof (contains_within "ILIKE"
                  (nl ++ "        SELECT * FROM " ++ Sql.table config ++ nl
                   ++ "        ")
                  (Sql.whereClause b)
                  (nl ++ "        ORDER BY " ++ Sql.orderColumn (orderBy_of q)
                   ++ " " ++ Sql.orderDirection (order_of q) ++ nl
                   ++ "        LIMIT " ++ Double.text (limit_of q) ++ " OFFSET "
                   ++ Double.text
                        (Double.mul (Double.sub (page_of q) (Double.of_Z 1))
                           (limit_of q))
                   ++ nl ++ "      ") Hc) as Hc'.
    rewrite !append_assoc in Hc'. exact Hc'.
  - unfold Sql.count_sql.
    pose proof (contains_within "ILIKE"
                  ("SELECT " ++ Sql.count_star ++ " as count FROM "
                   ++ Sql.table config ++ " ")
                  (Sql.whereClause b) EmptyString Hc) as Hc'.
    rewrite append_empty, !append_assoc in Hc'. exact Hc'.
  - destruct (Sql.dialect config) eqn:D.
    + intros rows Hr.
      destruct (sql_where_matches config ilike q Hv) as (b' & p & Hb' & Hcp & Hm);
        [rewrite D; reflexivity|].
      rewrite Hb in Hb'. injection Hb' as <-.
      rewrite D in Hcp. rewrite Hcp in C.
      rewrite R. unfold settle. cbn [bind Monad_Prog pbind].
      rewrite outcome_act, Q, Hr. cbn [fst snd pbind].
      rewrite outcome_act, C. cbn. rewrite truthy_string_of_Z.
      rewrite (count_where_ext _ _ _ t Hm).
      rewrite (count_where_map _ _ Sql.toCamelCase). reflexivity.
    + rewrite He in C. split; [rewrite C; reflexivity|].
      split.
      * rewrite R. unfold settle. cbn [bind Monad_Prog pbind].
        rewrite outcome_act, Q. cbn [fst snd pbind].
        rewrite outcome_act, C. cbn [fst snd].
        destruct (sr _ _ t) as [e|rows]; reflexivity.
      * intros rows Hr.
        rewrite R. unfold settle. cbn [bind Monad_Prog pbind].
        rewrite outcome_act, Q, Hr. cbn [fst snd pbind].
        rewrite outcome_act, C. reflexivity.
    + rewrite He in C. split; [rewrite C; reflexivity|].
      split.
      * rewrite R. unfold settle. cbn [bind Monad_Prog pbind].
        rewrite outcome_act, Q. cbn [fst snd pbind].
        rewrite outcome_act, C. cbn [fst snd].
        destruct (sr _ _ t) as [e|rows]; reflexivity.
      * intros rows Hr.
        rewrite R. unfold settle. cbn [bind Monad_Prog pbind].
        rewrite outcome_act, Q, Hr. cbn [fst snd pbind].
        rewrite outcome_act, C. reflexivity.
Qed.

(** ** Sample runs *)

Example findById_text_postgres :
  first_call (findById (createSQLAdapter (fun _ => JsNaN) sample_sql_config) "abc")
  = Some (Sql.QueryRows "SELECT * FROM error_logs WHERE id = $1" [Sql.SqlText "abc"]).
Proof. reflexivity. Qed.

Example findById_text_mysql :
  first_call (findById (createSQLAdapter (fun _ => JsNaN)
                          {| Sql.tableName := Some "logs"; Sql.dialect := Sql.Mysql |})
                       "abc")
  = Some (Sql.QueryRows "SELECT * FROM logs WHERE id = ?" [Sql.SqlText "abc"]).
Proof. reflexivity. Qed.

Example findMany_statement_postgres :
  select_statement (fun _ => JsNaN) sample_sql_config
    (with_page_limit (Some (Double.of_Z 3)) (Some (Double.of_Z 10)) sample_query)
  = Some ((nl ++ "        SELECT * FROM error_logs" ++ nl ++
           "        WHERE level = $1 AND user_id = $2 AND (" ++ nl ++
           "          message ILIKE $3 OR" ++ nl ++
           "          stack ILIKE $4 OR" ++ nl ++
           "          path ILIKE $5 OR" ++ nl ++
           "          user_email ILIKE $6" ++ nl ++
           "        ) AND created_at >= $7" ++ nl ++
           "        ORDER BY created_at ASC" ++ nl ++
           "        LIMIT 10 OFFSET 20" ++ nl ++
           "      ")%string,
          [Sql.SqlText "error"; Sql.SqlText "u1"; Sql.SqlText "%boo%";
           Sql.SqlText "%boo%"; Sql.SqlText "%boo%"; Sql.SqlText "%boo%";
           Sql.SqlIsoDate 5]).
Proof. vm_compute. reflexivity. Qed.

(** The limit and the offset are written as JavaScript writes numbers:
    an offset beyond 2^53 in its shortest digits, a fraction with its
    point, and a number that is none as [NaN]. *)
Example findMany_limit_offset_texts :
  let tail (page limit : Double) :=
    match select_statement (fun _ => JsNaN) sample_sql_config
            (with_page_limit (Some page) (Some limit) sample_query) with
    | Some (text, _) => substring (String.length text - 40) 40 text
    | None => EmptyString
    end in
  contains "LIMIT 10 OFFSET 90071992547409900"
    (tail (Double.of_Z (2 ^ 53)) (Double.of_Z 10)) = true
  /\ contains "LIMIT 2.5 OFFSET 5"
       (tail (Double.of_Z 3) (S754_finite false 5 (-1))) = true
  /\ contains "LIMIT NaN OFFSET NaN" (tail (Double.of_Z 1) S754_nan) = true
  /\ contains "LIMIT 1e+21 OFFSET 0"
       (tail (Double.of_Z 1) (Double.of_Z (10 ^ 21))) = true.
Proof. vm_compute. repeat split. Qed.

Example deleteMany_statement_sqlite :
  first_call (deleteMany (createSQLAdapter (fun _ => JsNaN)
                            {| Sql.tableName := None; Sql.dialect := Sql.Sqlite |})
                         {| d_before := Some (ValidDate 9); d_level := Some LvDebug |})
  = Some (Sql.Execute "DELETE FROM error_logs WHERE created_at < ? AND level = ?"
            [Sql.SqlIsoDate 9; Sql.SqlText "debug"]).
Proof. reflexivity. Qed.

Example prisma_deleteMany_unfiltered_run :
  let r := run (PrismaClient.client (Some sample_contains) (fun _ _ _ _ t => inr t))
               (deleteMany createPrismaAdapter no_filter) sample_entries in
  outcome r = Returned 3 /\ final r = []
  /\ calls r = [Prisma.DeleteMany Prisma.empty_where].
Proof. repeat split. Qed.

Example forwarded_for_first_entry :
  ctx_ip (Logger.extractRequestContext
            {| Logger.url_pathname := "/api/orders";
               Logger.request_method := "POST";
               Logger.headers := [("x-forwarded-for", "1.2.3.4, 5.6.7.8")] |})
  = Some "1.2.3.4".
Proof. reflexivity. Qed.

(** A no-break space around the first entry is trimmed like a space and a
    tab. *)
Example forwarded_for_no_break_space :
  let nbsp := String (ascii_of_nat 160) EmptyString in
  ctx_ip (Logger.extractRequestContext
            {| Logger.url_pathname := "/api/orders";
               Logger.request_method := "POST";
               Logger.headers :=
                 [("x-forwarded-for",
                   nbsp ++ " 1.2.3.4" ++ nbsp ++ ", 5.6.7.8")] |})
  = Some "1.2.3.4".
Proof. reflexivity. Qed.

(** A search on a database without the insensitive mode, and on SQLite:
    [findMany] throws what the database answers. *)
Example findMany_search_without_insensitive_mode :
  outcome (run (PrismaClient.client None (fun _ _ _ _ t => inr t))
               (findMany createPrismaAdapter sample_query) sample_entries)
  = Threw PrismaClient.unknown_mode
  /\ outcome (run (SqlEngine.engine Sql.Sqlite "error_logs" sample_like
                     (fun _ _ t => inr t))
                  (findMany (createSQLAdapter (fun _ => JsNaN) sample_sqlite_config)
                     sample_query) sample_rows)
     = Threw SqlEngine.syntax_error.
Proof. split; reflexivity. Qed.

(** ** The theorems at sample inputs *)

Lemma delete_missing_id_by_adapter_witness :
  (existsb (fun r => String.eqb (Sql.col_id r) "missing") sample_rows = false
   /\ outcome (run (SqlEngine.engine Sql.Postgres "error_logs" sample_like
                      (fun _ _ t => inr t))
                   (delete (createSQLAdapter (fun _ => JsNaN) sample_sql_config)
                      "missing") sample_rows)
      = Returned tt)
  /\ (existsb (fun e => String.eqb (id e) "missing") sample_entries = false
      /\ outcome (run (DrizzleDb.db sample_like (fun _ _ _ _ t => inr t))
                      (delete createDrizzleAdapter "missing") sample_entries)
         = Returned tt)
  /\ (existsb (PrismaClient.has_id "missing") sample_entries = false
      /\ outcome (run (PrismaClient.client (Some sample_contains)
                         (fun _ _ _ _ t => inr t))
                      (delete createPrismaAdapter "missing") sample_entries)
         = Threw PrismaClient.record_not_found).
Proof.
  split; [|split]; (split; [reflexivity|]).
  - apply (proj1 delete_missing_id_by_adapter (fun _ => JsNaN)
             sample_sql_config sample_like
             (fun _ _ t => inr t) "missing" sample_rows). reflexivity.
  - apply (proj1 (proj2 delete_missing_id_by_adapter) sample_like
             (fun _ _ _ _ t => inr t) "missing" sample_entries). reflexivity.
  - apply (proj2 (proj2 delete_missing_id_by_adapter) (Some sample_contains)
             (fun _ _ _ _ t => inr t) "missing" sample_entries). reflexivity.
Defined.

Lemma findMany_search_throws_outside_postgres_witness :
  dates_valid sample_query = true
  /\ truthy_opt (q_search sample_query) = true
  /\ outcome (run (SqlEngine.engine Sql.Sqlite "error_logs" sample_like
                     (fun _ _ t => inr t))
                  (findMany (createSQLAdapter (fun _ => JsNaN) sample_sqlite_config)
                     sample_query)
                  sample_rows)
     = Threw SqlEngine.syntax_error.
Proof.
  split; [reflexivity|]. split; [reflexivity|].
  destruct (findMany_search_throws_outside_postgres (fun _ => JsNaN)
              sample_sqlite_config sample_like (fun _ _ t => inr t)
              sample_query sample_rows eq_refl eq_refl)
    as (select & count_ & Hc & _ & _ & _ & _ & H).
  apply (H sample_rows). reflexivity.
Defined.

Lemma auth_failure_is_swallowed_witness :
  Logger.authAdapter sample_config = true
  /\ Logger.filtered_out sample_config LvError = false
  /\ outcome (run auth_down
                  (Logger.log None (Some sample_config) LvError "boom" None None)
                  0%nat)
     = Returned {| success := true;
                   entry := Some (stored "0" (ValidDate 0)
                                    (anonymous_entry LvError "boom" None None));
                   error := None |}.
Proof.
  split; [reflexivity|]. split; [reflexivity|].
  apply (auth_failure_is_swallowed nat auth_down None sample_config LvError
           "boom" None None 0%nat 0%nat 1%nat (ThrowError "Auth failed")
           (stored "0" (ValidDate 0) (anonymous_entry LvError "boom" None None)));
    reflexivity.
Defined.

Lemma withUser_bypasses_level_allow_list_witness :
  Logger.filtered_out sample_config LvInfo = true
  /\ exists entry : NewEntry,
      calls (run auth_down
                 (Logger.perform None (Some sample_config)
                    (Logger.CallUserInfo sample_user "checkout done" None))
                 0%nat)
      = [Logger.Create entry]
      /\ new_level entry = LvInfo.
Proof.
  split; [reflexivity|].
  destruct (withUser_bypasses_level_allow_list nat auth_down None sample_config
              (Logger.CallUserInfo sample_user "checkout done" None) 0%nat
              eq_refl eq_refl) as (entry & Hc & Hl & _).
  exists entry. split; [exact Hc | exact Hl].
Defined.

Lemma delete_handler_reads_filters_witness :
  let r := run (request_with dated_body 3)
               (Api.DELETE sample_newDate (Some sample_config)) tt in
  calls r = [Api.IsAuthorized; Api.RequestJson;
             Api.AdapterDeleteMany
               {| Api.before := Some (ValidDate 1704067200000);
                  Api.level := Some (JString "error") |}]
  /\ outcome r = Returned (Api.json (JObject [("deleted", JNumber 3)])).
Proof.
  pose proof (delete_handler_reads_filters unit (request_with dated_body 3)
                sample_newDate sample_config (inr dated_body) tt tt tt
                eq_refl eq_refl) as H.
  cbv zeta in H. destruct H as [_ H].
  refine (proj2 (H (JString "2024-01-01T00:00:00.000Z") eq_refl _) _).
  - intros [N|[N|[N|[N|N]]]]; discriminate N.
  - intros U. inversion U.
Defined.

Lemma sql_findMany_statement_witness :
  let q := with_page_limit (Some (Double.of_Z 3)) (Some (Double.of_Z 10))
             sample_query in
  dates_valid q = true
  /\ exists text clause : string,
      select_statement (fun _ => JsNaN) sample_sql_config q
      = Some (text, filter_values q)
      /\ text = (nl ++ "        SELECT * FROM error_logs" ++ nl ++
                 "        " ++ clause ++ nl ++
                 "        ORDER BY created_at ASC" ++ nl ++
                 "        LIMIT 10 OFFSET 20" ++ nl ++
                 "      ")%string
      /\ read_where Sql.Postgres clause (filter_values q)
         = Some (filter_conditions q)
      /\ placeholders clause = ["$1"; "$2"; "$3"; "$4"; "$5"; "$6"; "$7"].
Proof.
  split; [reflexivity|].
  destruct (sql_findMany_statement (fun _ => JsNaN) sample_sql_config
              (with_page_limit (Some (Double.of_Z 3)) (Some (Double.of_Z 10))
                 sample_query)
              eq_refl) as (text & clause & Hs & Ht & Hr & Hp & _).
  exists text, clause.
  split; [exact Hs|]. split; [exact Ht|]. split; [exact Hr | exact Hp].
Defined.

(* ===================================================================== *)
(** * Further properties of the code *)
(* ===================================================================== *)

(** ** Programs run in sequence *)

(** Running [p] and then [f] is running [f] on what [p] returned, in the
    state [p] left. *)
Lemma run_pbind :
  forall (action : Type) (result : action -> Type) (W A B : Type)
         (handler : forall c : action, W -> (Thrown + result c) * W)
         (p : Prog action result A) (f : A -> Prog action result B) (w : W),
    run handler (pbind p f) w
    = let r := run handler p w in
      match outcome r with
      | Returned a =>
          let r' := run handler (f a) (final r) in
          {| outcome := outcome r'; final := final r';
             calls := calls r ++ calls r'; console := console r ++ console r' |}
      | Threw e =>
          {| outcome := Threw e; final := final r; calls := calls r;
             console := console r |}
      end.
Proof.
  intros action result W A B handler p f.
  induction p as [a|e|l k IH|c k IH]; intros w.
  - cbn. destruct (run handler (f a) w); reflexivity.
  - reflexivity.
  - cbn [pbind]. cbn [run]. rewrite IH. cbn zeta.
    destruct (outcome (run handler k w)); reflexivity.
  - cbn [pbind]. rewrite !run_act. cbn zeta. rewrite IH. cbn zeta.
    destruct (outcome (run handler (k (fst (handler c w))) (snd (handler c w))));
      reflexivity.
Qed.

(** ** Every logging call of the facade *)

Lemma perform_log :
  forall node_env config (c : Logger.LoggingCall),
    Logger.explicit_user c = false ->
    Logger.perform node_env config c
    = Logger.log node_env config (Logger.level_of c) (message_of c)
        (error_of c) (context_of c).
Proof. intros node_env config [] H; try discriminate H; reflexivity. Qed.

Lemma perform_withUser :
  forall node_env config (c : Logger.LoggingCall) (u : Logger.AuthUser),
    user_of c = Some u ->
    Logger.perform node_env config c
    = Logger.errorLogger_withUser_method config u (Logger.level_of c)
        (message_of c) (stack_of c) (context_of c).
Proof.
  intros node_env config [] u H; try discriminate H;
    injection H as <-; reflexivity.
Qed.

Lemma explicit_user_of :
  forall c : Logger.LoggingCall,
    Logger.explicit_user c = true -> exists u, user_of c = Some u.
Proof. intros [] H; try discriminate H; eexists; reflexivity. Qed.


(** X1. The calls that go through [log] (the direct ones and those bound
    to a request) never throw: whatever the state of the logger, the
    adapters and their answers, the call returns a result. *)
Theorem logging_through_log_never_throws :
  forall (W : Type)
         (adapters : forall c : Logger.Call, W -> (Thrown + Logger.result c) * W)
         (node_env : option string) (config : Logger.State)
         (c : Logger.LoggingCall) (w : W),
    Logger.explicit_user c = false ->
    exists res : LogResult,
      outcome (run adapters (Logger.perform node_env config c) w) = Returned res.
Proof.
  intros W adapters node_env config c w H.
  rewrite (perform_log node_env config c H).
  pose proof (log_never_throws adapters node_env config (Logger.level_of c)
                (message_of c) (error_of c) (context_of c) w) as T.
  destruct (outcome _) as [res|e]; [exists res; reflexivity | discriminate T].
Qed.

(** X2. A call through [log] at a level that the configured allow-list
    leaves out is a no-op: it returns [{success: true}] without an entry,
    calls neither adapter, and writes nothing to the console. *)
Theorem filtered_level_is_a_no_op :
  forall (W : Type)
         (adapters : forall c : Logger.Call, W -> (Thrown + Logger.result c) * W)
         (node_env : option string) (cfg : Logger.ErrorLoggerConfig)
         (c : Logger.LoggingCall) (w : W),
    Logger.explicit_user c = false ->
    Logger.filtered_out cfg (Logger.level_of c) = true ->
    let r := run adapters (Logger.perform node_env (Some cfg) c) w in
    outcome r = Returned {| success := true; entry := None; error := None |}
    /\ calls r = [] /\ console r = [] /\ final r = w.
Proof.
  intros W adapters node_env cfg c w H F.
  rewrite (perform_log node_env (Some cfg) c H).
  unfold Logger.log. cbn. rewrite F. repeat split.
Qed.

(** X3. On an initialized logger a rejection of [create] never reaches the
    caller as an exception: every logging call that gets as far as the
    storage adapter returns [{success: false, error}], the error being the
    message of the rejection, or 'Unknown error' when what was thrown is
    not an [Error]. *)
Theorem storage_failure_is_returned :
  forall (W : Type)
         (adapters : forall c : Logger.Call, W -> (Thrown + Logger.result c) * W)
         (node_env : option string) (cfg : Logger.ErrorLoggerConfig)
         (c : Logger.LoggingCall) (w : W) (e : Thrown),
    (Logger.explicit_user c = false ->
     Logger.filtered_out cfg (Logger.level_of c) = false) ->
    (forall entry w', fst (adapters (Logger.Create entry) w') = inl e) ->
    outcome (run adapters (Logger.perform node_env (Some cfg) c) w)
    = Returned {| success := false; entry := None;
                  error := Some (error_message e) |}.
Proof.
  intros W adapters node_env cfg c w e F R.
  destruct (Logger.explicit_user c) eqn:U.
  - destruct (explicit_user_of c U) as [u Hu].
    rewrite (perform_withUser node_env (Some cfg) c u Hu).
    apply withUser_create_failure. exact R.
  - rewrite (perform_log node_env (Some cfg) c U).
    apply log_create_failure; [apply F; reflexivity | exact R].
Qed.

Lemma filtered_out_init :
  forall (cfg : Logger.ErrorLoggerConfig) (s : Logger.State) (l : LogLevel),
  exists cfg',
    Logger.initErrorLogger cfg s = Some cfg'
    /\ Logger.filtered_out cfg' l = Logger.filtered_out cfg l
    /\ Logger.authAdapter cfg' = Logger.authAdapter cfg
    /\ Logger.consoleInDev cfg'
       = Some (match Logger.consoleInDev cfg with Some b => b | None => true end)
    /\ Logger.retentionDays cfg'
       = Some (match Logger.retentionDays cfg with Some d => d | None => 30 end).
Proof.
  intros cfg s l. eexists. split; [reflexivity|].
  unfold Logger.filtered_out. simpl.
  destruct (Logger.consoleInDev cfg), (Logger.retentionDays cfg); repeat split.
Qed.

(** X4. After [initErrorLogger(cfg)] with [consoleInDev] left out (or
    true), a call through [log] at a level that is logged, made while
    [NODE_ENV] is 'development', first writes the line
    [[LEVEL] message error context] to the console, with [console.error]
    for an error, [console.warn] for a warning and [console.log]
    otherwise; the default of [consoleInDev] is true, whatever
    configuration was there before. *)
Theorem development_echo :
  forall (W : Type)
         (adapters : forall c : Logger.Call, W -> (Thrown + Logger.result c) * W)
         (cfg : Logger.ErrorLoggerConfig) (previous : Logger.State)
         (c : Logger.LoggingCall) (w : W),
    Logger.explicit_user c = false ->
    Logger.filtered_out cfg (Logger.level_of c) = false ->
    Logger.consoleInDev cfg <> Some false ->
    let r := run adapters
                 (Logger.perform (Some "development")
                    (Logger.initErrorLogger cfg previous) c) w in
    exists rest : list ConsoleLine, console r = echo c :: rest.
Proof.
  intros W adapters cfg previous c w U F D.
  destruct (filtered_out_init cfg previous (Logger.level_of c))
    as (cfg' & -> & F' & _ & D' & _).
  rewrite (perform_log _ _ c U). unfold Logger.log. cbn.
  rewrite F', F, D'.
  assert (E : match Logger.consoleInDev cfg with Some b => b | None => true end = true).
  { destruct (Logger.consoleInDev cfg) as [[|]|]; try reflexivity.
    exfalso. apply D. reflexivity. }
  rewrite E. cbn.
  destruct (Logger.authAdapter cfg'); cbn; answers adapters;
    eexists; unfold echo; destruct (Logger.level_of c); reflexivity.
Qed.

(** X5. Outside development the console is written to by one thing only,
    a call through [log] that fails: such a call returns
    [{success: false, error}] and has written the one line
    'Failed to log:' with what was thrown, the [error] of the result being
    the message of that value.  What was thrown is the error of
    [getConfig] on a logger that was never initialized, and what [create]
    rejected with when the storage adapter rejects.  A call through [log]
    that returns success has written nothing, and no method of
    [withUser] writes anything, whatever happens to it. *)
Theorem console_is_quiet_outside_development :
  forall (W : Type)
         (adapters : forall c : Logger.Call, W -> (Thrown + Logger.result c) * W)
         (node_env : option string) (config : Logger.State)
         (c : Logger.LoggingCall) (w : W),
    Logger.is_development node_env = false ->
    let r := run adapters (Logger.perform node_env config c) w in
    (Logger.explicit_user c = true -> console r = [])
    /\ (Logger.explicit_user c = false ->
        match outcome r with
        | Returned res =>
            if success res then console r = []
            else exists e : Thrown,
                console r = [failed_to_log e]
                /\ error res = Some (error_message e)
        | Threw _ => False
        end)
    /\ (Logger.explicit_user c = false ->
        config = Logger.uninitialized ->
        console r = [failed_to_log (ThrowError Logger.not_initialized)])
    /\ (forall (cfg : Logger.ErrorLoggerConfig) (e : Thrown),
           Logger.explicit_user c = false ->
           config = Some cfg ->
           Logger.filtered_out cfg (Logger.level_of c) = false ->
           (forall entry w', fst (adapters (Logger.Create entry) w') = inl e) ->
           console r = [failed_to_log e]).
Proof.
  intros W adapters node_env config c w D r. subst r.
  split; [|split; [|split]].
  - intros U. destruct (explicit_user_of c U) as [u Hu].
    rewrite (perform_withUser node_env config c u Hu).
    unfold Logger.errorLogger_withUser_method.
    destruct config as [cfg|]; cbn; [|reflexivity].
    answers adapters; reflexivity.
  - intros U. rewrite (perform_log node_env config c U). unfold Logger.log.
    destruct config as [cfg|]; cbn.
    + destruct (Logger.filtered_out cfg _); [reflexivity|].
      rewrite D, andb_false_r. cbn.
      destruct (Logger.authAdapter cfg); cbn; answers adapters;
        first [reflexivity | eexists; split; reflexivity].
    + eexists. split; reflexivity.
  - intros U ->. rewrite (perform_log node_env _ c U). reflexivity.
  - intros cfg e U -> F R. rewrite (perform_log node_env (Some cfg) c U).
    unfold Logger.log. cbn. rewrite F, D, andb_false_r. cbn.
    destruct (Logger.authAdapter cfg); cbn;
      repeat match goal with
             | |- context [adapters Logger.GetUser ?w] =>
                 destruct (adapters Logger.GetUser w) as [[?|?] ?]; cbn
             | |- context [adapters (Logger.Create ?n) ?w] =>
                 let H := fresh in
                 pose proof (R n w) as H;
                 destruct (adapters (Logger.Create n) w) as [[?|?] ?]; cbn in *;
                 [injection H as ->|discriminate H]
             end; reflexivity.
Qed.

(** X6. The methods of [errorLogger.withUser(user)] on an initialized
    logger make exactly one call, [create]; they never ask the auth
    adapter, also when one is configured, and never write to the console,
    also in development and also when [create] rejects.  The entry carries
    the id of the given user as it is, and its email and name, or null. *)
Theorem withUser_stores_the_given_user :
  forall (W : Type)
         (adapters : forall c : Logger.Call, W -> (Thrown + Logger.result c) * W)
         (node_env : option string) (cfg : Logger.ErrorLoggerConfig)
         (c : Logger.LoggingCall) (u : Logger.AuthUser) (w : W),
    user_of c = Some u ->
    let r := run adapters (Logger.perform node_env (Some cfg) c) w in
    exists entry : NewEntry,
      calls r = [Logger.Create entry]
      /\ new_userId entry = Some (Logger.user_id u)
      /\ new_userEmail entry = or_null (Logger.user_email u)
      /\ new_userName entry = or_null (Logger.user_name u)
      /\ new_message entry = message_of c
      /\ console r = [].
Proof.
  intros W adapters node_env cfg c u w Hu.
  rewrite (perform_withUser node_env (Some cfg) c u Hu).
  unfold Logger.errorLogger_withUser_method. cbn.
  match goal with
  | |- context [adapters (Logger.Create ?n) w] =>
      exists n; destruct (adapters (Logger.Create n) w) as [[?|?] ?]
  end; cbn; repeat split.
Qed.

(** X7. The user of an entry written through [log] is the one the auth
    adapter reports: without an auth adapter [getUser] is never called and
    the user fields are null; with one, [getUser] is called once, before
    [create], and the id, email and name it resolves to are stored (an
    empty string as null); when it resolves to [null] the fields are
    null. *)
Theorem session_user_is_stored :
  forall (W : Type)
         (adapters : forall c : Logger.Call, W -> (Thrown + Logger.result c) * W)
         (node_env : option string) (cfg : Logger.ErrorLoggerConfig)
         (c : Logger.LoggingCall) (w : W),
    Logger.explicit_user c = false ->
    Logger.filtered_out cfg (Logger.level_of c) = false ->
    let r := run adapters (Logger.perform node_env (Some cfg) c) w in
    (Logger.authAdapter cfg = false ->
     exists entry : NewEntry,
       calls r = [Logger.Create entry]
       /\ new_userId entry = None /\ new_userEmail entry = None
       /\ new_userName entry = None)
    /\ (Logger.authAdapter cfg = true ->
        exists entry : NewEntry,
          calls r = [Logger.GetUser; Logger.Create entry]
          /\ match fst (adapters Logger.GetUser w) with
             | inr (Some u) =>
                 new_userId entry = or_null (Some (Logger.user_id u))
                 /\ new_userEmail entry = or_null (Logger.user_email u)
                 /\ new_userName entry = or_null (Logger.user_name u)
             | _ =>
                 new_userId entry = None /\ new_userEmail entry = None
                 /\ new_userName entry = None
             end).
Proof.
  intros W adapters node_env cfg c w U F.
  rewrite (perform_log node_env (Some cfg) c U). unfold Logger.log. cbn.
  rewrite F.
  split; intros A; rewrite A.
  - destruct (match Logger.consoleInDev cfg with Some b => b | None => false end
              && Logger.is_development node_env); cbn;
      match goal with
      | |- context [adapters (Logger.Create ?n) w] =>
          exists n; destruct (adapters (Logger.Create n) w) as [[?|?] ?]
      end; cbn; repeat split.
  - destruct (match Logger.consoleInDev cfg with Some b => b | None => false end
              && Logger.is_development node_env); cbn;
      destruct (adapters Logger.GetUser w) as [[e|[u|]] w1]; cbn;
      match goal with
      | |- context [adapters (Logger.Create ?n) w1] =>
          exists n; destruct (adapters (Logger.Create n) w1) as [[?|?] ?]
      end; cbn; repeat split.
Qed.


(** ** The client address of a request *)

Lemma address_char_facts :
  forall c, address_char c = true ->
            Logger.is_space c = false /\ Ascii.eqb c "," = false.
Proof.
  intros c H. unfold address_char in H. unfold Logger.is_space.
  apply andb_true_iff in H. destruct H as [H N].
  apply andb_true_iff in H. destruct H as [L U].
  apply Nat.leb_le in L. apply Nat.leb_le in U.
  apply negb_true_iff in N. apply Nat.eqb_neq in N.
  split.
  - apply orb_false_iff. split; [apply orb_false_iff; split|].
    + apply andb_false_iff. right. apply Nat.leb_gt. lia.
    + apply Nat.eqb_neq. lia.
    + apply Nat.eqb_neq. lia.
  - apply Ascii.eqb_neq. intros ->. apply N. reflexivity.
Qed.

Lemma is_space_not_comma :
  forall c, Logger.is_space c = true -> Ascii.eqb c "," = false.
Proof.
  intros c H. apply Ascii.eqb_neq. intros ->. discriminate H.
Qed.

Lemma first_segment_app :
  forall s tail,
    all_chars (fun c => negb (Ascii.eqb c ",")) s = true ->
    Logger.first_segment (s ++ tail) = (s ++ Logger.first_segment tail)%string.
Proof.
  induction s as [|c s IH]; intros tail H; simpl in *.
  - reflexivity.
  - apply andb_true_iff in H. destruct H as [Hc Hs].
    apply negb_true_iff in Hc. rewrite Hc, IH by assumption. reflexivity.
Qed.

Lemma all_chars_app :
  forall p a b, all_chars p (a ++ b) = all_chars p a && all_chars p b.
Proof.
  induction a as [|c a IH]; intros b; simpl.
  - reflexivity.
  - rewrite IH, andb_assoc. reflexivity.
Qed.

Lemma all_chars_impl :
  forall (p q : ascii -> bool) s,
    (forall c, p c = true -> q c = true) ->
    all_chars p s = true -> all_chars q s = true.
Proof.
  induction s as [|c s IH]; intros I H; simpl in *.
  - reflexivity.
  - apply andb_true_iff in H. destruct H as [Hc Hs].
    rewrite (I c Hc), IH by assumption. reflexivity.
Qed.

Lemma trim_start_blanks :
  forall b s, all_chars Logger.is_space b = true ->
              Logger.trim_start (b ++ s) = Logger.trim_start s.
Proof.
  induction b as [|c b IH]; intros s H; simpl in *.
  - reflexivity.
  - apply andb_true_iff in H. destruct H as [Hc Hb].
    rewrite Hc. apply IH. exact Hb.
Qed.

Lemma trim_end_blanks :
  forall b, all_chars Logger.is_space b = true -> Logger.trim_end b = EmptyString.
Proof.
  induction b as [|c b IH]; intros H; simpl in *.
  - reflexivity.
  - apply andb_true_iff in H. destruct H as [Hc Hb].
    rewrite (IH Hb), Hc. reflexivity.
Qed.

Lemma trim_end_address :
  forall a b,
    all_chars address_char a = true -> a <> EmptyString ->
    all_chars Logger.is_space b = true ->
    Logger.trim_end (a ++ b) = a.
Proof.
  induction a as [|c a IH]; intros b Ha Ne Hb.
  - contradiction.
  - simpl in Ha. apply andb_true_iff in Ha. destruct Ha as [Hc Ha].
    destruct (address_char_facts c Hc) as [Sp _].
    change (String c a ++ b)%string with (String c (a ++ b)).
    cbn [Logger.trim_end].
    destruct a as [|d a].
    + change (EmptyString ++ b)%string with b.
      rewrite (trim_end_blanks b Hb), Sp. reflexivity.
    + rewrite (IH b Ha ltac:(discriminate) Hb). reflexivity.
Qed.

Lemma trim_address :
  forall before a after,
    all_chars Logger.is_space before = true ->
    all_chars address_char a = true -> a <> EmptyString ->
    all_chars Logger.is_space after = true ->
    Logger.trim (before ++ a ++ after) = a.
Proof.
  intros before a after Hb Ha Ne Hf. unfold Logger.trim.
  rewrite (trim_start_blanks before _ Hb).
  destruct a as [|c a]; [contradiction|].
  assert (Sp : Logger.is_space c = false).
  { simpl in Ha. apply andb_true_iff in Ha. destruct Ha as [Hc _].
    apply (address_char_facts c Hc). }
  change (String c a ++ after)%string with (String c (a ++ after)).
  cbn [Logger.trim_start]. rewrite Sp.
  change (String c (a ++ after)) with (String c a ++ after)%string.
  apply trim_end_address; assumption.
Qed.

Lemma trim_blanks :
  forall b, all_chars Logger.is_space b = true -> Logger.trim b = EmptyString.
Proof.
  intros b H. unfold Logger.trim.
  rewrite <- (append_empty b), (trim_start_blanks b EmptyString H). reflexivity.
Qed.

(** X9. The client address [extractRequestContext] reports is the first
    entry of the header [x-forwarded-for] with the white space around it
    removed: for a header [<blanks>address<blanks>], alone or followed by a
    comma and further entries, it is [address], whatever [x-real-ip]
    says. *)
Theorem forwarded_for_first_address :
  forall (request : Logger.Request) (before a after tail : string),
    all_chars Logger.is_space before = true ->
    all_chars address_char a = true ->
    a <> EmptyString ->
    all_chars Logger.is_space after = true ->
    Logger.headers_get (Logger.headers request) "x-forwarded-for"
    = Some (before ++ a ++ after ++ tail)%string ->
    tail = EmptyString \/ (exists rest, tail = String "," rest) ->
    ctx_ip (Logger.extractRequestContext request) = Some a.
Proof.
  intros request before a after tail Hb Ha Ne Hf Hh Ht.
  unfold Logger.extractRequestContext. cbn [ctx_ip]. rewrite Hh.
  cbn [option_map].
  assert (S : Logger.first_segment (before ++ a ++ after ++ tail)
              = (before ++ a ++ after)%string).
  { replace (before ++ a ++ after ++ tail)%string
      with ((before ++ a ++ after) ++ tail)%string
      by (rewrite !append_assoc; reflexivity).
    rewrite first_segment_app.
    - destruct Ht as [->|[rest ->]]; simpl; apply append_empty.
    - rewrite !all_chars_app.
      rewrite (all_chars_impl Logger.is_space _ before), (all_chars_impl address_char _ a),
        (all_chars_impl Logger.is_space _ after); try assumption; try reflexivity.
      + intros c H. rewrite (is_space_not_comma c H). reflexivity.
      + intros c H. destruct (address_char_facts c H) as [_ ->]. reflexivity.
      + intros c H. rewrite (is_space_not_comma c H). reflexivity. }
  rewrite S, (trim_address before a after Hb Ha Ne Hf).
  unfold or_null. simpl. destruct a; [contradiction | reflexivity].
Qed.

(** X10. When the header [x-forwarded-for] names no client (it is absent
    or empty, or only white space stands before its first comma), the
    address is that of the header [x-real-ip], and absent when that header
    is absent or empty. *)
Theorem address_falls_back_to_real_ip :
  forall request : Logger.Request,
    names_no_client
      (Logger.headers_get (Logger.headers request) "x-forwarded-for") = true ->
    ctx_ip (Logger.extractRequestContext request)
    = or_null (Logger.headers_get (Logger.headers request) "x-real-ip").
Proof.
  intros request H. unfold Logger.extractRequestContext. cbn [ctx_ip].
  destruct (Logger.headers_get (Logger.headers request) "x-forwarded-for")
    as [v|]; cbn [option_map].
  - simpl in H. rewrite (trim_blanks _ H). reflexivity.
  - reflexivity.
Qed.

(** ** The auth adapters *)

(** X11. [getUser] of the NextAuth adapter asks for the session once and
    never rejects: it resolves to the user of the session when the session
    has one with a non-empty id, and to [null] otherwise, in particular
    when the session function rejects. *)
Theorem nextauth_getUser_never_rejects :
  forall (W : Type)
         (provider : forall c : NextAuth.Call, W -> (Thrown + NextAuth.result c) * W)
         (w : W),
    let r := run provider NextAuth.getUser w in
    calls r = [NextAuth.AuthFn]
    /\ outcome r = Returned (match fst (provider NextAuth.AuthFn w) with
                             | inr session => session_user session
                             | inl _ => None
                             end).
Proof.
  intros W provider w. unfold NextAuth.getUser. cbn.
  destruct (provider NextAuth.AuthFn w) as [[e|session] w']; cbn.
  - split; reflexivity.
  - destruct session as [[[u|]]|]; cbn; try (split; reflexivity).
    unfold supplied, or_null.
    destruct (NextAuth.su_id u) as [i|]; cbn; try (split; reflexivity).
    destruct (truthy i); cbn; split; reflexivity.
Qed.

(** X12. [getUser] of the Clerk adapter never rejects.  It calls [auth]
    first; when [auth] rejects, or reports no user id, it resolves to
    [null] without a further call; [fetchUser] is called at most once,
    only when one is configured, and with the user id [auth] reported. *)
Theorem clerk_getUser_never_rejects :
  forall (W : Type)
         (provider : forall c : Clerk.Call, W -> (Thrown + Clerk.result c) * W)
         (config : Clerk.ClerkAdapterConfig) (w : W),
    let r := run provider (Clerk.getUser config) w in
    (exists u : option Logger.AuthUser, outcome r = Returned u)
    /\ match fst (provider Clerk.Auth w) with
       | inr (Some i) =>
           if truthy i && Clerk.fetchUser config
           then calls r = [Clerk.Auth; Clerk.FetchUser i]
           else calls r = [Clerk.Auth]
                /\ outcome r = Returned (if truthy i then Some (id_only i) else None)
       | _ => calls r = [Clerk.Auth] /\ outcome r = Returned None
       end.
Proof.
  intros W provider config w. unfold Clerk.getUser. cbn.
  destruct (provider Clerk.Auth w) as [[e|[i|]] w1]; cbn.
  - split; [eexists; reflexivity | split; reflexivity].
  - destruct (truthy i); cbn.
    + destruct (Clerk.fetchUser config); cbn.
      * destruct (provider (Clerk.FetchUser i) w1) as [[e|[user|]] w2]; cbn;
          (split; [eexists; reflexivity | reflexivity]).
      * split; [eexists; reflexivity | split; reflexivity].
    + split; [eexists; reflexivity | split; reflexivity].
  - split; [eexists; reflexivity | split; reflexivity].
Qed.

Lemma truthy_app :
  forall a b, truthy a = true -> truthy (a ++ b) = true.
Proof. intros [|c a] b H; [discriminate H | reflexivity]. Qed.

Lemma clerk_name :
  forall first last : option string,
    (let joined := join " " (Clerk.filter_Boolean [first; last]) in
     if truthy joined then Some joined else None)
    = full_name first last.
Proof.
  intros [f|] [l|]; unfold full_name, supplied, or_null; cbn;
    try destruct (truthy f) eqn:F; try destruct (truthy l) eqn:L; cbn;
    rewrite ?F, ?L, ?truthy_app by assumption; reflexivity.
Qed.

(** X13. For a signed-in user and a configured [fetchUser], [getUser] of
    the Clerk adapter resolves by the answer of [fetchUser]: to the id,
    the first email address and the name of the record fetched, the name
    being first and last name joined by one space, or the one of them that
    is not empty, or absent; to the user id alone when no record is found;
    and to [null] when [fetchUser] rejects, although the user id is
    known. *)
Theorem clerk_getUser_by_fetchUser :
  forall (W : Type)
         (provider : forall c : Clerk.Call, W -> (Thrown + Clerk.result c) * W)
         (i : string) (w w1 : W),
    provider Clerk.Auth w = (inr (Some i), w1) ->
    truthy i = true ->
    outcome (run provider (Clerk.getUser {| Clerk.fetchUser := true |}) w)
    = Returned (match fst (provider (Clerk.FetchUser i) w1) with
                | inr (Some user) => Some (clerk_user user)
                | inr None => Some (id_only i)
                | inl _ => None
                end).
Proof.
  intros W provider i w w1 Ha Hi. unfold Clerk.getUser. cbn.
  rewrite Ha. cbn. rewrite Hi. cbn.
  destruct (provider (Clerk.FetchUser i) w1) as [[e|[user|]] w2]; cbn;
    try reflexivity.
  unfold clerk_user. rewrite <- clerk_name.
  destruct (Clerk.emailAddresses user) as [[|first rest]|]; reflexivity.
Qed.

(** ** The route handlers *)

Lemma run_guarded_unauthorized :
  forall (W : Type)
         (collaborators : forall c : ApiRoutes.Call, W -> (Thrown + ApiRoutes.result c) * W)
         (config : Logger.State) (handler : ApiRoutes.M ApiRoutes.Response)
         (w w1 : W),
    collaborators ApiRoutes.IsAuthorized w = (inr false, w1) ->
    run collaborators (ApiRoutes.guarded config handler) w
    = {| outcome := Returned (ApiRoutes.json_error "Unauthorized" 401);
         final := w1; calls := [ApiRoutes.IsAuthorized]; console := [] |}.
Proof.
  intros W collaborators config handler w w1 H.
  unfold ApiRoutes.guarded. cbn. rewrite H. reflexivity.
Qed.

Lemma run_guarded_authorized :
  forall (W : Type)
         (collaborators : forall c : ApiRoutes.Call, W -> (Thrown + ApiRoutes.result c) * W)
         (cfg : Logger.ErrorLoggerConfig)
         (handler : ApiRoutes.M ApiRoutes.Response) (w w1 : W),
    collaborators ApiRoutes.IsAuthorized w = (inr true, w1) ->
    run collaborators (ApiRoutes.guarded (Some cfg) handler) w
    = let r := run collaborators handler w1 in
      {| outcome := outcome r; final := final r;
         calls := ApiRoutes.IsAuthorized :: calls r; console := console r |}.
Proof.
  intros W collaborators cfg handler w w1 H.
  unfold ApiRoutes.guarded. cbn. rewrite H. reflexivity.
Qed.

Lemma route_is_guarded :
  forall parseInt newDate now config route,
  exists handler,
    route_handler parseInt newDate now config route
    = ApiRoutes.guarded config handler.
Proof. intros parseInt newDate now config []; eexists; reflexivity. Qed.

(** X14. Every route handler first asks [isAuthorized]; when it resolves
    to false the answer is [{error: 'Unauthorized'}] with status 401, and
    nothing else happens: the storage adapter is not called, whether or not
    the logger is initialized, and nothing is written to the console.  This
    holds for the list, detail and statistics routes and for [DELETE] of
    the list route. *)
Theorem unauthorized_is_401 :
  (forall (W : Type)
          (collaborators : forall c : ApiRoutes.Call, W -> (Thrown + ApiRoutes.result c) * W)
          (parseInt : string -> JsNumber) (newDate : string -> Date) (now : Z)
          (config : Logger.State) (route : Route) (w w1 : W),
      collaborators ApiRoutes.IsAuthorized w = (inr false, w1) ->
      let r := run collaborators (route_handler parseInt newDate now config route) w in
      outcome r = Returned (ApiRoutes.json_error "Unauthorized" 401)
      /\ calls r = [ApiRoutes.IsAuthorized] /\ console r = [])
  /\ (forall (W : Type)
             (collaborators : forall c : Api.Call, W -> (Thrown + Api.result c) * W)
             (newDate : Json -> Date) (config : Logger.State) (w w1 : W),
         collaborators Api.IsAuthorized w = (inr false, w1) ->
         let r := run collaborators (Api.DELETE newDate config) w in
         outcome r = Returned (Api.json_error "Unauthorized" 401)
         /\ calls r = [Api.IsAuthorized] /\ console r = []).
Proof.
  split.
  - intros W collaborators parseInt newDate now config route w w1 H.
    destruct (route_is_guarded parseInt newDate now config route) as [h ->].
    rewrite (run_guarded_unauthorized W collaborators config h w w1 H).
    repeat split.
  - intros W collaborators newDate config w w1 H.
    unfold Api.DELETE. cbn. rewrite H. cbn. repeat split.
Qed.

(** X15. For an authorized caller and a logger that was never initialized
    every route handler answers [{error: 'Logger not initialized'}] with
    status 500, without calling the storage adapter and without
    throwing. *)
Theorem uninitialized_logger_is_500 :
  (forall (W : Type)
          (collaborators : forall c : ApiRoutes.Call, W -> (Thrown + ApiRoutes.result c) * W)
          (parseInt : string -> JsNumber) (newDate : string -> Date) (now : Z)
          (route : Route) (w w1 : W),
      collaborators ApiRoutes.IsAuthorized w = (inr true, w1) ->
      let r := run collaborators
                   (route_handler parseInt newDate now Logger.uninitialized route) w in
      outcome r = Returned (ApiRoutes.json_error "Logger not initialized" 500)
      /\ calls r = [ApiRoutes.IsAuthorized] /\ console r = [])
  /\ (forall (W : Type)
             (collaborators : forall c : Api.Call, W -> (Thrown + Api.result c) * W)
             (newDate : Json -> Date) (w w1 : W),
         collaborators Api.IsAuthorized w = (inr true, w1) ->
         let r := run collaborators (Api.DELETE newDate Logger.uninitialized) w in
         outcome r = Returned (Api.json_error "Logger not initialized" 500)
         /\ calls r = [Api.IsAuthorized] /\ console r = []).
Proof.
  split.
  - intros W collaborators parseInt newDate now route w w1 H.
    destruct route; cbn; rewrite H; cbn; repeat split.
  - intros W collaborators newDate w w1 H.
    unfold Api.DELETE. cbn. rewrite H. cbn. repeat split.
Qed.

Lemma Math_min_capped :
  forall (n : JsNumber) (bound : Z),
    is_NaN (ApiRoutes.Math_min n bound) || at_most bound (ApiRoutes.Math_min n bound)
    = true.
Proof.
  intros [z|] bound; simpl; [|reflexivity].
  apply Z.leb_le. apply Z.le_min_r.
Qed.

Lemma run_list_get :
  forall (W : Type)
         (collaborators : forall c : ApiRoutes.Call, W -> (Thrown + ApiRoutes.result c) * W)
         (parseInt : string -> JsNumber) (newDate : string -> Date)
         (cfg : Logger.ErrorLoggerConfig) (searchParams : list (string * string))
         (w w1 : W),
    collaborators ApiRoutes.IsAuthorized w = (inr true, w1) ->
    let options := ApiRoutes.list_options parseInt newDate searchParams in
    let answer := collaborators (ApiRoutes.AdapterFindMany options) w1 in
    run collaborators
        (ApiRoutes.createLogAPIHandlers_GET parseInt newDate (Some cfg) searchParams) w
    = {| outcome :=
           Returned (match fst answer with
                     | inr result => ApiRoutes.json (ApiRoutes.ListBody result)
                     | inl _ => ApiRoutes.json_error "Failed to fetch logs" 500
                     end);
         final := snd answer;
         calls := [ApiRoutes.IsAuthorized; ApiRoutes.AdapterFindMany options];
         console := match fst answer with
                    | inr _ => []
                    | inl e => [api_error_line e]
                    end |}.
Proof.
  intros W collaborators parseInt newDate cfg searchParams w w1 H options answer.
  unfold ApiRoutes.createLogAPIHandlers_GET.
  rewrite (run_guarded_authorized W collaborators cfg _ w w1 H).
  fold options. cbn -[options]. fold answer.
  destruct answer as [[?|?] ?]; reflexivity.
Qed.

(** X16. [GET] of the list route hands [findMany] a [limit] that is never
    more than 100, whatever the query string says: it is [NaN] or at most
    100.  When the parameter [limit] or [page] is absent or empty the
    handler parses the default, '50' and '1'; empty [userId] and [search]
    filters are dropped, and the answer of the adapter is returned with
    status 200. *)
Theorem list_limit_is_capped :
  forall (W : Type)
         (collaborators : forall c : ApiRoutes.Call, W -> (Thrown + ApiRoutes.result c) * W)
         (parseInt : string -> JsNumber) (newDate : string -> Date)
         (cfg : Logger.ErrorLoggerConfig) (searchParams : list (string * string))
         (w w1 : W),
    collaborators ApiRoutes.IsAuthorized w = (inr true, w1) ->
    let r := run collaborators
                 (ApiRoutes.createLogAPIHandlers_GET parseInt newDate (Some cfg)
                    searchParams) w in
    let get := ApiRoutes.searchParams_get searchParams in
    exists (options : ApiRoutes.FindManyArgs) (l : JsNumber),
      calls r = [ApiRoutes.IsAuthorized; ApiRoutes.AdapterFindMany options]
      /\ ApiRoutes.limit options = Some l
      /\ is_NaN l || at_most 100 l = true
      /\ (supplied (get "limit") = None ->
          l = ApiRoutes.Math_min (parseInt "50") 100)
      /\ (supplied (get "page") = None ->
          ApiRoutes.page options = Some (parseInt "1"))
      /\ ApiRoutes.userId options = supplied (get "userId")
      /\ ApiRoutes.search options = supplied (get "search")
      /\ (forall result w2,
             collaborators (ApiRoutes.AdapterFindMany options) w1 = (inr result, w2) ->
             outcome r = Returned (ApiRoutes.json (ApiRoutes.ListBody result))).
Proof.
  intros W collaborators parseInt newDate cfg searchParams w w1 H.
  rewrite (run_list_get W collaborators parseInt newDate cfg searchParams w w1 H).
  exists (ApiRoutes.list_options parseInt newDate searchParams).
  eexists. cbn [calls outcome].
  split; [reflexivity|].
  split; [reflexivity|].
  split; [apply Math_min_capped|].
  unfold supplied, or_null, ApiRoutes.or_default.
  split; [|split; [|split; [reflexivity|split; [reflexivity|]]]].
  - destruct (ApiRoutes.searchParams_get searchParams "limit") as [v|];
      cbn; [|reflexivity].
    destruct (truthy v); [discriminate | reflexivity].
  - cbn [ApiRoutes.list_options ApiRoutes.page]. unfold ApiRoutes.or_default.
    destruct (ApiRoutes.searchParams_get searchParams "page") as [v|];
      cbn; [|reflexivity].
    destruct (truthy v); [discriminate | reflexivity].
  - intros result w2 E. rewrite E. reflexivity.
Qed.

(** X17. A route handler never throws once [isAuthorized] and the promise
    [params] resolve: whatever the storage adapter does, the handler
    returns a response. *)
Theorem route_handlers_never_throw :
  forall (W : Type)
         (collaborators : forall c : ApiRoutes.Call, W -> (Thrown + ApiRoutes.result c) * W)
         (parseInt : string -> JsNumber) (newDate : string -> Date) (now : Z)
         (config : Logger.State) (route : Route) (w : W),
    (forall w0, exists b, fst (collaborators ApiRoutes.IsAuthorized w0) = inr b) ->
    (forall w0, exists i, fst (collaborators ApiRoutes.Params w0) = inr i) ->
    exists response : ApiRoutes.Response,
      outcome (run collaborators (route_handler parseInt newDate now config route) w)
      = Returned response.
Proof.
  intros W collaborators parseInt newDate now config route w HA HP.
  destruct (HA w) as [b Hb].
  destruct route; cbn;
    destruct (collaborators ApiRoutes.IsAuthorized w) as [[?|b'] w1];
    cbn in Hb; try discriminate Hb; cbn;
    (destruct b'; cbn; [|eexists; reflexivity]);
    (destruct config as [cfg|]; cbn; [|eexists; reflexivity]).
  - destruct (collaborators _ w1) as [[?|?] ?]; cbn; eexists; reflexivity.
  - destruct (HP w1) as [i Hi].
    destruct (collaborators ApiRoutes.Params w1) as [[?|i'] w2];
      cbn in Hi; try discriminate Hi; cbn.
    destruct (collaborators _ w2) as [[?|[?|]] ?]; cbn; eexists; reflexivity.
  - destruct (HP w1) as [i Hi].
    destruct (collaborators ApiRoutes.Params w1) as [[?|i'] w2];
      cbn in Hi; try discriminate Hi; cbn.
    destruct (collaborators _ w2) as [[?|?] ?]; cbn; eexists; reflexivity.
  - repeat match goal with
           | |- context [collaborators (ApiRoutes.AdapterFindMany ?o) ?w0] =>
               destruct (collaborators (ApiRoutes.AdapterFindMany o) w0)
                 as [[?|?] ?]; cbn
           end; eexists; reflexivity.
Qed.

(** X18. When the storage adapter rejects, a route handler answers with
    status 500 and the fixed message of its route ('Failed to fetch logs',
    'Failed to fetch log', 'Failed to delete log', 'Failed to fetch
    stats'): what was thrown is written to the console and is no part of
    the response. *)
Theorem adapter_failure_is_a_generic_500 :
  forall (W : Type)
         (collaborators : forall c : ApiRoutes.Call, W -> (Thrown + ApiRoutes.result c) * W)
         (parseInt : string -> JsNumber) (newDate : string -> Date) (now : Z)
         (cfg : Logger.ErrorLoggerConfig) (route : Route) (e : Thrown) (w w1 : W),
    collaborators ApiRoutes.IsAuthorized w = (inr true, w1) ->
    (forall w0, exists i, fst (collaborators ApiRoutes.Params w0) = inr i) ->
    (forall c w0, is_adapter_call c = true -> fst (collaborators c w0) = inl e) ->
    let r := run collaborators
                 (route_handler parseInt newDate now (Some cfg) route) w in
    outcome r = Returned (ApiRoutes.json_error (failure_message route) 500)
    /\ console r = [api_error_line e].
Proof.
  intros W collaborators parseInt newDate now cfg route e w w1 HA HP HE.
  destruct route; cbn; rewrite HA; cbn.
  - pose proof (HE (ApiRoutes.AdapterFindMany
                      (ApiRoutes.list_options parseInt newDate searchParams)) w1 eq_refl) as E.
    destruct (collaborators _ w1) as [[?|?] ?]; cbn in E; try discriminate E.
    injection E as ->. cbn. split; reflexivity.
  - destruct (HP w1) as [i Hi].
    destruct (collaborators ApiRoutes.Params w1) as [[?|i'] w2];
      cbn in Hi; try discriminate Hi; cbn.
    pose proof (HE (ApiRoutes.AdapterFindById i') w2 eq_refl) as E.
    destruct (collaborators _ w2) as [[?|?] ?]; cbn in E; try discriminate E.
    injection E as ->. cbn. split; reflexivity.
  - destruct (HP w1) as [i Hi].
    destruct (collaborators ApiRoutes.Params w1) as [[?|i'] w2];
      cbn in Hi; try discriminate Hi; cbn.
    pose proof (HE (ApiRoutes.AdapterDelete i') w2 eq_refl) as E.
    destruct (collaborators _ w2) as [[?|?] ?]; cbn in E; try discriminate E.
    injection E as ->. cbn. split; reflexivity.
  - repeat match goal with
           | |- context [collaborators (ApiRoutes.AdapterFindMany ?o) ?w0] =>
               let E := fresh "E" in
               pose proof (HE (ApiRoutes.AdapterFindMany o) w0 eq_refl) as E;
               destruct (collaborators (ApiRoutes.AdapterFindMany o) w0)
                 as [[?|?] ?]; cbn in E; try discriminate E;
               injection E as ->; cbn
           end.
    split; reflexivity.
Qed.

(** X19. [GET] of the detail route asks the adapter for the id of the
    route, once, and answers with the entry and status 200 when there is
    one, with [{error: 'Not found'}] and status 404 when [findById]
    resolves to [null], and with status 500 when it rejects. *)
Theorem detail_get_answers :
  forall (W : Type)
         (collaborators : forall c : ApiRoutes.Call, W -> (Thrown + ApiRoutes.result c) * W)
         (cfg : Logger.ErrorLoggerConfig) (i : string) (w w1 w2 : W),
    collaborators ApiRoutes.IsAuthorized w = (inr true, w1) ->
    collaborators ApiRoutes.Params w1 = (inr i, w2) ->
    let r := run collaborators (ApiRoutes.createLogDetailAPIHandlers_GET (Some cfg)) w in
    calls r = [ApiRoutes.IsAuthorized; ApiRoutes.Params; ApiRoutes.AdapterFindById i]
    /\ outcome r
       = Returned (match fst (collaborators (ApiRoutes.AdapterFindById i) w2) with
                   | inr (Some log) => ApiRoutes.json (ApiRoutes.LogBody log)
                   | inr None => ApiRoutes.json_error "Not found" 404
                   | inl _ => ApiRoutes.json_error "Failed to fetch log" 500
                   end).
Proof.
  intros W collaborators cfg i w w1 w2 HA HP. cbn. rewrite HA. cbn.
  rewrite HP. cbn.
  destruct (collaborators (ApiRoutes.AdapterFindById i) w2) as [[?|[?|]] ?];
    cbn; split; reflexivity.
Qed.

(** ** [delete] on the reference backends *)

Lemma sql_delete_run :
  forall (config : Sql.SQLAdapterConfig) ilike select_reply (i : string)
         (t : SqlEngine.Table),
    run (SqlEngine.engine (Sql.dialect config) (Sql.table config) ilike select_reply)
        (Sql.delete config i) t
    = {| outcome := Returned tt;
         final := filter (fun r => negb (String.eqb (Sql.col_id r) i)) t;
         calls := [Sql.Execute ("DELETE FROM " ++ Sql.table config ++ " WHERE id = "
                                ++ Sql.ph config 1) [Sql.SqlText i]];
         console := [] |}.
Proof.
  intros config ilike select_reply i t. unfold Sql.delete, call.
  cbn [bind Monad_Prog pbind].
  rewrite run_act, engine_delete_by_id. reflexivity.
Qed.

Lemma drizzle_delete_run :
  forall like_match select_reply (i : string) (t : DrizzleDb.Table),
    run (DrizzleDb.db like_match select_reply) (Drizzle.delete i) t
    = {| outcome := Returned tt;
         final := filter (fun e => negb (String.eqb (id e) i)) t;
         calls := [Drizzle.DeleteWhere (Drizzle.eq Drizzle.ColId (Drizzle.OText i))];
         console := [] |}.
Proof. reflexivity. Qed.

Lemma prisma_delete_run :
  forall contains_insensitive findMany_reply (i : string) (t : PrismaClient.Table),
    run (PrismaClient.client contains_insensitive findMany_reply) (Prisma.delete i) t
    = {| outcome := match find (PrismaClient.has_id i) t with
                    | Some _ => Returned tt
                    | None => Threw PrismaClient.record_not_found
                    end;
         final := filter (fun e => negb (PrismaClient.has_id i e)) t;
         calls := [Prisma.Delete i];
         console := [] |}.
Proof.
  intros ci fr i t. unfold Prisma.delete, call. cbn [bind Monad_Prog pbind].
  rewrite run_act. cbn.
  destruct (find (PrismaClient.has_id i) t) eqn:E; cbn; [reflexivity|].
  rewrite filter_negb_none; [reflexivity|].
  clear -E. induction t as [|a t IH]; simpl in *; [reflexivity|].
  destruct (PrismaClient.has_id i a); [discriminate E | apply IH, E].
Qed.

Lemma run_detail_delete :
  forall (W : Type)
         (collaborators : forall c : ApiRoutes.Call, W -> (Thrown + ApiRoutes.result c) * W)
         (cfg : Logger.ErrorLoggerConfig) (i : string) (w w1 w2 : W),
    collaborators ApiRoutes.IsAuthorized w = (inr true, w1) ->
    collaborators ApiRoutes.Params w1 = (inr i, w2) ->
    let answer := collaborators (ApiRoutes.AdapterDelete i) w2 in
    run collaborators (ApiRoutes.createLogDetailAPIHandlers_DELETE (Some cfg)) w
    = {| outcome :=
           Returned (match fst answer with
                     | inr _ => ApiRoutes.json ApiRoutes.SuccessBody
                     | inl _ => ApiRoutes.json_error "Failed to delete log" 500
                     end);
         final := snd answer;
         calls := [ApiRoutes.IsAuthorized; ApiRoutes.Params; ApiRoutes.AdapterDelete i];
         console := match fst answer with
                    | inr _ => []
                    | inl e => [api_error_line e]
                    end |}.
Proof.
  intros W collaborators cfg i w w1 w2 HA HP answer.
  unfold ApiRoutes.createLogDetailAPIHandlers_DELETE.
  rewrite (run_guarded_authorized W collaborators cfg _ w w1 HA).
  cbn. rewrite HP. cbn. fold answer.
  destruct answer as [[?|?] ?]; reflexivity.
Qed.

(** X20. [DELETE] of the detail route does not look the entry up first:
    it calls [delete] of the adapter and answers [{success: true}] when
    that resolves.  For an id that no row has, the answer therefore is
    [{success: true}] with status 200 over the raw-SQL and the Drizzle
    adapter, and the failure with status 500 over the Prisma adapter,
    whose client rejects; the table is left as it is in each case. *)
Theorem detail_delete_of_a_missing_id :
  forall (cfg : Logger.ErrorLoggerConfig) (i : string),
    (forall (Number : string -> JsNumber) (config : Sql.SQLAdapterConfig)
            ilike select_reply (t : SqlEngine.Table),
        existsb (fun r => String.eqb (Sql.col_id r) i) t = false ->
        let r := run (detail_route (createSQLAdapter Number config)
                        (SqlEngine.engine (Sql.dialect config) (Sql.table config)
                           ilike select_reply) true i)
                     (ApiRoutes.createLogDetailAPIHandlers_DELETE (Some cfg)) t in
        outcome r = Returned (ApiRoutes.json ApiRoutes.SuccessBody)
        /\ final r = t)
    /\ (forall like_match select_reply (t : DrizzleDb.Table),
           existsb (fun e => String.eqb (id e) i) t = false ->
           let r := run (detail_route createDrizzleAdapter
                           (DrizzleDb.db like_match select_reply) true i)
                        (ApiRoutes.createLogDetailAPIHandlers_DELETE (Some cfg)) t in
           outcome r = Returned (ApiRoutes.json ApiRoutes.SuccessBody)
           /\ final r = t)
    /\ (forall contains_insensitive findMany_reply (t : PrismaClient.Table),
           existsb (PrismaClient.has_id i) t = false ->
           let r := run (detail_route createPrismaAdapter
                           (PrismaClient.client contains_insensitive findMany_reply)
                           true i)
                        (ApiRoutes.createLogDetailAPIHandlers_DELETE (Some cfg)) t in
           outcome r = Returned (ApiRoutes.json_error "Failed to delete log" 500)
           /\ final r = t).
Proof.
  intros cfg i. split; [|split].
  - intros Number config ilike select_reply t H.
    rewrite (run_detail_delete _ _ cfg i t t t eq_refl eq_refl).
    cbn [detail_route delete createSQLAdapter]. unfold settle_run.
    rewrite sql_delete_run. cbn.
    split; [reflexivity|]. apply filter_negb_none. exact H.
  - intros like_match select_reply t H.
    rewrite (run_detail_delete _ _ cfg i t t t eq_refl eq_refl).
    cbn [detail_route delete createDrizzleAdapter]. unfold settle_run.
    rewrite drizzle_delete_run. cbn.
    split; [reflexivity|]. apply filter_negb_none. exact H.
  - intros ci fr t H.
    rewrite (run_detail_delete _ _ cfg i t t t eq_refl eq_refl).
    cbn [detail_route delete createPrismaAdapter]. unfold settle_run.
    rewrite prisma_delete_run, (find_none _ _ _ H). cbn.
    split; [reflexivity|]. apply filter_negb_none. exact H.
Qed.

(** X21. For an authorized caller and an adapter that answers, the
    statistics are made of the totals of six [findMany] calls, each with
    [limit: 0]: one for each of the levels error, warn, info and debug,
    one without a filter, and one for the entries since 24 hours
    (86 400 000 ms) before now. *)
Theorem stats_are_six_counts :
  forall (W : Type)
         (collaborators : forall c : ApiRoutes.Call, W -> (Thrown + ApiRoutes.result c) * W)
         (now : Z) (cfg : Logger.ErrorLoggerConfig)
         (answer : ApiRoutes.FindManyArgs -> FindManyResult) (w : W),
    (forall w0, collaborators ApiRoutes.IsAuthorized w0 = (inr true, w0)) ->
    (forall o w0, collaborators (ApiRoutes.AdapterFindMany o) w0 = (inr (answer o), w0)) ->
    let r := run collaborators (ApiRoutes.createLogStatsHandler now (Some cfg)) w in
    let count level_ since := total (answer (ApiRoutes.count_only level_ since)) in
    let recent := Some (ValidDate (now - 86400000)) in
    outcome r
    = Returned (ApiRoutes.json
                  (ApiRoutes.StatsBody (count None None)
                     {| ApiRoutes.error := count (Some "error") None;
                        ApiRoutes.warn := count (Some "warn") None;
                        ApiRoutes.info := count (Some "info") None;
                        ApiRoutes.debug := count (Some "debug") None |}
                     (count None recent)))
    /\ calls r
       = ApiRoutes.IsAuthorized :: stats_counts
         ++ [ApiRoutes.AdapterFindMany (ApiRoutes.count_only None recent)]
    /\ Forall (fun c => match c with
                        | ApiRoutes.AdapterFindMany o =>
                            ApiRoutes.limit o = Some (JsNum 0)
                            /\ ApiRoutes.page o = None
                        | _ => True
                        end) (calls r).
Proof.
  intros W collaborators now cfg answer w HA HF.
  assert (C : calls (run collaborators (ApiRoutes.createLogStatsHandler now (Some cfg)) w)
              = ApiRoutes.IsAuthorized :: stats_counts
                ++ [ApiRoutes.AdapterFindMany
                      (ApiRoutes.count_only None (Some (ValidDate (now - 86400000))))]).
  { unfold ApiRoutes.createLogStatsHandler.
    rewrite (run_guarded_authorized W collaborators cfg _ w w (HA w)).
    cbn [calls]. unfold settle, call.
    cbn [bind ret catch Monad_Prog MonadExc_Prog pbind try_catch].
    repeat (rewrite calls_act, HF;
            cbn [fst snd pbind try_catch ApiRoutes.then_total
                 ApiRoutes.promise_all5 await]).
    reflexivity. }
  cbv zeta. rewrite C. split; [|split; [reflexivity | repeat constructor]].
  unfold ApiRoutes.createLogStatsHandler.
  rewrite (run_guarded_authorized W collaborators cfg _ w w (HA w)).
  cbn [outcome]. unfold settle, call.
  cbn [bind ret catch Monad_Prog MonadExc_Prog pbind try_catch].
  repeat (rewrite outcome_act, HF;
          cbn [fst snd pbind try_catch ApiRoutes.then_total
               ApiRoutes.promise_all5 await]).
  reflexivity.
Qed.

(** X22. The statistics start their first five counts together: all five
    are asked of the adapter, in their order, whatever the answers, also
    when one of them rejects.  When one of the five rejected, whichever it
    is, the sixth count is not asked and the answer is the failure with
    status 500; when all five resolved, the sixth count, that of the last
    24 hours, is asked next. *)
Theorem stats_start_five_counts_together :
  forall (W : Type)
         (collaborators : forall c : ApiRoutes.Call, W -> (Thrown + ApiRoutes.result c) * W)
         (now : Z) (cfg : Logger.ErrorLoggerConfig) (w w1 w2 w3 w4 w5 w6 : W)
         (x1 x2 x3 x4 x5 : Thrown + FindManyResult),
    collaborators ApiRoutes.IsAuthorized w = (inr true, w1) ->
    collaborators (ApiRoutes.AdapterFindMany
                     (ApiRoutes.count_only (Some "error") None)) w1 = (x1, w2) ->
    collaborators (ApiRoutes.AdapterFindMany
                     (ApiRoutes.count_only (Some "warn") None)) w2 = (x2, w3) ->
    collaborators (ApiRoutes.AdapterFindMany
                     (ApiRoutes.count_only (Some "info") None)) w3 = (x3, w4) ->
    collaborators (ApiRoutes.AdapterFindMany
                     (ApiRoutes.count_only (Some "debug") None)) w4 = (x4, w5) ->
    collaborators (ApiRoutes.AdapterFindMany
                     (ApiRoutes.count_only None None)) w5 = (x5, w6) ->
    let r := run collaborators (ApiRoutes.createLogStatsHandler now (Some cfg)) w in
    let recent :=
      ApiRoutes.AdapterFindMany
        (ApiRoutes.count_only None (Some (ValidDate (now - 86400000)))) in
    firstn 6 (calls r) = ApiRoutes.IsAuthorized :: stats_counts
    /\ if existsb is_rejected [x1; x2; x3; x4; x5]
       then calls r = ApiRoutes.IsAuthorized :: stats_counts
            /\ outcome r
               = Returned (ApiRoutes.json_error "Failed to fetch stats" 500)
       else calls r = (ApiRoutes.IsAuthorized :: stats_counts ++ [recent])%list.
Proof.
  intros W collaborators now cfg w w1 w2 w3 w4 w5 w6 x1 x2 x3 x4 x5
         HA H1 H2 H3 H4 H5 r recent. subst r recent.
  unfold ApiRoutes.createLogStatsHandler.
  rewrite (run_guarded_authorized W collaborators cfg _ w w1 HA).
  cbn [outcome calls]. unfold settle, call.
  cbn [bind ret catch Monad_Prog MonadExc_Prog pbind try_catch].
  rewrite calls_act, outcome_act, H1. cbn [fst snd pbind try_catch].
  rewrite calls_act, outcome_act, H2. cbn [fst snd pbind try_catch].
  rewrite calls_act, outcome_act, H3. cbn [fst snd pbind try_catch].
  rewrite calls_act, outcome_act, H4. cbn [fst snd pbind try_catch].
  rewrite calls_act, outcome_act, H5. cbn [fst snd pbind try_catch].
  destruct x1, x2, x3, x4, x5; cbn; try (repeat split; reflexivity);
    destruct (collaborators _ w6) as [[?|?] ?]; cbn; split; reflexivity.
Qed.

(** X30. [DELETE] of the list route never throws once [isAuthorized]
    resolves: whatever the body of the request and whatever the adapter
    does, it returns a response.  A body that parses to [null] is not read
    as [{}]: reading its property throws inside the [try], the adapter is
    not called, and the answer is 'Failed to delete logs' with status
    500. *)
Theorem list_delete_never_throws :
  forall (W : Type)
         (collaborators : forall c : Api.Call, W -> (Thrown + Api.result c) * W)
         (newDate : Json -> Date) (config : Logger.State) (w : W),
    (exists b, fst (collaborators Api.IsAuthorized w) = inr b) ->
    let r := run collaborators (Api.DELETE newDate config) w in
    (exists response : Api.Response, outcome r = Returned response)
    /\ (forall cfg w1 w2,
           config = Some cfg ->
           collaborators Api.IsAuthorized w = (inr true, w1) ->
           collaborators Api.RequestJson w1 = (inr JNull, w2) ->
           outcome r = Returned (Api.json_error "Failed to delete logs" 500)
           /\ calls r = [Api.IsAuthorized; Api.RequestJson]).
Proof.
  intros W collaborators newDate config w [b Hb]. split.
  - unfold Api.DELETE. cbn.
    destruct (collaborators Api.IsAuthorized w) as [[e|b'] w1];
      cbn in Hb; try discriminate Hb; cbn.
    destruct b'; cbn; [|eexists; reflexivity].
    destruct config as [cfg|]; cbn; [|eexists; reflexivity].
    destruct (collaborators Api.RequestJson w1) as [[e|body] w2]; cbn.
    + destruct (collaborators _ w2) as [[?|?] ?]; cbn; eexists; reflexivity.
    + destruct body as [ |b0|z|s|items|fields]; cbn;
        try (eexists; reflexivity);
        try (destruct (collaborators _ w2) as [[?|?] ?]; cbn;
             eexists; reflexivity).
      unfold Api.new_Date.
      destruct (Api.lookup fields "before") as [v|];
        [destruct (Api.truthy_json (Some v)); [destruct (Api.converts v)|]|];
        cbn; try (eexists; reflexivity);
        destruct (collaborators _ w2) as [[?|?] ?]; cbn; eexists; reflexivity.
  - intros cfg w1 w2 -> HA HJ.
    unfold Api.DELETE. cbn. rewrite HA. cbn. rewrite HJ. cbn.
    split; reflexivity.
Qed.

(** ** [create] of the raw-SQL adapter on the engine *)

Lemma skip_blanks_app :
  forall b s, all_chars SqlEngine.is_blank b = true ->
              SqlStore.skip_blanks (b ++ s) = SqlStore.skip_blanks s.
Proof.
  induction b as [|c b IH]; intros s H; simpl in *.
  - reflexivity.
  - apply andb_true_iff in H. destruct H as [Hc Hb].
    rewrite Hc. apply IH. exact Hb.
Qed.

Lemma as_insert_statement :
  forall (table b rest : string),
    all_chars SqlEngine.is_blank b = true ->
    SqlStore.as_insert table (b ++ "INSERT INTO " ++ table ++ " " ++ rest)
    = Some rest.
Proof.
  intros table b rest H. unfold SqlStore.as_insert.
  rewrite (skip_blanks_app b _ H).
  change (SqlStore.skip_blanks ("INSERT INTO " ++ table ++ " " ++ rest))
    with ("INSERT INTO " ++ table ++ " " ++ rest)%string.
  apply strip_table.
Qed.

(** The columns of the two [INSERT] statements of [create], each with the
    parameter its placeholder denotes. *)
Lemma create_statements_read :
  forall (config : Sql.SQLAdapterConfig),
  exists rest : string,
    SqlStore.as_insert (Sql.table config)
      (match Sql.dialect config with
       | Sql.Postgres => SqlCreate.returning_sql config
       | Sql.Mysql | Sql.Sqlite => SqlCreate.insert_sql config
       end) = Some rest
    /\ forall v1 v2 v3 v4 v5 v6 v7 v8 v9 v10 v11 v12 v13,
        SqlStore.parse_insert (Sql.dialect config) rest
          [v1; v2; v3; v4; v5; v6; v7; v8; v9; v10; v11; v12; v13]
        = Some {| SqlStore.assignments :=
                    [("id", v1); ("level", v2); ("message", v3); ("stack", v4);
                     ("user_id", v5); ("user_email", v6); ("user_name", v7);
                     ("path", v8); ("method", v9); ("user_agent", v10);
                     ("ip", v11); ("metadata", v12); ("created_at", v13)];
                  SqlStore.returning :=
                    match Sql.dialect config with
                    | Sql.Postgres => true
                    | Sql.Mysql | Sql.Sqlite => false
                    end |}.
Proof.
  intros [tn d].
  set (config := {| Sql.tableName := tn; Sql.dialect := d |}).
  destruct d; cbn [Sql.dialect]; eexists; split.
  - change (SqlCreate.returning_sql config)
      with ((nl ++ "        ") ++ "INSERT INTO " ++ Sql.table config ++ " " ++
            ("(" ++ nl ++
  "          id, level, message, stack, user_id, user_email, user_name," ++ nl ++
  "          path, method, user_agent, ip, metadata, created_at" ++ nl ++
  "        ) VALUES (" ++ nl ++
  "          $1, $2, $3, $4, $5, $6, $7," ++ nl ++
  "          $8, $9, $10, $11, $12, $13" ++ nl ++
  "        ) RETURNING *" ++ nl ++
  "      "))%string.
    apply as_insert_statement. reflexivity.
  - intros. vm_compute. reflexivity.
  - change (SqlCreate.insert_sql config)
      with ((nl ++ "          ") ++ "INSERT INTO " ++ Sql.table config ++ " " ++
            ("(" ++ nl ++
  "            id, level, message, stack, user_id, user_email, user_name," ++ nl ++
  "            path, method, user_agent, ip, metadata, created_at" ++ nl ++
  "          ) VALUES (?, ?, ?, ?, ?, ?, ?, ?, ?, ?, ?, ?, ?)" ++ nl ++
  "        "))%string.
    apply as_insert_statement. reflexivity.
  - intros. vm_compute. reflexivity.
  - change (SqlCreate.insert_sql config)
      with ((nl ++ "          ") ++ "INSERT INTO " ++ Sql.table config ++ " " ++
            ("(" ++ nl ++
  "            id, level, message, stack, user_id, user_email, user_name," ++ nl ++
  "            path, method, user_agent, ip, metadata, created_at" ++ nl ++
  "          ) VALUES (?, ?, ?, ?, ?, ?, ?, ?, ?, ?, ?, ?, ?)" ++ nl ++
  "        "))%string.
    apply as_insert_statement. reflexivity.
  - intros. vm_compute. reflexivity.
Qed.

Lemma level_column_level :
  forall l : LogLevel,
    SqlStore.level_column (Some (Sql.SqlText (level_string l))) = Some l.
Proof. intros []; reflexivity. Qed.

Lemma text_column_nullable :
  forall o : option string,
    SqlStore.text_column (Some (SqlCreate.nullable o)) = Some o.
Proof. intros [s|]; reflexivity. Qed.

(** The row the engine makes of the parameters of [create]. *)
Lemma row_of_create_params :
  forall (stringify : Json -> string) (read_json : string -> option Json)
         (i : string) (now : Z) (e : NewEntry),
    SqlStore.row_of read_json
      (combine ["id"; "level"; "message"; "stack"; "user_id"; "user_email";
                "user_name"; "path"; "method"; "user_agent"; "ip"; "metadata";
                "created_at"]%string
               (SqlCreate.create_params stringify i now e))
    = Some (inserted_row stringify read_json i now e).
Proof.
  intros stringify read_json i now e.
  unfold SqlStore.row_of, SqlCreate.create_params.
  cbn -[SqlStore.level_column SqlStore.text_column SqlStore.json_column
        SqlCreate.nullable level_string Api.truthy_json].
  rewrite level_column_level, !text_column_nullable.
  unfold inserted_row, stored_metadata.
  destruct (new_metadata e) as [m|]; [|reflexivity].
  destruct (Api.truthy_json (Some m)); reflexivity.
Qed.

Lemma filter_fresh :
  forall (A : Type) (p : A -> bool) (t : list A) (x : A),
    existsb p t = false ->
    filter p (t ++ [x]) = if p x then [x] else [].
Proof.
  intros A p t x H. rewrite filter_app.
  replace (filter p t) with (@nil A).
  - reflexivity.
  - symmetry. induction t as [|a t IH]; simpl in *; [reflexivity|].
    apply orb_false_iff in H. destruct H as [Ha Ht].
    rewrite Ha. apply IH. exact Ht.
Qed.

(** The engine on the [INSERT] of [create], for an id that is new. *)
Lemma store_insert :
  forall (stringify : Json -> string) (read_json : string -> option Json)
         (config : Sql.SQLAdapterConfig) (i : string) (now : Z) (e : NewEntry)
         (t : SqlStore.Table),
    existsb (fun r => String.eqb (Sql.col_id r) i) t = false ->
    exists rest : string,
      SqlStore.as_insert (Sql.table config)
        (match Sql.dialect config with
         | Sql.Postgres => SqlCreate.returning_sql config
         | Sql.Mysql | Sql.Sqlite => SqlCreate.insert_sql config
         end) = Some rest
      /\ SqlStore.insert (Sql.dialect config) read_json rest
           (SqlCreate.create_params stringify i now e) t
         = inr (inserted_row stringify read_json i now e,
                match Sql.dialect config with
                | Sql.Postgres => true
                | Sql.Mysql | Sql.Sqlite => false
                end).
Proof.
  intros stringify read_json config i now e t H.
  destruct (create_statements_read config) as (rest & Hr & Hp).
  exists rest. split; [exact Hr|].
  unfold SqlStore.insert.
  unfold SqlCreate.create_params at 1. rewrite Hp.
  cbn [SqlStore.assignments SqlStore.returning].
  change [("id", _); _; _; _; _; _; _; _; _; _; _; _; _]
    with (combine ["id"; "level"; "message"; "stack"; "user_id"; "user_email";
                   "user_name"; "path"; "method"; "user_agent"; "ip"; "metadata";
                   "created_at"]%string
                  (SqlCreate.create_params stringify i now e)).
  rewrite row_of_create_params.
  cbn [inserted_row Sql.col_id]. rewrite H. reflexivity.
Qed.

(** The engine on the [SELECT] by id of [findById] and of [create]. *)
Lemma store_select_by_id :
  forall (config : Sql.SQLAdapterConfig) ilike read_json select_reply
         (i : string) (t : SqlStore.Table),
    SqlStore.engine (Sql.dialect config) (Sql.table config) ilike read_json
      select_reply
      (Sql.QueryRows ("SELECT * FROM " ++ Sql.table config ++ " WHERE id = "
                      ++ Sql.ph config 1) [Sql.SqlText i]) t
    = (inr (filter (fun r => String.eqb (Sql.col_id r) i) t), t).
Proof.
  intros config ilike read_json select_reply i t.
  unfold SqlStore.engine.
  change (SqlStore.as_insert (Sql.table config) _) with (@None string).
  change ("SELECT * FROM " ++ Sql.table config ++ " WHERE id = " ++ Sql.ph config 1)
    with ("SELECT * FROM " ++ Sql.table config ++ " " ++ "WHERE id = " ++ Sql.ph config 1).
  rewrite strip_table, compile_where_id.
  rewrite (filter_ext _ _ (clause_holds_id ilike i)). reflexivity.
Qed.

Lemma store_insert_returning :
  forall (stringify : Json -> string) (read_json : string -> option Json)
         (config : Sql.SQLAdapterConfig) ilike select_reply
         (i : string) (now : Z) (e : NewEntry) (t : SqlStore.Table),
    existsb (fun r => String.eqb (Sql.col_id r) i) t = false ->
    Sql.dialect config = Sql.Postgres ->
    SqlStore.engine (Sql.dialect config) (Sql.table config) ilike read_json
      select_reply
      (Sql.QueryRows (SqlCreate.returning_sql config)
         (SqlCreate.create_params stringify i now e)) t
    = (inr [inserted_row stringify read_json i now e],
       (t ++ [inserted_row stringify read_json i now e])%list).
Proof.
  intros stringify read_json config ilike select_reply i now e t H D.
  destruct (store_insert stringify read_json config i now e t H)
    as (rest & Hr & Hi).
  rewrite D in Hr, Hi. unfold SqlStore.engine. rewrite D, Hr, Hi. reflexivity.
Qed.

Lemma store_insert_plain :
  forall (stringify : Json -> string) (read_json : string -> option Json)
         (config : Sql.SQLAdapterConfig) ilike select_reply
         (i : string) (now : Z) (e : NewEntry) (t : SqlStore.Table),
    existsb (fun r => String.eqb (Sql.col_id r) i) t = false ->
    Sql.dialect config <> Sql.Postgres ->
    SqlStore.engine (Sql.dialect config) (Sql.table config) ilike read_json
      select_reply
      (Sql.Execute (SqlCreate.insert_sql config)
         (SqlCreate.create_params stringify i now e)) t
    = (inr 1, (t ++ [inserted_row stringify read_json i now e])%list)
    /\ SqlCreate.select_sql config
       = ("SELECT * FROM " ++ Sql.table config ++ " WHERE id = "
          ++ Sql.ph config 1)%string.
Proof.
  intros stringify read_json config ilike select_reply i now e t H D.
  destruct (store_insert stringify read_json config i now e t H)
    as (rest & Hr & Hi).
  unfold SqlStore.engine, SqlCreate.select_sql, Sql.ph.
  destruct (Sql.dialect config); [congruence| |];
    rewrite Hr, Hi; split; reflexivity.
Qed.

(** The run of [create] on the engine, for an id that is new. *)
Lemma sql_create_run :
  forall (stringify : Json -> string) (read_json : string -> option Json)
         (config : Sql.SQLAdapterConfig) ilike select_reply
         (i : string) (now : Z) (e : NewEntry) (t : SqlStore.Table),
    existsb (fun r => String.eqb (Sql.col_id r) i) t = false ->
    let row := inserted_row stringify read_json i now e in
    let r := run (SqlStore.engine (Sql.dialect config) (Sql.table config) ilike
                    read_json select_reply)
                 (SqlCreate.create stringify config i now e) t in
    outcome r = Returned (Sql.toCamelCase row)
    /\ final r = (t ++ [row])%list
    /\ length (calls r) = match Sql.dialect config with
                          | Sql.Postgres => 1%nat
                          | Sql.Mysql | Sql.Sqlite => 2%nat
                          end.
Proof.
  intros stringify read_json config ilike select_reply i now e t H row r.
  subst r.
  pose proof (store_select_by_id config ilike read_json select_reply i
                (t ++ [row])%list) as Hs.
  assert (F : filter (fun r => String.eqb (Sql.col_id r) i) (t ++ [row]) = [row]).
  { rewrite (filter_fresh _ _ t row H). cbn. rewrite String.eqb_refl. reflexivity. }
  rewrite F in Hs. clear F.
  pose proof (store_insert_returning stringify read_json config ilike
                select_reply i now e t H) as Hp.
  pose proof (store_insert_plain stringify read_json config ilike
                select_reply i now e t H) as Hm.
  fold row in Hp, Hm.
  unfold SqlCreate.create, call.
  destruct (Sql.dialect config) eqn:D;
    cbn [bind Monad_Prog pbind]; rewrite run_act.
  - rewrite (Hp eq_refl). cbn. repeat split.
  - destruct (Hm ltac:(discriminate)) as [-> ->].
    cbn [fst snd await pbind]. rewrite run_act, Hs. cbn. repeat split.
  - destruct (Hm ltac:(discriminate)) as [-> ->].
    cbn [fst snd await pbind]. rewrite run_act, Hs. cbn. repeat split.
Qed.

(** X23. Round trip through the raw-SQL adapter: [create] with an id that is
    new to the table adds one row and returns it as an entry with the
    fields of the entry given, the id and the time drawn, each under the
    column of its name, in every dialect (with [RETURNING] under postgres,
    with a second statement that selects the row under mysql and sqlite);
    [findById] with that id then returns the same entry. *)
Theorem sql_create_then_findById :
  forall (stringify : Json -> string) (read_json : string -> option Json)
         (Number : string -> JsNumber) (config : Sql.SQLAdapterConfig)
         ilike select_reply (i : string) (now : Z) (e : NewEntry)
         (t : SqlStore.Table),
    existsb (fun r => String.eqb (Sql.col_id r) i) t = false ->
    let row := inserted_row stringify read_json i now e in
    let r := run (SqlStore.engine (Sql.dialect config) (Sql.table config) ilike
                    read_json select_reply)
                 (made <- SqlCreate.create stringify config i now e ;;
                  found <- findById (createSQLAdapter Number config) i ;;
                  ret (made, found)) t in
    outcome r = Returned (Sql.toCamelCase row, Some (Sql.toCamelCase row))
    /\ final r = (t ++ [row])%list
    /\ Sql.toCamelCase row
       = {| id := i; level := new_level e; message := new_message e;
            stack := new_stack e; userId := new_userId e;
            userEmail := new_userEmail e; userName := new_userName e;
            path := new_path e; method := new_method e;
            userAgent := new_userAgent e; ip := new_ip e;
            metadata := stored_metadata stringify read_json (new_metadata e);
            createdAt := ValidDate now |}.
Proof.
  intros stringify read_json Number config ilike select_reply i now e t H row r.
  subst r.
  destruct (sql_create_run stringify read_json config ilike select_reply
              i now e t H) as (Ho & Hf & _).
  fold row in Ho, Hf.
  pose proof (store_select_by_id config ilike read_json select_reply i
                (t ++ [row])%list) as Hs.
  assert (F : filter (fun r => String.eqb (Sql.col_id r) i) (t ++ [row]) = [row]).
  { rewrite (filter_fresh _ _ t row H). cbn. rewrite String.eqb_refl. reflexivity. }
  rewrite F in Hs. clear F.
  cbn [bind Monad_Prog].
  rewrite run_pbind. cbn zeta. rewrite Ho, Hf. cbn [findById createSQLAdapter].
  unfold Sql.findById, call. cbn [bind Monad_Prog pbind].
  rewrite run_act, Hs. cbn. repeat split.
Qed.

(** X24. [create] of the raw-SQL adapter, on any executor.  Under postgres
    it sends one statement, the [INSERT] with [RETURNING], through [query];
    under mysql and sqlite it sends the plain [INSERT] through [execute]
    and then selects the row by its id, and when the [INSERT] is rejected
    the rejection is thrown and nothing is selected.  In every dialect the
    statement has the thirteen parameters of its thirteen columns, and
    when the executor hands back no row [create] throws a [TypeError]
    instead of returning. *)
Theorem sql_create_by_dialect :
  forall (stringify : Json -> string) (config : Sql.SQLAdapterConfig) (W : Type)
         (executor : forall c : Sql.Call, W -> (Thrown + Sql.result c) * W)
         (i : string) (now : Z) (e : NewEntry) (w : W),
    let r := run executor (SqlCreate.create stringify config i now e) w in
    let params := SqlCreate.create_params stringify i now e in
    let first (answer : Thrown + list Sql.DbRow) : Outcome ErrorLogEntry :=
      match answer with
      | inl err => Threw err
      | inr [] => Threw SqlCreate.undefined_row
      | inr (row :: _) => Returned (Sql.toCamelCase row)
      end in
    length params = 13%nat
    /\ match Sql.dialect config with
       | Sql.Postgres =>
           let insert := Sql.QueryRows (SqlCreate.returning_sql config) params in
           calls r = [insert] /\ outcome r = first (fst (executor insert w))
       | Sql.Mysql | Sql.Sqlite =>
           let insert := Sql.Execute (SqlCreate.insert_sql config) params in
           let select := Sql.QueryRows (SqlCreate.select_sql config) [Sql.SqlText i] in
           match fst (executor insert w) with
           | inl err => calls r = [insert] /\ outcome r = Threw err
           | inr _ =>
               calls r = [insert; select]
               /\ outcome r = first (fst (executor select (snd (executor insert w))))
           end
       end.
Proof.
  intros stringify config W executor i now e w.
  cbv zeta. split; [reflexivity|].
  unfold SqlCreate.create, call.
  destruct (Sql.dialect config); cbn [bind Monad_Prog pbind]; rewrite run_act.
  - destruct (executor _ w) as [[err|[|row rows]] w1]; cbn; split; reflexivity.
  - destruct (executor _ w) as [[err|n] w1]; cbn [fst snd await pbind].
    + split; reflexivity.
    + rewrite run_act.
      destruct (executor _ w1) as [[err|[|row rows]] w2]; cbn; split; reflexivity.
  - destruct (executor _ w) as [[err|n] w1]; cbn [fst snd await pbind].
    + split; reflexivity.
    + rewrite run_act.
      destruct (executor _ w1) as [[err|[|row rows]] w2]; cbn; split; reflexivity.
Qed.

(** X25. The raw-SQL adapter turns dates into text with [toISOString]
    while it collects its parameters: with an invalid [startDate] or
    [endDate], [findMany] throws a [RangeError] before any statement is
    sent, and so does [deleteMany] with an invalid [before]. *)
Theorem sql_invalid_date_throws_before_any_statement :
  forall (Number : string -> JsNumber) (config : Sql.SQLAdapterConfig) (W : Type)
         (executor : forall c : Sql.Call, W -> (Thrown + Sql.result c) * W)
         (w : W),
    (forall o : QueryOptions,
        dates_valid o = false ->
        let r := run executor (findMany (createSQLAdapter Number config) o) w in
        outcome r = Threw (ThrowError "Invalid time value")
        /\ calls r = [] /\ final r = w)
    /\ (forall o : DeleteManyOptions,
           date_valid (d_before o) = false ->
           let r := run executor (deleteMany (createSQLAdapter Number config) o) w in
           outcome r = Threw (ThrowError "Invalid time value")
           /\ calls r = [] /\ final r = w).
Proof.
  intros Number config W executor w. split.
  - intros [pg lm lv us se sd ed ob od] H.
    unfold dates_valid in H. cbn [q_startDate q_endDate] in H.
    cbn [findMany createSQLAdapter]. unfold Sql.findMany, Sql.findMany_builder.
    cbn [q_startDate q_endDate q_level q_userId q_search].
    destruct sd as [[ms1|]|]; destruct ed as [[ms2|]|]; try discriminate H;
      cbn; repeat split.
  - intros [bf lv] H. cbn [d_before] in H.
    destruct bf as [[ms|]|]; try discriminate H.
    cbn. repeat split.
Qed.

(** ** [deleteMany] on the reference backends *)

Lemma prisma_delete_where_matches :
  forall contains_insensitive (o : DeleteManyOptions) (e : ErrorLogEntry),
    PrismaClient.where_holds contains_insensitive (Prisma.deleteMany_where o) e
    = delete_matches o e.
Proof.
  intros ci [bf lv] e. unfold Prisma.deleteMany_where, delete_matches.
  destruct bf as [bf|]; destruct lv as [lv|]; simpl;
    unfold PrismaClient.where_holds, PrismaClient.date_filter_holds; simpl;
    flatten_bool; first [reflexivity | apply andb_comm].
Qed.

Lemma drizzle_delete_where_matches :
  forall like_match (o : DeleteManyOptions),
    has_filter o = true ->
    exists c,
      Drizzle.whereCondition (Drizzle.deleteMany_conditions o) = Some c
      /\ forall e, DrizzleDb.holds like_match c e = delete_matches o e.
Proof.
  intros lk [bf lv] H. unfold has_filter in H. simpl in H.
  destruct bf as [bf|]; destruct lv as [lv|]; try discriminate H;
    eexists; (split; [reflexivity|]); intros e;
    unfold delete_matches; simpl; flatten_bool; reflexivity.
Qed.

Lemma sql_delete_where_matches :
  forall (config : Sql.SQLAdapterConfig) ilike (o : DeleteManyOptions),
    has_filter o = true ->
    date_valid (d_before o) = true ->
    exists b c rest p,
      Sql.deleteMany_builder config o = Ret b
      /\ Sql.conditions b = c :: rest
      /\ SqlEngine.compile_where (Sql.dialect config) ilike
           ("WHERE " ++ join " AND " (Sql.conditions b)) (Sql.params b) = Some p
      /\ forall r, p r = delete_matches o (Sql.toCamelCase r).
Proof.
  intros [tn d] ilike [bf lv] H V. unfold has_filter in H. simpl in H, V.
  destruct bf as [[ms|]|]; try discriminate V;
    destruct lv as [lv|]; try discriminate H;
    destruct d;
    unfold Sql.deleteMany_builder; simpl;
    (eexists; eexists; eexists; eexists; split; [reflexivity|]; split;
     [reflexivity|]; split;
     [ cbv -[SqlEngine.clause_holds level_string]; reflexivity
     | intros r; unfold delete_matches; simpl;
       unfold SqlEngine.clause_holds, SqlEngine.atom_holds; simpl;
       flatten_bool; reflexivity ]).
Qed.

(** The engine on a [DELETE] with a [WHERE] clause it reads. *)
Lemma engine_delete_where :
  forall (config : Sql.SQLAdapterConfig) ilike select_reply (clause : string)
         (ps : list Sql.SqlValue) (p : Sql.DbRow -> bool) (t : SqlEngine.Table),
    SqlEngine.compile_where (Sql.dialect config) ilike ("WHERE " ++ clause) ps
    = Some p ->
    SqlEngine.engine (Sql.dialect config) (Sql.table config) ilike select_reply
      (Sql.Execute ("DELETE FROM " ++ Sql.table config ++ " WHERE " ++ clause) ps) t
    = (inr (count_where p t), filter (fun r => negb (p r)) t).
Proof.
  intros config ilike select_reply clause ps p t H. unfold SqlEngine.engine.
  change ("DELETE FROM " ++ Sql.table config ++ " WHERE " ++ clause)
    with ("DELETE FROM " ++ Sql.table config ++ " " ++ "WHERE " ++ clause).
  rewrite strip_table, H. reflexivity.
Qed.

Lemma prisma_delete_where_accepted :
  forall contains_insensitive (o : DeleteManyOptions),
    PrismaClient.accepts contains_insensitive (Prisma.deleteMany_where o) = true.
Proof.
  intros ci [bf lv]. destruct ci, bf, lv; reflexivity.
Qed.

Lemma prisma_deleteMany_run :
  forall contains_insensitive findMany_reply (o : DeleteManyOptions)
         (t : PrismaClient.Table),
    let r := run (PrismaClient.client contains_insensitive findMany_reply)
                 (Prisma.deleteMany o) t in
    outcome r = Returned (count_where (delete_matches o) t)
    /\ final r = filter (fun e => negb (delete_matches o e)) t.
Proof.
  intros ci fr o t. unfold Prisma.deleteMany, call. rewrite run_act.
  unfold PrismaClient.client. rewrite prisma_delete_where_accepted.
  cbn -[PrismaClient.where_holds].
  rewrite (count_where_ext _ _ _ t (prisma_delete_where_matches ci o)).
  rewrite (filter_negb_ext _ _ _ t (prisma_delete_where_matches ci o)).
  split; reflexivity.
Qed.

Lemma drizzle_deleteMany_run :
  forall like_match select_reply (o : DeleteManyOptions) (t : DrizzleDb.Table),
    has_filter o = true ->
    let r := run (DrizzleDb.db like_match select_reply) (Drizzle.deleteMany o) t in
    outcome r = Returned (count_where (delete_matches o) t)
    /\ final r = filter (fun e => negb (delete_matches o e)) t.
Proof.
  intros lk sr o t H.
  destruct (drizzle_delete_where_matches lk o H) as (c & Hc & Hm).
  unfold Drizzle.deleteMany, call. rewrite Hc.
  cbn [bind Monad_Prog pbind]. rewrite run_act.
  cbn -[DrizzleDb.holds].
  rewrite (count_where_ext _ _ _ t Hm), (filter_negb_ext _ _ _ t Hm).
  split; reflexivity.
Qed.

Lemma sql_deleteMany_run :
  forall (config : Sql.SQLAdapterConfig) ilike select_reply
         (o : DeleteManyOptions) (t : SqlEngine.Table),
    has_filter o = true ->
    date_valid (d_before o) = true ->
    let r := run (SqlEngine.engine (Sql.dialect config) (Sql.table config)
                    ilike select_reply)
                 (Sql.deleteMany config o) t in
    outcome r = Returned (count_where (fun row => delete_matches o (Sql.toCamelCase row)) t)
    /\ final r = filter (fun row => negb (delete_matches o (Sql.toCamelCase row))) t.
Proof.
  intros config ilike sr o t H V.
  destruct (sql_delete_where_matches config ilike o H V)
    as (b & c & rest & p & Hb & Hc & Hw & Hp).
  unfold Sql.deleteMany. rewrite Hb. cbn [bind Monad_Prog pbind].
  rewrite Hc, <- Hc. unfold call. rewrite run_act.
  rewrite (engine_delete_where config ilike sr _ _ p t Hw).
  cbn. rewrite (count_where_ext _ _ _ t Hp), (filter_negb_ext _ _ _ t Hp).
  split; reflexivity.
Qed.

(** X26. [deleteMany] with at least one filter deletes exactly the rows its
    filters select (those created before [before], of the level [level])
    and returns how many they were; the other rows stay, in their order.
    This holds for each adapter on its reference backend; for raw SQL the
    date must be valid, and the Prisma adapter does the same without any
    filter, when every row is selected. *)
Theorem deleteMany_deletes_the_selected_rows :
  forall o : DeleteManyOptions,
    (forall contains_insensitive findMany_reply (t : PrismaClient.Table),
        let r := run (PrismaClient.client contains_insensitive findMany_reply)
                     (deleteMany createPrismaAdapter o) t in
        outcome r = Returned (count_where (delete_matches o) t)
        /\ final r = filter (fun e => negb (delete_matches o e)) t)
    /\ (has_filter o = true ->
        forall like_match select_reply (t : DrizzleDb.Table),
          let r := run (DrizzleDb.db like_match select_reply)
                       (deleteMany createDrizzleAdapter o) t in
          outcome r = Returned (count_where (delete_matches o) t)
          /\ final r = filter (fun e => negb (delete_matches o e)) t)
    /\ (has_filter o = true ->
        date_valid (d_before o) = true ->
        forall Number (config : Sql.SQLAdapterConfig) ilike select_reply
               (t : SqlEngine.Table),
          let r := run (SqlEngine.engine (Sql.dialect config) (Sql.table config)
                          ilike select_reply)
                       (deleteMany (createSQLAdapter Number config) o) t in
          outcome r
          = Returned (count_where (delete_matches o) (map Sql.toCamelCase t))
          /\ map Sql.toCamelCase (final r)
             = filter (fun e => negb (delete_matches o e)) (map Sql.toCamelCase t)).
Proof.
  intros o. split; [|split].
  - intros ci fr t. apply prisma_deleteMany_run.
  - intros H lk sr t. apply drizzle_deleteMany_run. exact H.
  - intros H V Number config ilike sr t.
    destruct (sql_deleteMany_run config ilike sr o t H V) as [Ho Hf].
    cbn [deleteMany createSQLAdapter]. cbv zeta. rewrite Ho, Hf.
    rewrite <- count_where_map. split; [reflexivity|].
    rewrite filter_map_swap. reflexivity.
Qed.

(** ** [findMany] after [deleteMany] *)

(** The client accepts the [where] object of [findMany] unless it holds a
    search and the database has no insensitive mode. *)
Lemma prisma_find_where_accepted :
  forall contains_insensitive (q : QueryOptions),
    PrismaClient.accepts contains_insensitive (Prisma.findMany_where q)
    = present contains_insensitive || negb (truthy_opt (q_search q)).
Proof.
  intros ci [pg lm lv us se sd ed ob od].
  unfold Prisma.findMany_where, PrismaClient.accepts.
  destruct ci as [ci|];
    destruct lv as [lv|];
    destruct us as [us|]; try destruct (truthy us) eqn:Eu;
    destruct se as [se|]; try destruct (truthy se) eqn:Es;
    destruct sd as [sd|]; destruct ed as [ed|];
    simpl; rewrite ?Eu, ?Es; simpl; rewrite ?Es; reflexivity.
Qed.

Lemma prisma_findMany_total :
  forall contains_insensitive findMany_reply (q : QueryOptions)
         (t : PrismaClient.Table),
    (forall w ob s k, exists rows, findMany_reply w ob s k t = inr rows) ->
    let r := run (PrismaClient.client contains_insensitive findMany_reply)
                 (Prisma.findMany q) t in
    if present contains_insensitive || negb (truthy_opt (q_search q))
    then exists rows,
        outcome r
        = Returned {| logs := rows;
                      total := JsNum (count_where
                                        (row_matches
                                           (or_no_match contains_insensitive)
                                           (filters_of q))
                                        t) |}
    else outcome r = Threw PrismaClient.unknown_mode.
Proof.
  intros ci fr q t Hrows.
  unfold Prisma.findMany, settle. cbn [bind Monad_Prog pbind].
  rewrite outcome_act. unfold PrismaClient.client at 1 2.
  rewrite prisma_find_where_accepted.
  destruct (present ci || negb (truthy_opt (q_search q))) eqn:A.
  - destruct (Hrows (Prisma.findMany_where q) (orderBy_of q, order_of q)
                    (Double.mul (Double.sub (page_of q) (Double.of_Z 1))
                       (limit_of q))
                    (limit_of q)) as [rows Hr].
    rewrite Hr. exists rows. cbn [fst snd]. rewrite outcome_act.
    unfold PrismaClient.client. rewrite prisma_find_where_accepted, A. cbn.
    rewrite (count_where_ext _ _ _ t (prisma_where_matches ci q)). reflexivity.
  - cbn [fst snd]. rewrite outcome_act.
    unfold PrismaClient.client. rewrite prisma_find_where_accepted, A.
    reflexivity.
Qed.

Lemma drizzle_findMany_total :
  forall like_match select_reply (q : QueryOptions) (t : DrizzleDb.Table),
    (forall w ob l k, exists rows, select_reply w ob l k t = inr rows) ->
    exists rows,
      outcome (run (DrizzleDb.db like_match select_reply) (Drizzle.findMany q) t)
      = Returned {| logs := rows;
                    total := JsNum (count_where
                                      (row_matches
                                         (fun v s => like_match v ("%" ++ s ++ "%")%string)
                                         (filters_of q))
                                      t) |}.
Proof.
  intros lk sr q t Hrows.
  unfold Drizzle.findMany, call. cbn [bind Monad_Prog pbind].
  rewrite run_act. cbn [DrizzleDb.db fst snd].
  match goal with
  | |- context [sr ?w ?ob ?l ?k t] => destruct (Hrows w ob l k) as [rows Hr]
  end.
  rewrite Hr. exists rows. cbn.
  rewrite (count_where_ext _ _ _ t (drizzle_where_matches lk q)). reflexivity.
Qed.

Lemma sql_findMany_total :
  forall Number (config : Sql.SQLAdapterConfig) ilike select_reply
         (q : QueryOptions) (t : SqlEngine.Table),
    dates_valid q = true ->
    (forall sql ps, exists rows, select_reply sql ps t = inr rows) ->
    let r := run (SqlEngine.engine (Sql.dialect config) (Sql.table config)
                    ilike select_reply)
                 (Sql.findMany Number config q) t in
    if has_ilike (Sql.dialect config) || negb (truthy_opt (q_search q))
    then exists rows,
        outcome r
        = Returned
            {| logs := rows;
               total :=
                 Sql.count_total Number
                   [ {| Sql.count :=
                          SqlEngine.reported_count (Sql.dialect config)
                            (count_where
                               (row_matches
                                  (fun v s => ilike v ("%" ++ s ++ "%")%string)
                                  (filters_of q))
                               (map Sql.toCamelCase t)) |} ] |}
    else outcome r = Threw SqlEngine.syntax_error.
Proof.
  intros Number config ilike sr q t Hq Hrows.
  destruct (has_ilike (Sql.dialect config) || negb (truthy_opt (q_search q)))
    eqn:A.
  - destruct (sql_where_matches config ilike q Hq A) as (b & p & Hb & Hc & Hp).
    unfold Sql.findMany. rewrite Hb.
    unfold settle. cbn [bind Monad_Prog pbind].
    rewrite outcome_act. cbn [SqlEngine.engine fst snd].
    destruct (Hrows (Sql.select_sql config q b) (Sql.params b)) as [rows Hr].
    rewrite Hr. cbn [pbind]. rewrite outcome_act.
    rewrite (engine_count config ilike sr b t), Hc.
    exists (map (Sql.toCamelCase) rows). cbn [fst snd pbind Sql.promise_all2].
    rewrite (count_where_ext _ _ _ t Hp).
    rewrite (count_where_map _ _ Sql.toCamelCase). reflexivity.
  - apply orb_false_iff in A. destruct A as [D S].
    apply negb_false_iff in S.
    destruct (search_clause config ilike q Hq S) as (b & Hb & _ & _ & He & _).
    unfold Sql.findMany. rewrite Hb.
    unfold settle. cbn [bind Monad_Prog pbind].
    rewrite outcome_act. cbn [SqlEngine.engine fst snd].
    destruct (Hrows (Sql.select_sql config q b) (Sql.params b)) as [rows Hr].
    rewrite Hr. cbn [pbind]. rewrite outcome_act.
    rewrite (engine_count config ilike sr b t), He.
    destruct (Sql.dialect config); [discriminate D| |]; reflexivity.
Qed.

Lemma count_where_none :
  forall (A : Type) (p : A -> bool) (t : list A),
    (forall a, In a t -> p a = false) -> count_where p t = 0.
Proof.
  intros A p t H. unfold count_where.
  induction t as [|a t IH]; simpl; [reflexivity|].
  rewrite (H a (or_introl eq_refl)). apply IH.
  intros x Hx. apply H. right. exact Hx.
Qed.

(** No row of the level is left among those a [deleteMany] by that level
    keeps. *)
Lemma level_rows_are_gone :
  forall text_match (l : LogLevel) (q : QueryOptions) (t : list ErrorLogEntry),
    q_level q = Some l ->
    count_where (row_matches text_match (filters_of q))
      (filter (fun e => negb (delete_matches (of_level l) e)) t) = 0.
Proof.
  intros tm l q t Hl. apply count_where_none. intros e He.
  apply filter_In in He. destruct He as [_ He].
  unfold delete_matches, of_level in He. simpl in He.
  apply negb_true_iff in He.
  unfold row_matches, filters_of. simpl. rewrite Hl. simpl. rewrite He.
  reflexivity.
Qed.

(** X27. After [deleteMany({ level })], [findMany] with that level finds
    nothing: its [total] is 0, whatever its other filters, page and limit,
    on every database that reads the query.  With a search term that is a
    PostgreSQL database for raw SQL, and for Prisma a database whose
    string filters have the insensitive mode; on the others [findMany]
    throws what the database answers: the syntax error, or the unknown
    argument [mode].  A PostgreSQL driver reports the count as the text
    [0], which [Number] turns into 0.  The Drizzle adapter is read by
    every database. *)
Theorem deleteMany_then_findMany_by_level :
  forall (l : LogLevel) (q : QueryOptions),
    q_level q = Some l ->
    dates_valid q = true ->
    (forall contains_insensitive findMany_reply (t : PrismaClient.Table),
        (forall w ob s k t', exists rows, findMany_reply w ob s k t' = inr rows) ->
        let r := run (PrismaClient.client contains_insensitive findMany_reply)
                     (_ <- deleteMany createPrismaAdapter (of_level l) ;;
                      findMany createPrismaAdapter q) t in
        if present contains_insensitive || negb (truthy_opt (q_search q))
        then exists rows,
            outcome r = Returned {| logs := rows; total := JsNum 0 |}
        else outcome r = Threw PrismaClient.unknown_mode)
    /\ (forall like_match select_reply (t : DrizzleDb.Table),
           (forall w ob k s t', exists rows, select_reply w ob k s t' = inr rows) ->
           exists rows,
             outcome (run (DrizzleDb.db like_match select_reply)
                          (_ <- deleteMany createDrizzleAdapter (of_level l) ;;
                           findMany createDrizzleAdapter q) t)
             = Returned {| logs := rows; total := JsNum 0 |})
    /\ (forall Number (config : Sql.SQLAdapterConfig) ilike select_reply
               (t : SqlEngine.Table),
           Number "0" = JsNum 0 ->
           (forall sql ps t', exists rows, select_reply sql ps t' = inr rows) ->
           let r := run (SqlEngine.engine (Sql.dialect config) (Sql.table config)
                           ilike select_reply)
                        (_ <- deleteMany (createSQLAdapter Number config) (of_level l) ;;
                         findMany (createSQLAdapter Number config) q) t in
           if has_ilike (Sql.dialect config) || negb (truthy_opt (q_search q))
           then exists rows,
               outcome r = Returned {| logs := rows; total := JsNum 0 |}
           else outcome r = Threw SqlEngine.syntax_error).
Proof.
  intros l q Hl Hv. split; [|split].
  - intros ci fr t Hrows. cbn [bind Monad_Prog deleteMany findMany createPrismaAdapter].
    cbv zeta. rewrite run_pbind. cbn zeta.
    destruct (prisma_deleteMany_run ci fr (of_level l) t) as [-> ->].
    pose proof (prisma_findMany_total ci fr q
                  (filter (fun e => negb (delete_matches (of_level l) e)) t)
                  (fun w ob s k => Hrows w ob s k _)) as T.
    cbv zeta in T.
    destruct (present ci || negb (truthy_opt (q_search q))).
    + destruct T as [rows Hr]. exists rows. cbn [outcome].
      rewrite Hr, (level_rows_are_gone _ l q t Hl). reflexivity.
    + cbn [outcome]. rewrite T. reflexivity.
  - intros lk sr t Hrows. cbn [bind Monad_Prog deleteMany findMany createDrizzleAdapter].
    rewrite run_pbind. cbn zeta.
    destruct (drizzle_deleteMany_run lk sr (of_level l) t eq_refl) as [-> ->].
    destruct (drizzle_findMany_total lk sr q
                (filter (fun e => negb (delete_matches (of_level l) e)) t)
                (fun w ob s k => Hrows w ob s k _)) as [rows Hr].
    exists rows. cbn [outcome]. rewrite Hr, (level_rows_are_gone _ l q t Hl).
    reflexivity.
  - intros Number config ilike sr t HN Hrows.
    cbn [bind Monad_Prog deleteMany findMany createSQLAdapter].
    cbv zeta. rewrite run_pbind. cbn zeta.
    destruct (sql_deleteMany_run config ilike sr (of_level l) t eq_refl eq_refl)
      as [-> ->].
    pose proof (sql_findMany_total Number config ilike sr q
                  (filter (fun row => negb (delete_matches (of_level l)
                                              (Sql.toCamelCase row))) t)
                  Hv (fun sql ps => Hrows sql ps _)) as T.
    cbv zeta in T.
    destruct (has_ilike (Sql.dialect config) || negb (truthy_opt (q_search q))).
    + destruct T as [rows Hr]. exists rows. cbn [outcome]. rewrite Hr.
      rewrite <- (filter_map_swap
                    (fun e => negb (delete_matches (of_level l) e))
                    Sql.toCamelCase t).
      rewrite (level_rows_are_gone _ l q (map Sql.toCamelCase t) Hl).
      destruct (Sql.dialect config); cbn; rewrite ?HN; reflexivity.
    + cbn [outcome]. rewrite T. reflexivity.
Qed.

(** ** [findById] after [delete] *)

Lemma filter_filter_negb :
  forall (A : Type) (p : A -> bool) (t : list A),
    filter p (filter (fun a => negb (p a)) t) = [].
Proof.
  intros A p t. induction t as [|a t IH]; simpl; [reflexivity|].
  destruct (p a) eqn:E; simpl; rewrite ?E; exact IH.
Qed.

Lemma find_filter_negb :
  forall (A : Type) (p : A -> bool) (t : list A),
    find p (filter (fun a => negb (p a)) t) = None.
Proof.
  intros A p t. induction t as [|a t IH]; simpl; [reflexivity|].
  destruct (p a) eqn:E; simpl; rewrite ?E; exact IH.
Qed.

Lemma store_delete_by_id :
  forall (config : Sql.SQLAdapterConfig) ilike read_json select_reply
         (i : string) (t : SqlStore.Table),
    SqlStore.engine (Sql.dialect config) (Sql.table config) ilike read_json
      select_reply
      (Sql.Execute ("DELETE FROM " ++ Sql.table config ++ " WHERE id = "
                    ++ Sql.ph config 1) [Sql.SqlText i]) t
    = (inr (count_where (fun r => String.eqb (Sql.col_id r) i) t),
       filter (fun r => negb (String.eqb (Sql.col_id r) i)) t).
Proof.
  intros config ilike read_json select_reply i t. unfold SqlStore.engine.
  change (SqlStore.as_insert (Sql.table config) _) with (@None string).
  apply engine_delete_by_id.
Qed.

(** X28. After [delete(id)], [findById(id)] returns [null], and the rows
    with another id are all still there, in their order: for raw SQL on
    the engine that reads its statements, for Drizzle on a database that
    answers a row query with rows of the table that satisfy the condition,
    and for Prisma when the table has a row with the id. *)
Theorem delete_then_findById :
  forall i : string,
    (forall Number (config : Sql.SQLAdapterConfig) ilike read_json select_reply
            (t : SqlStore.Table),
        let r := run (SqlStore.engine (Sql.dialect config) (Sql.table config)
                        ilike read_json select_reply)
                     (_ <- delete (createSQLAdapter Number config) i ;;
                      findById (createSQLAdapter Number config) i) t in
        outcome r = Returned None
        /\ final r = filter (fun row => negb (String.eqb (Sql.col_id row) i)) t)
    /\ (forall like_match select_reply (t : DrizzleDb.Table),
           (forall w ob k s t',
               exists rows,
                 select_reply w ob k s t' = inr rows
                 /\ incl rows (filter (DrizzleDb.where_holds like_match w) t')) ->
           let r := run (DrizzleDb.db like_match select_reply)
                        (_ <- delete createDrizzleAdapter i ;;
                         findById createDrizzleAdapter i) t in
           outcome r = Returned None
           /\ final r = filter (fun e => negb (String.eqb (id e) i)) t)
    /\ (forall contains_insensitive findMany_reply (t : PrismaClient.Table),
           existsb (PrismaClient.has_id i) t = true ->
           let r := run (PrismaClient.client contains_insensitive findMany_reply)
                        (_ <- delete createPrismaAdapter i ;;
                         findById createPrismaAdapter i) t in
           outcome r = Returned None
           /\ final r = filter (fun e => negb (String.eqb (id e) i)) t).
Proof.
  intros i. split; [|split].
  - intros Number config ilike read_json sr t.
    cbn [bind Monad_Prog delete findById createSQLAdapter].
    unfold Sql.delete, Sql.findById, call. cbn [bind ret Monad_Prog pbind].
    rewrite run_act, store_delete_by_id. cbn [fst snd await pbind].
    rewrite run_act, store_select_by_id, filter_filter_negb. cbn.
    split; reflexivity.
  - intros lk sr t Hrows.
    cbn [bind Monad_Prog delete findById createDrizzleAdapter].
    unfold Drizzle.delete, Drizzle.findById, call. cbn [bind ret Monad_Prog pbind].
    rewrite run_act. cbn [DrizzleDb.db fst snd await pbind]. rewrite run_act.
    cbn [DrizzleDb.db fst snd].
    match goal with
    | |- context [sr ?w ?ob ?k ?s ?t'] =>
        destruct (Hrows w ob k s t') as (rows & Hr & Hin)
    end.
    rewrite Hr. cbn [await pbind].
    destruct rows as [|e rows].
    + cbn. split; reflexivity.
    + exfalso. specialize (Hin e (or_introl eq_refl)).
      apply filter_In in Hin. destruct Hin as [Hin He].
      apply filter_In in Hin. destruct Hin as [_ Hn].
      cbn in He, Hn. rewrite He in Hn. discriminate Hn.
  - intros ci fr t H.
    cbn [bind Monad_Prog delete findById createPrismaAdapter].
    rewrite run_pbind. cbn zeta. rewrite prisma_delete_run. cbn [outcome final].
    destruct (find (PrismaClient.has_id i) t) eqn:E.
    + unfold Prisma.findById, call. rewrite run_act. cbn.
      rewrite (find_filter_negb _ (PrismaClient.has_id i) t). cbn.
      split; reflexivity.
    + exfalso. clear -H E. induction t as [|a t IH]; simpl in *; [discriminate H|].
      destruct (PrismaClient.has_id i a); [discriminate E | apply IH; assumption].
Qed.

(** ** The queries of [findMany] *)


(** ** The further properties at sample inputs *)

Lemma logging_through_log_never_throws_witness :
  Logger.explicit_user (Logger.CallError "boom" None None) = false
  /\ exists res : LogResult,
      outcome (run storage_down
                   (Logger.perform None (Some sample_config)
                      (Logger.CallError "boom" None None)) 0%nat)
      = Returned res.
Proof.
  split; [reflexivity|].
  apply (logging_through_log_never_throws nat storage_down None
           (Some sample_config) (Logger.CallError "boom" None None) 0%nat).
  reflexivity.
Defined.

Lemma filtered_level_is_a_no_op_witness :
  Logger.filtered_out sample_config LvInfo = true
  /\ (let r := run signed_in
                   (Logger.perform None (Some sample_config)
                      (Logger.CallInfo "checkout done" None)) 0%nat in
      outcome r = Returned {| success := true; entry := None; error := None |}
      /\ calls r = [] /\ console r = [] /\ final r = 0%nat).
Proof.
  split; [reflexivity|].
  apply (filtered_level_is_a_no_op nat signed_in None sample_config
           (Logger.CallInfo "checkout done" None) 0%nat); reflexivity.
Defined.

Lemma storage_failure_is_returned_witness :
  outcome (run storage_down
               (Logger.perform None (Some sample_config)
                  (Logger.CallUserError sample_user "boom" None None)) 0%nat)
  = Returned {| success := false; entry := None;
                error := Some "connection refused" |}.
Proof.
  apply (storage_failure_is_returned nat storage_down None sample_config
           (Logger.CallUserError sample_user "boom" None None) 0%nat
           (ThrowError "connection refused")).
  - intros H. discriminate H.
  - intros entry w'. reflexivity.
Defined.

Lemma development_echo_witness :
  exists rest : list ConsoleLine,
    console (run storage_down
                 (Logger.perform (Some "development")
                    (Logger.initErrorLogger sample_config Logger.uninitialized)
                    (Logger.CallWarn "slow query" None None)) 0%nat)
    = {| console_method := ConsoleWarn;
         console_args := [CText "[WARN]"; CText "slow query";
                          CText EmptyString; CText EmptyString] |} :: rest.
Proof.
  apply (development_echo nat storage_down sample_config Logger.uninitialized
           (Logger.CallWarn "slow query" None None) 0%nat).
  - reflexivity.
  - reflexivity.
  - intros H. discriminate H.
Defined.

Lemma console_is_quiet_outside_development_witness :
  Logger.is_development (Some "production") = false
  /\ console (run storage_down
                  (Logger.perform (Some "production") (Some sample_config)
                     (Logger.CallError "boom" None None)) 0%nat)
     = [failed_to_log (ThrowError "connection refused")].
Proof.
  split; [reflexivity|].
  apply (proj2 (proj2 (proj2
           (console_is_quiet_outside_development nat storage_down
              (Some "production") (Some sample_config)
              (Logger.CallError "boom" None None) 0%nat eq_refl)))
           sample_config (ThrowError "connection refused")).
  - reflexivity.
  - reflexivity.
  - reflexivity.
  - intros entry w'. reflexivity.
Defined.

Lemma withUser_stores_the_given_user_witness :
  exists entry : NewEntry,
    calls (run signed_in
               (Logger.perform (Some "development") (Some sample_config)
                  (Logger.CallUserInfo sample_user "checkout done" None)) 0%nat)
    = [Logger.Create entry]
    /\ new_userId entry = Some "user-123".
Proof.
  destruct (withUser_stores_the_given_user nat signed_in (Some "development")
              sample_config (Logger.CallUserInfo sample_user "checkout done" None)
              sample_user 0%nat eq_refl) as (entry & Hc & Hi & _).
  exists entry. split; [exact Hc | exact Hi].
Defined.

Lemma session_user_is_stored_witness :
  exists entry : NewEntry,
    calls (run signed_in
               (Logger.perform None (Some sample_config)
                  (Logger.CallError "boom" None None)) 0%nat)
    = [Logger.GetUser; Logger.Create entry]
    /\ new_userId entry = Some "user-123"
    /\ new_userEmail entry = Some "user@example.com"
    /\ new_userName entry = None.
Proof.
  destruct (session_user_is_stored nat signed_in None sample_config
              (Logger.CallError "boom" None None) 0%nat eq_refl eq_refl)
    as [_ H].
  destruct (H eq_refl) as (entry & Hc & Hu).
  exists entry. split; [exact Hc | exact Hu].
Defined.


Lemma forwarded_for_first_address_witness :
  ctx_ip (Logger.extractRequestContext sample_request) = Some "1.2.3.4".
Proof.
  apply (forwarded_for_first_address sample_request " " "1.2.3.4" " " ", 5.6.7.8").
  - reflexivity.
  - reflexivity.
  - intros H. discriminate H.
  - reflexivity.
  - reflexivity.
  - right. exists " 5.6.7.8". reflexivity.
Defined.

Lemma address_falls_back_to_real_ip_witness :
  names_no_client
    (Logger.headers_get (Logger.headers direct_request) "x-forwarded-for") = true
  /\ ctx_ip (Logger.extractRequestContext direct_request) = Some "9.9.9.9".
Proof.
  split; [reflexivity|].
  apply (address_falls_back_to_real_ip direct_request). reflexivity.
Defined.

Lemma clerk_getUser_by_fetchUser_witness :
  outcome (run clerk_fetch_down (Clerk.getUser {| Clerk.fetchUser := true |}) tt)
  = Returned None.
Proof.
  apply (clerk_getUser_by_fetchUser unit clerk_fetch_down "user_1" tt tt);
    reflexivity.
Defined.

Lemma unauthorized_is_401_witness :
  (let r := run (sample_route false true)
                (route_handler sample_parseInt (fun _ => InvalidDate) 0
                   (Some sample_config) Stats) tt in
   outcome r = Returned (ApiRoutes.json_error "Unauthorized" 401)
   /\ calls r = [ApiRoutes.IsAuthorized] /\ console r = [])
  /\ (let r := run (null_body false)
                   (Api.DELETE (fun _ => InvalidDate) (Some sample_config)) tt in
      outcome r = Returned (Api.json_error "Unauthorized" 401)
      /\ calls r = [Api.IsAuthorized] /\ console r = []).
Proof.
  split.
  - apply (proj1 unauthorized_is_401 unit (sample_route false true)
             sample_parseInt (fun _ => InvalidDate) 0 (Some sample_config)
             Stats tt tt). reflexivity.
  - apply (proj2 unauthorized_is_401 unit (null_body false)
             (fun _ => InvalidDate) (Some sample_config) tt tt). reflexivity.
Defined.

Lemma uninitialized_logger_is_500_witness :
  (let r := run (sample_route true true)
                (route_handler sample_parseInt (fun _ => InvalidDate) 0
                   Logger.uninitialized DetailGet) tt in
   outcome r = Returned (ApiRoutes.json_error "Logger not initialized" 500)
   /\ calls r = [ApiRoutes.IsAuthorized] /\ console r = [])
  /\ (let r := run (null_body true)
                   (Api.DELETE (fun _ => InvalidDate) Logger.uninitialized) tt in
      outcome r = Returned (Api.json_error "Logger not initialized" 500)
      /\ calls r = [Api.IsAuthorized] /\ console r = []).
Proof.
  split.
  - apply (proj1 uninitialized_logger_is_500 unit (sample_route true true)
             sample_parseInt (fun _ => InvalidDate) 0 DetailGet tt tt).
    reflexivity.
  - apply (proj2 uninitialized_logger_is_500 unit (null_body true)
             (fun _ => InvalidDate) tt tt). reflexivity.
Defined.

Lemma list_limit_is_capped_witness :
  exists (options : ApiRoutes.FindManyArgs) (l : JsNumber),
    calls (run (sample_route true true)
               (ApiRoutes.createLogAPIHandlers_GET sample_parseInt
                  (fun _ => InvalidDate) (Some sample_config)
                  [("limit", "500")]) tt)
    = [ApiRoutes.IsAuthorized; ApiRoutes.AdapterFindMany options]
    /\ ApiRoutes.limit options = Some l
    /\ is_NaN l || at_most 100 l = true.
Proof.
  destruct (list_limit_is_capped unit (sample_route true true) sample_parseInt
              (fun _ => InvalidDate) sample_config [("limit", "500")] tt tt
              eq_refl) as (options & l & Hc & Hl & Hm & _).
  exists options, l. repeat split; assumption.
Defined.

Lemma route_handlers_never_throw_witness :
  exists response : ApiRoutes.Response,
    outcome (run (sample_route true false)
                 (route_handler sample_parseInt (fun _ => InvalidDate) 0
                    (Some sample_config) Stats) tt)
    = Returned response.
Proof.
  apply (route_handlers_never_throw unit (sample_route true false)
           sample_parseInt (fun _ => InvalidDate) 0 (Some sample_config) Stats tt).
  - intros w0. exists true. reflexivity.
  - intros w0. exists "abc". reflexivity.
Defined.

Lemma adapter_failure_is_a_generic_500_witness :
  let r := run (sample_route true false)
               (route_handler sample_parseInt (fun _ => InvalidDate) 0
                  (Some sample_config) (ListGet [])) tt in
  outcome r = Returned (ApiRoutes.json_error "Failed to fetch logs" 500)
  /\ console r = [api_error_line (ThrowError "connection refused")].
Proof.
  apply (adapter_failure_is_a_generic_500 unit (sample_route true false)
           sample_parseInt (fun _ => InvalidDate) 0 sample_config (ListGet [])
           (ThrowError "connection refused") tt tt).
  - reflexivity.
  - intros w0. exists "abc". reflexivity.
  - intros c w0 H. destruct c; try discriminate H; reflexivity.
Defined.

Lemma detail_get_answers_witness :
  outcome (run (sample_route true true)
               (ApiRoutes.createLogDetailAPIHandlers_GET (Some sample_config)) tt)
  = Returned (ApiRoutes.json_error "Not found" 404).
Proof.
  apply (detail_get_answers unit (sample_route true true) sample_config "abc"
           tt tt tt); reflexivity.
Defined.

Lemma detail_delete_of_a_missing_id_witness :
  (existsb (fun r => String.eqb (Sql.col_id r) "missing") sample_rows = false
   /\ outcome (run (detail_route (createSQLAdapter (fun _ => JsNaN) sample_sql_config)
                      (SqlEngine.engine Sql.Postgres "error_logs" sample_like
                         (fun _ _ t => inr t)) true "missing")
                   (ApiRoutes.createLogDetailAPIHandlers_DELETE (Some sample_config))
                   sample_rows)
      = Returned (ApiRoutes.json ApiRoutes.SuccessBody))
  /\ (existsb (fun e => String.eqb (id e) "missing") sample_entries = false
      /\ outcome (run (detail_route createDrizzleAdapter
                         (DrizzleDb.db sample_like (fun _ _ _ _ t => inr t))
                         true "missing")
                      (ApiRoutes.createLogDetailAPIHandlers_DELETE (Some sample_config))
                      sample_entries)
         = Returned (ApiRoutes.json ApiRoutes.SuccessBody))
  /\ (existsb (PrismaClient.has_id "missing") sample_entries = false
      /\ outcome (run (detail_route createPrismaAdapter
                         (PrismaClient.client (Some sample_contains) (fun _ _ _ _ t => inr t))
                         true "missing")
                      (ApiRoutes.createLogDetailAPIHandlers_DELETE (Some sample_config))
                      sample_entries)
         = Returned (ApiRoutes.json_error "Failed to delete log" 500)).
Proof.
  pose proof (detail_delete_of_a_missing_id sample_config "missing")
    as (HS & HD & HP).
  split; [|split]; (split; [reflexivity|]).
  - apply (HS (fun _ => JsNaN) sample_sql_config sample_like (fun _ _ t => inr t)
              sample_rows). reflexivity.
  - apply (HD sample_like (fun _ _ _ _ t => inr t) sample_entries). reflexivity.
  - apply (HP (Some sample_contains) (fun _ _ _ _ t => inr t) sample_entries). reflexivity.
Defined.

Lemma stats_are_six_counts_witness :
  outcome (run (sample_route true true)
               (ApiRoutes.createLogStatsHandler 100000000 (Some sample_config)) tt)
  = Returned (ApiRoutes.json
                (ApiRoutes.StatsBody (JsNum 7)
                   {| ApiRoutes.error := JsNum 7; ApiRoutes.warn := JsNum 7;
                      ApiRoutes.info := JsNum 7; ApiRoutes.debug := JsNum 7 |}
                   (JsNum 7))).
Proof.
  apply (stats_are_six_counts unit (sample_route true true) 100000000
           sample_config (fun _ => {| logs := []; total := JsNum 7 |}) tt).
  - intros w0. reflexivity.
  - intros o w0. reflexivity.
Defined.

Lemma stats_start_five_counts_together_witness :
  let r := run flaky_route
               (ApiRoutes.createLogStatsHandler 100000000 (Some sample_config))
               0%nat in
  calls r = ApiRoutes.IsAuthorized :: stats_counts
  /\ outcome r = Returned (ApiRoutes.json_error "Failed to fetch stats" 500).
Proof.
  exact (proj2 (stats_start_five_counts_together nat flaky_route 100000000
                  sample_config 0%nat 0%nat 1%nat 2%nat 3%nat 4%nat 5%nat
                  (inr {| logs := []; total := JsNum 7 |})
                  (inr {| logs := []; total := JsNum 7 |})
                  (inl (ThrowError "connection refused"))
                  (inr {| logs := []; total := JsNum 7 |})
                  (inr {| logs := []; total := JsNum 7 |})
                  eq_refl eq_refl eq_refl eq_refl eq_refl eq_refl)).
Defined.

Lemma sql_create_then_findById_witness :
  existsb (fun r => String.eqb (Sql.col_id r) "d") sample_rows = false
  /\ (let row := inserted_row (fun _ => "{}") (fun _ => None) "d" 40
                   sample_new_entry in
      outcome (run (SqlStore.engine Sql.Mysql "logs" sample_like (fun _ => None)
                      (fun _ _ t => inr t))
                   (made <- SqlCreate.create (fun _ => "{}")
                              {| Sql.tableName := Some "logs";
                                 Sql.dialect := Sql.Mysql |}
                              "d" 40 sample_new_entry ;;
                    found <- findById
                               (createSQLAdapter (fun _ => JsNaN)
                                  {| Sql.tableName := Some "logs";
                                     Sql.dialect := Sql.Mysql |}) "d" ;;
                    ret (made, found)) sample_rows)
      = Returned (Sql.toCamelCase row, Some (Sql.toCamelCase row))).
Proof.
  split; [reflexivity|].
  apply (sql_create_then_findById (fun _ => "{}") (fun _ => None) (fun _ => JsNaN)
           {| Sql.tableName := Some "logs"; Sql.dialect := Sql.Mysql |}
           sample_like (fun _ _ t => inr t) "d" 40 sample_new_entry sample_rows).
  reflexivity.
Defined.

Lemma sql_invalid_date_throws_before_any_statement_witness :
  (let r := run (SqlEngine.engine Sql.Postgres "error_logs" sample_like
                   (fun _ _ t => inr t))
                (findMany (createSQLAdapter (fun _ => JsNaN) sample_sql_config)
                   {| q_page := None; q_limit := None; q_level := None;
                      q_userId := None; q_search := None;
                      q_startDate := Some InvalidDate; q_endDate := None;
                      q_orderBy := None; q_order := None |}) sample_rows in
   outcome r = Threw (ThrowError "Invalid time value")
   /\ calls r = [] /\ final r = sample_rows)
  /\ (let r := run (SqlEngine.engine Sql.Postgres "error_logs" sample_like
                      (fun _ _ t => inr t))
                   (deleteMany (createSQLAdapter (fun _ => JsNaN) sample_sql_config)
                      {| d_before := Some InvalidDate; d_level := Some LvError |})
                   sample_rows in
      outcome r = Threw (ThrowError "Invalid time value")
      /\ calls r = [] /\ final r = sample_rows).
Proof.
  pose proof (sql_invalid_date_throws_before_any_statement (fun _ => JsNaN)
                sample_sql_config SqlEngine.Table
                (SqlEngine.engine Sql.Postgres "error_logs" sample_like
                   (fun _ _ t => inr t)) sample_rows) as [HF HD].
  split.
  - apply (HF {| q_page := None; q_limit := None; q_level := None;
                 q_userId := None; q_search := None;
                 q_startDate := Some InvalidDate; q_endDate := None;
                 q_orderBy := None; q_order := None |}). reflexivity.
  - apply (HD {| d_before := Some InvalidDate; d_level := Some LvError |}).
    reflexivity.
Defined.

Lemma deleteMany_deletes_the_selected_rows_witness :
  let o := {| d_before := Some (ValidDate 25); d_level := Some LvError |} in
  has_filter o = true
  /\ outcome (run (PrismaClient.client (Some sample_contains) (fun _ _ _ _ t => inr t))
                  (deleteMany createPrismaAdapter o) sample_entries)
     = Returned 2
  /\ outcome (run (DrizzleDb.db sample_like (fun _ _ _ _ t => inr t))
                  (deleteMany createDrizzleAdapter o) sample_entries)
     = Returned 2
  /\ outcome (run (SqlEngine.engine Sql.Postgres "error_logs" sample_like
                     (fun _ _ t => inr t))
                  (deleteMany (createSQLAdapter (fun _ => JsNaN) sample_sql_config) o)
                  sample_rows)
     = Returned 2.
Proof.
  intros o.
  pose proof (deleteMany_deletes_the_selected_rows o) as (HP & HD & HS).
  split; [reflexivity|]. split; [|split].
  - apply (HP (Some sample_contains) (fun _ _ _ _ t => inr t) sample_entries).
  - apply (HD eq_refl sample_like (fun _ _ _ _ t => inr t) sample_entries).
  - apply (HS eq_refl eq_refl (fun _ => JsNaN) sample_sql_config sample_like
              (fun _ _ t => inr t) sample_rows).
Defined.

Lemma deleteMany_then_findMany_by_level_witness :
  q_level sample_query = Some LvError
  /\ dates_valid sample_query = true
  /\ sample_Number "0" = JsNum 0
  /\ (exists rows,
         outcome (run (PrismaClient.client (Some sample_contains)
                         (fun _ _ _ _ t => inr t))
                      (_ <- deleteMany createPrismaAdapter (of_level LvError) ;;
                       findMany createPrismaAdapter sample_query) sample_entries)
         = Returned {| logs := rows; total := JsNum 0 |})
  /\ (exists rows,
         outcome (run (DrizzleDb.db sample_like (fun _ _ _ _ t => inr t))
                      (_ <- deleteMany createDrizzleAdapter (of_level LvError) ;;
                       findMany createDrizzleAdapter sample_query) sample_entries)
         = Returned {| logs := rows; total := JsNum 0 |})
  /\ (exists rows,
         outcome (run (SqlEngine.engine Sql.Postgres "error_logs" sample_like
                         (fun _ _ t => inr t))
                      (_ <- deleteMany
                              (createSQLAdapter sample_Number sample_sql_config)
                              (of_level LvError) ;;
                       findMany (createSQLAdapter sample_Number sample_sql_config)
                         sample_query) sample_rows)
         = Returned {| logs := rows; total := JsNum 0 |})
  /\ outcome (run (SqlEngine.engine Sql.Sqlite "error_logs" sample_like
                     (fun _ _ t => inr t))
                  (_ <- deleteMany
                          (createSQLAdapter sample_Number sample_sqlite_config)
                          (of_level LvError) ;;
                   findMany (createSQLAdapter sample_Number sample_sqlite_config)
                     sample_query) sample_rows)
     = Threw SqlEngine.syntax_error.
Proof.
  split; [reflexivity|]. split; [reflexivity|]. split; [reflexivity|].
  pose proof (deleteMany_then_findMany_by_level LvError sample_query eq_refl eq_refl)
    as (HP & HD & HS).
  split; [|split; [|split]].
  - apply (HP (Some sample_contains) (fun _ _ _ _ t => inr t) sample_entries).
    intros. eexists. reflexivity.
  - apply (HD sample_like (fun _ _ _ _ t => inr t) sample_entries).
    intros. eexists. reflexivity.
  - apply (HS sample_Number sample_sql_config sample_like (fun _ _ t => inr t)
              sample_rows eq_refl).
    intros. eexists. reflexivity.
  - apply (HS sample_Number sample_sqlite_config sample_like (fun _ _ t => inr t)
              sample_rows eq_refl).
    intros. eexists. reflexivity.
Defined.

Lemma delete_then_findById_witness :
  (let r := run (SqlStore.engine Sql.Postgres "error_logs" sample_like
                   (fun _ => None) (fun _ _ t => inr t))
                (_ <- delete (createSQLAdapter (fun _ => JsNaN) sample_sql_config) "b" ;;
                 findById (createSQLAdapter (fun _ => JsNaN) sample_sql_config) "b")
                sample_rows in
   outcome r = Returned None
   /\ final r = [sample_row "a" (Some "u1") 10; sample_row "c" (Some "u1") 30])
  /\ (let r := run (DrizzleDb.db sample_like
                      (fun w _ _ _ t =>
                         inr (filter (DrizzleDb.where_holds sample_like w) t)))
                   (_ <- delete createDrizzleAdapter "b" ;;
                    findById createDrizzleAdapter "b") sample_entries in
      outcome r = Returned None
      /\ final r = [sample_entry "a" (Some "u1") 10; sample_entry "c" (Some "u1") 30])
  /\ existsb (PrismaClient.has_id "b") sample_entries = true
  /\ (let r := run (PrismaClient.client (Some sample_contains) (fun _ _ _ _ t => inr t))
                   (_ <- delete createPrismaAdapter "b" ;;
                    findById createPrismaAdapter "b") sample_entries in
      outcome r = Returned None
      /\ final r = [sample_entry "a" (Some "u1") 10; sample_entry "c" (Some "u1") 30]).
Proof.
  pose proof (delete_then_findById "b") as (HS & HD & HP).
  split; [|split; [|split; [reflexivity|]]].
  - apply (HS (fun _ => JsNaN) sample_sql_config sample_like (fun _ => None)
              (fun _ _ t => inr t) sample_rows).
  - apply (HD sample_like
              (fun w _ _ _ t => inr (filter (DrizzleDb.where_holds sample_like w) t))
              sample_entries).
    intros w ob k s t'. eexists. split; [reflexivity|]. apply incl_refl.
  - apply (HP (Some sample_contains) (fun _ _ _ _ t => inr t) sample_entries).
    reflexivity.
Defined.


Lemma list_delete_never_throws_witness :
  outcome (run (null_body true)
               (Api.DELETE (fun _ => InvalidDate) (Some sample_config)) tt)
  = Returned (Api.json_error "Failed to delete logs" 500).
Proof.
  destruct (list_delete_never_throws unit (null_body true) (fun _ => InvalidDate)
              (Some sample_config) tt (ex_intro _ true eq_refl)) as [_ H].
  apply (H sample_config tt tt); reflexivity.
Defined.
